(** * Replay sequencing engine of the F1 race intelligence backend

    A shallow embedding of [app/services/replay_service.py], of the telemetry
    query of [app/services/f1_queries.py] and of the WebSocket endpoint
    [replay_race], followed by the properties of the replay stream.

    Modelling conventions.
    - A stored Python [float] (a time, a coordinate) is the rational number
      it denotes ([Q]); stored values are finite.  The floats the replay loop
      computes are binary64 values ([Float64.t]): every addition and division
      rounds to the nearest binary64 number, ties to even, with subnormals
      and overflow to an infinity.  The two zeros are not told apart; they
      compare equal and the loop never divides by one.  Python [int] is [Z].
    - A Python [dict] is an association list in insertion order: assigning to
      a present key replaces the value in place, assigning to a fresh key
      appends.  The order matters because [build_replay_frame] iterates
      [driver_frames.items()].
    - The async generator is a function to the ordered list of its observable
      events (store query, yielded frame, sleep) and an outcome.  The
      [while] loop takes a fuel argument that bounds the number of
      iterations; running out of fuel is the outcome [OutOfFuel], kept apart
      from a normal return.
    - The frame sink ([websocket.send_json]) is an oracle from the messages
      sent so far and the message being sent to the result of the call. *)

From Stdlib Require Import String DecimalString.
From Stdlib Require Import List ZArith QArith Qround Qabs Qpower Qreduction.
From Stdlib Require Import Bool Lia Lqa.
From Stdlib Require Import Permutation Sorted.
Import ListNotations.

Local Open Scope Q_scope.

(** ** Rational comparisons used by the loop guards *)

Definition Qlt_bool (a b : Q) : bool := negb (Qle_bool b a).

(** ** Binary64 arithmetic *)

Module Float64.

(** A binary64 value: a finite number, an infinity or a NaN. *)
Inductive t : Type :=
| Finite (q : Q)
| Infinity (negative : bool)
| NaN.

(** [2 ** e] *)
Definition pow2 (e : Z) : Q := (2 # 1) ^ e.

(** The exponent of the leading bit of [x], for [x] other than zero: the
    [e] with [2 ** e <= |x| < 2 ** (e + 1)]. *)
Definition ilog2 (x : Q) : Z :=
  let e := (Z.log2 (Z.abs (Qnum x)) - Z.log2 (Zpos (Qden x)))%Z in
  if Qle_bool (pow2 e) (Qabs x) then e else (e - 1)%Z.

(** The exponent of the unit in the last place at [x]: 53 significant bits,
    and the fixed exponent -1074 in the subnormal range. *)
Definition ulp_exponent (x : Q) : Z := Z.max (ilog2 x - 52) (-1074).

(** The integer nearest to [m], the even one of two at the same distance. *)
Definition nearest_even (m : Q) : Z :=
  let f := Qfloor m in
  match Qcompare (m - inject_Z f) (1 # 2) with
  | Lt => f
  | Gt => (f + 1)%Z
  | Eq => if Z.even f then f else (f + 1)%Z
  end.

(** [x] rounded to 53 significant bits, before the check of the range. *)
Definition nearest (x : Q) : Q :=
  if Qeq_bool x 0 then 0
  else
    let e := ulp_exponent x in
    inject_Z (nearest_even (x / pow2 e)) * pow2 e.

(** The binary64 result of an operation whose exact result is [x]: round to
    nearest, ties to even; a rounded magnitude of [2 ** 1024] or more
    overflows to the infinity of the sign of [x]. *)
Definition round (x : Q) : t :=
  let x := Qred x in
  let y := nearest x in
  if Qlt_bool (Qabs y) (pow2 1024) then Finite (Qred y)
  else Infinity (Qlt_bool x 0).

(** The numbers with at most 53 significant bits and an exponent not below
    that of the subnormals; the binary64 numbers are those of them below
    [2 ** 1024] in magnitude. *)
Definition representable (f : Q) : Prop :=
  exists m e : Z,
    f == inject_Z m * pow2 e /\ (Z.abs m <= 2 ^ 53)%Z /\ (-1074 <= e)%Z.

Definition is_float (f : Q) : Prop :=
  representable f /\ Qabs f < pow2 1024.

(** [a + b] *)
Definition add (a b : t) : t :=
  match a, b with
  | NaN, _ | _, NaN => NaN
  | Finite x, Finite y => round (x + y)
  | Finite _, Infinity s => Infinity s
  | Infinity s, Finite _ => Infinity s
  | Infinity s, Infinity s' => if Bool.eqb s s' then Infinity s else NaN
  end.

(** [a <= b]; every comparison with a NaN is false. *)
Definition leb (a b : t) : bool :=
  match a, b with
  | NaN, _ | _, NaN => false
  | Finite x, Finite y => Qle_bool x y
  | Infinity true, _ => true
  | _, Infinity false => true
  | _, _ => false
  end.

(** [a < b] *)
Definition ltb (a b : t) : bool :=
  match a, b with
  | NaN, _ | _, NaN => false
  | Finite x, Finite y => Qlt_bool x y
  | Infinity true, Infinity true => false
  | Infinity true, _ => true
  | Infinity false, _ => false
  | Finite _, Infinity s => negb s
  end.

Definition le (a b : t) : Prop := leb a b = true.
Definition lt (a b : t) : Prop := ltb a b = true.

(** The values a computation on numbers in range yields: a binary64 number
    or an infinity. *)
Definition valid (a : t) : Prop :=
  match a with
  | Finite q => is_float q
  | Infinity _ => True
  | NaN => False
  end.

(** The float a decimal literal or a stored decimal denotes. *)
Definition literal (x : Q) : Q :=
  match round x with
  | Finite q => q
  | _ => 0
  end.

End Float64.

(** ** app/models *)

Module Models.

(** [app/models/f1.py], class [Driver] (columns read by the replay). *)
Record Driver : Type := mkDriver {
  driver_pk : Z;
  code : string;
  full_name : string
}.

(** [app/models/f1.py], class [Session]. *)
Record SessionModel : Type := mkSession {
  session_pk : Z;
  race_id : Z;
  session_type : string
}.

(** [app/models/telemetry.py], class [TelemetryFrame]; [driver] is the
    loaded relationship object. *)
Record TelemetryFrame : Type := mkTelemetryFrame {
  frame_pk : Z;
  session_id : Z;
  driver_id : Z;
  t_rel_sec : Q;
  lap_number : Z;
  x_norm : Q;
  y_norm : Q;
  speed_kph : option Q;
  throttle : option Q;
  brake : option Q;
  gear : option Z;
  driver : Driver
}.

End Models.
Import Models.

(** ** app/schemas/telemetry.py *)

Module Schemas.

Record CarPositionSchema : Type := mkCarPosition {
  driver_code : string;
  x : Q;
  y : Q;
  car_speed_kph : option Q;
  lap : Z
}.

Record ReplayFrameSchema : Type := mkReplayFrame {
  t : Float64.t;
  cars : list CarPositionSchema
}.

End Schemas.

(** ** Python containers and builtins *)

Module Py.

(** Exceptions that reach the replay code paths. *)
Inductive exc : Type :=
| ZeroDivisionError
| OverflowError
| SessionNotFoundException (rid : Z)
| MultipleResultsFound
| WebSocketDisconnect
| RuntimeError (msg : string).

Definition is_disconnect (e : exc) : bool :=
  match e with WebSocketDisconnect => true | _ => false end.

(** [str(e)] *)
Definition str (e : exc) : string :=
  match e with
  | ZeroDivisionError => "float division by zero"
  | OverflowError => "int too large to convert to float"
  | SessionNotFoundException rid =>
      "No race session found for race "
      ++ NilZero.string_of_int (Z.to_int rid)
  | MultipleResultsFound => "Multiple rows were found when one or none was required"
  | WebSocketDisconnect => ""
  | RuntimeError msg => msg
  end%string.

(** Insertion-ordered dictionary with integer keys. *)
Definition dict (V : Type) : Type := list (Z * V).

(** [d[k] = v] *)
Fixpoint setitem {V : Type} (d : dict V) (k : Z) (v : V) : dict V :=
  match d with
  | [] => [(k, v)]
  | (k', v') :: d' =>
      if Z.eqb k' k then (k', v) :: d' else (k', v') :: setitem d' k v
  end.

(** [d.get(k)] *)
Fixpoint get {V : Type} (d : dict V) (k : Z) : option V :=
  match d with
  | [] => None
  | (k', v') :: d' => if Z.eqb k' k then Some v' else get d' k
  end.

Definition keys {V : Type} (d : dict V) : list Z := map fst d.
Definition values {V : Type} (d : dict V) : list V := map snd d.

(** Truth value of a list: empty lists are falsy. *)
Definition truthy {A : Type} (l : list A) : bool :=
  match l with [] => false | _ :: _ => true end.

(** Truth value of an optional list: [None] and [[]] are both falsy. *)
Definition truthy_opt {A : Type} (l : option (list A)) : bool :=
  match l with None => false | Some l' => truthy l' end.

(** [min(x0, *xs)] and [max(x0, *xs)] over a non-empty sequence: the
    running extremum is replaced only by a strictly better value. *)
Definition min_of (x0 : Q) (xs : list Q) : Q :=
  fold_left (fun m v => if Qlt_bool v m then v else m) xs x0.

Definition max_of (x0 : Q) (xs : list Q) : Q :=
  fold_left (fun m v => if Qlt_bool m v then v else m) xs x0.

(** [float(n)] as an operation on a float and an int does it: the nearest
    binary64 number, [OverflowError] when that is out of range. *)
Definition float_of_int (n : Z) : Float64.t + exc :=
  match Float64.round (inject_Z n) with
  | Float64.Finite q => inl (Float64.Finite q)
  | _ => inr OverflowError
  end.

(** [a / b] on floats: a zero divisor raises, whatever [a] is. *)
Definition float_truediv (a b : Float64.t) : Float64.t + exc :=
  match b with
  | Float64.NaN => inl Float64.NaN
  | Float64.Infinity _ =>
      match a with
      | Float64.Finite _ => inl (Float64.Finite 0)
      | _ => inl Float64.NaN
      end
  | Float64.Finite y =>
      if Qeq_bool y 0 then inr ZeroDivisionError
      else
        match a with
        | Float64.Finite x => inl (Float64.round (x / y))
        | Float64.Infinity s => inl (Float64.Infinity (xorb s (Qlt_bool y 0)))
        | Float64.NaN => inl Float64.NaN
        end
  end.

(** [a / n] for a float [a] and an int [n]: the int is converted first. *)
Definition truediv (a : Float64.t) (n : Z) : Float64.t + exc :=
  match float_of_int n with
  | inr e => inr e
  | inl b => float_truediv a b
  end.

(** Stable sort ([list.sort], SQL [ORDER BY] over a fixed row order): a
    stable sort has one result, computed here by insertion. *)
Fixpoint insert_by {A : Type} (leb : A -> A -> bool) (a : A) (l : list A)
  : list A :=
  match l with
  | [] => [a]
  | b :: l' => if leb a b then a :: b :: l' else b :: insert_by leb a l'
  end.

Definition sort_by {A : Type} (leb : A -> A -> bool) (l : list A) : list A :=
  fold_right (insert_by leb) [] l.

End Py.

(** ** app/services/f1_queries.py *)

Module F1Queries.

(** The two tables the replay reads, in the store's row order. *)
Record Db : Type := mkDb {
  sessions : list SessionModel;
  telemetry_frames : list TelemetryFrame
}.

(** [get_race_main_session]: [scalar_one_or_none] returns the single row,
    nothing, or raises on several rows. *)
Definition get_race_main_session (db : Db) (rid : Z)
  : SessionModel + Py.exc :=
  match filter (fun s => Z.eqb (race_id s) rid
                         && String.eqb (session_type s) "RACE")
               (sessions db) with
  | [] => inr (Py.SessionNotFoundException rid)
  | [s] => inl s
  | _ :: _ :: _ => inr Py.MultipleResultsFound
  end.

(** [ORDER BY t_rel_sec, driver_id] *)
Definition order_key_leb (a b : TelemetryFrame) : bool :=
  Qlt_bool (t_rel_sec a) (t_rel_sec b)
  || (Qeq_bool (t_rel_sec a) (t_rel_sec b)
      && Z.leb (driver_id a) (driver_id b)).

Definition where_session (sid : Z) (rows : list TelemetryFrame) :=
  filter (fun f => Z.eqb (session_id f) sid) rows.

Definition where_driver_in (ids : list Z) (rows : list TelemetryFrame) :=
  filter (fun f => existsb (Z.eqb (driver_id f)) ids) rows.

(** [get_telemetry_frames]: the driver restriction is added under
    [if driver_ids:]. *)
Definition get_telemetry_frames (db : Db) (sid : Z)
    (driver_ids : option (list Z)) : list TelemetryFrame :=
  let stmt := where_session sid (telemetry_frames db) in
  let stmt :=
    if Py.truthy_opt driver_ids
    then where_driver_in (match driver_ids with Some ids => ids | None => [] end) stmt
    else stmt in
  Py.sort_by order_key_leb stmt.

End F1Queries.

(** ** app/services/replay_service.py *)

Module ReplayService.

Import Schemas.

(** [group_frames_by_driver]: one pass, [driver_frames[frame.driver_id] = frame]. *)
Definition group_frames_by_driver (frames : list TelemetryFrame)
  : Py.dict TelemetryFrame :=
  fold_left (fun driver_frames frame =>
               Py.setitem driver_frames (driver_id frame) frame)
            frames [].

(** The [CarPositionSchema(...)] built for one grouped frame. *)
Definition car_position (frame : TelemetryFrame) : CarPositionSchema :=
  {| driver_code := code (driver frame);
     x := x_norm frame;
     y := y_norm frame;
     car_speed_kph := speed_kph frame;
     lap := lap_number frame |}.

(** [build_replay_frame]: group, then append one car per dictionary item. *)
Definition build_replay_frame (current_time : Float64.t)
    (frames : list TelemetryFrame) : ReplayFrameSchema :=
  let driver_frames := group_frames_by_driver frames in
  let cars :=
    fold_left (fun cars item => cars ++ [car_position (snd item)])
              driver_frames [] in
  {| t := current_time; cars := cars |}.

(** Observable events of the generator, in program order. *)
Inductive Event : Type :=
| EvQuery (sid : Z) (driver_ids : option (list Z))
| EvYield (frame : ReplayFrameSchema)
| EvSleep (delay : Float64.t).

Inductive Outcome : Type :=
| Returned
| Raised (e : Py.exc)
| OutOfFuel.

Record Run : Type := mkRun {
  events : list Event;
  outcome : Outcome
}.

(** The frames a consumer of the generator receives. *)
Definition yielded (evs : list Event) : list ReplayFrameSchema :=
  flat_map (fun e => match e with EvYield f => [f] | _ => [] end) evs.

(** The store queries issued. *)
Definition queries (evs : list Event) : list (Z * option (list Z)) :=
  flat_map (fun e => match e with EvQuery s d => [(s, d)] | _ => [] end) evs.

(** The inner [while frame_index < len(telemetry_frames)] loop, run on the
    frames from [frame_index] on: it stops at the end of the list or at the
    first frame later than [window_end]; frames earlier than
    [current_time] are passed over. *)
Fixpoint scan_window (current_time window_end : Float64.t)
    (rest : list TelemetryFrame) (frame_index : nat)
    (window_frames : list TelemetryFrame)
  : nat * list TelemetryFrame :=
  match rest with
  | [] => (frame_index, window_frames)
  | frame :: rest' =>
      if Float64.ltb window_end (Float64.Finite (t_rel_sec frame))
      then (frame_index, window_frames)
      else
        scan_window current_time window_end rest' (S frame_index)
          (if Float64.leb current_time (Float64.Finite (t_rel_sec frame))
           then window_frames ++ [frame]
           else window_frames)
  end.

(** State carried by the outer loop. *)
Record LoopState : Type := mkLoopState {
  current_time : Float64.t;
  frame_index : nat
}.

(** One iteration of the outer loop up to the sleep: the window that is
    collected and the state after [current_time += time_step]. *)
Definition loop_body (telemetry_frames : list TelemetryFrame)
    (time_step : Float64.t) (st : LoopState)
  : list TelemetryFrame * LoopState :=
  let window_end := Float64.add (current_time st) time_step in
  let '(idx, window_frames) :=
    scan_window (current_time st) window_end
      (skipn (frame_index st) telemetry_frames) (frame_index st) [] in
  (window_frames,
   {| current_time := Float64.add (current_time st) time_step;
      frame_index := idx |}).

(** [if window_frames: yield build_replay_frame(...)] *)
Definition yield_window (now : Float64.t) (window_frames : list TelemetryFrame)
  : list Event :=
  if Py.truthy window_frames
  then [EvYield (build_replay_frame now window_frames)]
  else [].

(** [while current_time <= max_time: ...] *)
Fixpoint replay_loop (fuel : nat) (telemetry_frames : list TelemetryFrame)
    (max_time : Q) (time_step : Float64.t) (st : LoopState)
  : list Event * Outcome :=
  if Float64.leb (current_time st) (Float64.Finite max_time) then
    match fuel with
    | O => ([], OutOfFuel)
    | S fuel' =>
        let '(window_frames, st') := loop_body telemetry_frames time_step st in
        let '(evs, out) :=
          replay_loop fuel' telemetry_frames max_time time_step st' in
        (yield_window (current_time st) window_frames
           ++ EvSleep time_step :: evs, out)
    end
  else ([], Returned).

(** [telemetry_frames.sort(key=lambda f: f.t_rel_sec)] *)
Definition by_time_leb (a b : TelemetryFrame) : bool :=
  Qle_bool (t_rel_sec a) (t_rel_sec b).

Definition sort_by_time (frames : list TelemetryFrame) : list TelemetryFrame :=
  Py.sort_by by_time_leb frames.

(** The body of [generate_replay_frames] once the frames are loaded. *)
Definition stream_frames (fuel : nat) (telemetry_frames : list TelemetryFrame)
    (fps : Z) : list Event * Outcome :=
  match telemetry_frames with
  | [] => ([], Returned)
  | frame0 :: others =>
      let min_time := Py.min_of (t_rel_sec frame0) (map t_rel_sec others) in
      let max_time := Py.max_of (t_rel_sec frame0) (map t_rel_sec others) in
      match Py.truediv (Float64.Finite 1) fps with
      | inr e => ([], Raised e)
      | inl time_step =>
          let telemetry_frames := sort_by_time telemetry_frames in
          replay_loop fuel telemetry_frames max_time time_step
            {| current_time := Float64.Finite min_time; frame_index := 0 |}
      end
  end.

(** [generate_replay_frames] *)
Definition generate_replay_frames (fuel : nat) (db : F1Queries.Db)
    (sid : Z) (fps : Z) (driver_ids : option (list Z)) : Run :=
  let telemetry_frames := F1Queries.get_telemetry_frames db sid driver_ids in
  let '(evs, out) := stream_frames fuel telemetry_frames fps in
  {| events := EvQuery sid driver_ids :: evs; outcome := out |}.

(** Messages handed to [send_json]. *)
Inductive Message : Type :=
| MsgFrame (frame : ReplayFrameSchema)
| MsgComplete
| MsgError (text : string).

Inductive SendResult : Type :=
| SendOk
| SendRaises (e : Py.exc).

(** The sink: given the messages handed over so far and the next one. *)
Definition Sink : Type := list Message -> Message -> SendResult.

(** The log of [send_json] calls with their results. *)
Definition SendLog : Type := list (Message * SendResult).

Definition sent (log : SendLog) : list Message := map fst log.

Definition send_json (sink : Sink) (log : SendLog) (m : Message)
  : SendLog * SendResult :=
  let r := sink (sent log) m in (log ++ [(m, r)], r).

(** [async for frame in ...: await send_callback(frame.model_dump())]:
    the first failing send ends the iteration with that exception. *)
Fixpoint send_frames (sink : Sink) (log : SendLog)
    (frames : list ReplayFrameSchema) : SendLog * option Py.exc :=
  match frames with
  | [] => (log, None)
  | frame :: frames' =>
      match send_json sink log (MsgFrame frame) with
      | (log', SendOk) => send_frames sink log' frames'
      | (log', SendRaises e) => (log', Some e)
      end
  end.

(** [replay_session_websocket]: exceptions are logged and re-raised. *)
Definition replay_session_websocket (fuel : nat) (db : F1Queries.Db)
    (sid : Z) (fps : Z) (sink : Sink) (log : SendLog)
  : SendLog * Outcome :=
  let run := generate_replay_frames fuel db sid fps None in
  match send_frames sink log (yielded (events run)) with
  | (log', Some e) => (log', Raised e)
  | (log', None) => (log', outcome run)
  end.

End ReplayService.

(** ** app/config.py and the WebSocket endpoint *)

Module Router.

Import ReplayService.

Record Settings : Type := mkSettings {
  replay_fps : Z
}.

(** The default configuration: [replay_fps: int = 10]. *)
Definition default_settings : Settings := {| replay_fps := 10 |}.

Record Connection : Type := mkConnection {
  log : SendLog;
  closed : bool;
  finished : bool
}.

(** The two [except] clauses of [replay_race]: a disconnect is only logged,
    any other exception is reported with one more send whose own failure
    is swallowed. *)
Definition handle_exception (sink : Sink) (l : SendLog) (e : Py.exc)
  : SendLog :=
  if Py.is_disconnect e then l
  else fst (send_json sink l (MsgError (Py.str e))).

(** [replay_race], after [websocket.accept()]. *)
Definition replay_race (fuel : nat) (db : F1Queries.Db) (rid : Z)
    (settings : Settings) (sink : Sink) : Connection :=
  match F1Queries.get_race_main_session db rid with
  | inr e =>
      {| log := handle_exception sink [] e; closed := true; finished := true |}
  | inl session =>
      match replay_session_websocket fuel db (session_pk session)
              (replay_fps settings) sink [] with
      | (l, Returned) =>
          match send_json sink l MsgComplete with
          | (l', SendOk) =>
              {| log := l'; closed := true; finished := true |}
          | (l', SendRaises e) =>
              {| log := handle_exception sink l' e;
                 closed := true; finished := true |}
          end
      | (l, Raised e) =>
          {| log := handle_exception sink l e;
             closed := true; finished := true |}
      | (l, OutOfFuel) =>
          {| log := l; closed := false; finished := false |}
      end
  end.

End Router.

(** ** The time grid and the windows of a replay *)

Module ReplaySpec.

Import Schemas ReplayService.

(** [current_time] at the start of iteration [k]: [k] binary64 additions
    of [time_step] to [min_time]. *)
Fixpoint time_at (min_time : Q) (time_step : Float64.t) (k : nat)
  : Float64.t :=
  match k with
  | O => Float64.Finite min_time
  | S k' => Float64.add (time_at min_time time_step k') time_step
  end.

(** The loop state at the start of iteration [k]. *)
Fixpoint state_at (telemetry_frames : list TelemetryFrame)
    (min_time : Q) (time_step : Float64.t) (k : nat) : LoopState :=
  match k with
  | O => {| current_time := Float64.Finite min_time; frame_index := 0 |}
  | S k' =>
      snd (loop_body telemetry_frames time_step
             (state_at telemetry_frames min_time time_step k'))
  end.

(** [window_frames] of iteration [k]. *)
Definition window_at (telemetry_frames : list TelemetryFrame)
    (min_time : Q) (time_step : Float64.t) (k : nat) : list TelemetryFrame :=
  fst (loop_body telemetry_frames time_step
         (state_at telemetry_frames min_time time_step k)).

(** Events of iteration [k]. *)
Definition events_at (telemetry_frames : list TelemetryFrame)
    (min_time : Q) (time_step : Float64.t) (k : nat) : list Event :=
  yield_window (time_at min_time time_step k)
               (window_at telemetry_frames min_time time_step k)
  ++ [EvSleep time_step].

(** Frames yielded by iteration [k]. *)
Definition frames_at (telemetry_frames : list TelemetryFrame)
    (min_time : Q) (time_step : Float64.t) (k : nat)
  : list ReplayFrameSchema :=
  let window_frames := window_at telemetry_frames min_time time_step k in
  if Py.truthy window_frames
  then [build_replay_frame (time_at min_time time_step k) window_frames]
  else [].

(** The interval a window covers, in the comparisons of the code: from
    [now] to [window_end], closed at both ends in the first iteration, open
    at the lower end afterwards. *)
Definition in_window (k : nat) (now window_end : Float64.t)
    (f : TelemetryFrame) : bool :=
  match k with
  | O => Float64.leb now (Float64.Finite (t_rel_sec f))
  | S _ => Float64.ltb now (Float64.Finite (t_rel_sec f))
  end && Float64.leb (Float64.Finite (t_rel_sec f)) window_end.

(** The half-open interval [[now, window_end)]. *)
Definition in_half_open (now window_end : Float64.t) (f : TelemetryFrame)
  : Prop :=
  Float64.le now (Float64.Finite (t_rel_sec f))
  /\ Float64.lt (Float64.Finite (t_rel_sec f)) window_end.

(** The guard of the outer loop at the start of iteration [k]. *)
Definition running (min_time max_time : Q) (time_step : Float64.t) (k : nat)
  : bool :=
  Float64.leb (time_at min_time time_step k) (Float64.Finite max_time).

(** Number of iterations the outer loop makes within [fuel], counted from
    iteration [k]. *)
Fixpoint iterations_from (fuel : nat) (min_time max_time : Q)
    (time_step : Float64.t) (k : nat) : nat :=
  match fuel with
  | O => O
  | S fuel' =>
      if running min_time max_time time_step k
      then S (iterations_from fuel' min_time max_time time_step (S k))
      else O
  end.

Definition iterations (fuel : nat) (min_time max_time : Q)
    (time_step : Float64.t) : nat :=
  iterations_from fuel min_time max_time time_step 0.

Definition time_le (a b : TelemetryFrame) : Prop :=
  t_rel_sec a <= t_rel_sec b.

(** The lower bound that the frames still ahead of the cursor satisfy. *)
Definition ahead (k : nat) (now : Float64.t) (f : TelemetryFrame) : Prop :=
  match k with
  | O => Float64.le now (Float64.Finite (t_rel_sec f))
  | S _ => Float64.lt now (Float64.Finite (t_rel_sec f))
  end.

(** The cursor splits the list: what it has passed is not ahead of the
    current time, what remains is. *)
Definition cursor_splits (telemetry_frames : list TelemetryFrame)
    (min_time : Q) (time_step : Float64.t) (k : nat) : Prop :=
  let idx := frame_index (state_at telemetry_frames min_time time_step k) in
  let now := time_at min_time time_step k in
  (idx <= length telemetry_frames)%nat /\
  Forall (fun f => ~ ahead k now f) (firstn idx telemetry_frames) /\
  Forall (ahead k now) (skipn idx telemetry_frames).

Definition min_time_of (frame0 : TelemetryFrame) (others : list TelemetryFrame) : Q :=
  Py.min_of (t_rel_sec frame0) (map t_rel_sec others).

Definition max_time_of (frame0 : TelemetryFrame) (others : list TelemetryFrame) : Q :=
  Py.max_of (t_rel_sec frame0) (map t_rel_sec others).

(** A request refused up front: no store query, and an error other than a
    division by zero. *)
Definition rejected_before_query (run : Run) : Prop :=
  queries (events run) = [] /\
  exists e, outcome run = Raised e /\ e <> Py.ZeroDivisionError.

Definition is_complete (m : Message) : bool :=
  match m with MsgComplete => true | _ => false end.

Definition is_frame (m : Message) : Prop :=
  match m with MsgFrame _ => True | _ => False end.

End ReplaySpec.

(** ** Concrete sessions *)

Module Examples.

Import F1Queries ReplayService.

Definition VER : Driver :=
  {| driver_pk := 1; code := "VER"; full_name := "Max Verstappen" |}.

Definition HAM : Driver :=
  {| driver_pk := 44; code := "HAM"; full_name := "Lewis Hamilton" |}.

(** A stored sample; the decimals given stand for the floats stored. *)
Definition sample (pk : Z) (d : Driver) (time px py : Q) : TelemetryFrame :=
  {| frame_pk := pk; session_id := 1; driver_id := driver_pk d;
     t_rel_sec := Float64.literal time; lap_number := 1;
     x_norm := Float64.literal px; y_norm := Float64.literal py;
     speed_kph := None; throttle := None; brake := None; gear := None;
     driver := d |}.

Definition race_session : SessionModel :=
  {| session_pk := 1; race_id := 7; session_type := "RACE" |}.

(** Two samples exactly one step apart at 4 frames per second. *)
Definition boundary_first : TelemetryFrame := sample 1 VER 0 (1 # 10) (1 # 10).
Definition boundary_second : TelemetryFrame :=
  sample 2 HAM (1 # 4) (5 # 10) (5 # 10).

Definition boundary_db : Db :=
  {| sessions := [race_session];
     telemetry_frames := [boundary_first; boundary_second] |}.

(** Two samples of one driver, the later one in input order being the
    earlier one in time. *)
Definition late_first : TelemetryFrame := sample 3 VER (9 # 100) (2 # 10) (2 # 10).
Definition early_last : TelemetryFrame := sample 4 VER (2 # 100) (1 # 10) (1 # 10).

(** A race session without telemetry. *)
Definition empty_db : Db :=
  {| sessions := [race_session]; telemetry_frames := [] |}.

Definition accepting_sink : Sink := fun _ _ => SendOk.

(** A sink whose second call finds the client gone. *)
Definition disconnecting_sink : Sink :=
  fun before _ =>
    match before with
    | [_] => SendRaises Py.WebSocketDisconnect
    | _ => SendOk
    end.

(** A sink whose first call fails with a transport error. *)
Definition failing_sink : Sink :=
  fun before _ =>
    match before with
    | [] => SendRaises (Py.RuntimeError "connection lost")
    | _ => SendOk
    end.

(** Three samples within one step: two of one driver and one of another. *)
Definition scenario_db : Db :=
  {| sessions := [race_session];
     telemetry_frames :=
       [sample 5 VER (2 # 100) (1 # 10) (1 # 10);
        sample 6 VER (9 # 100) (2 # 10) (2 # 10);
        sample 7 HAM (5 # 100) (5 # 10) (5 # 10)] |}.

(** Two samples two seconds apart at a time of the order of 1e16 seconds,
    where neighbouring binary64 numbers are 2 apart. *)
Definition far_first : TelemetryFrame :=
  sample 10 VER (inject_Z (10 ^ 16)) (1 # 10) (1 # 10).
Definition far_second : TelemetryFrame :=
  sample 11 VER (inject_Z (10 ^ 16 + 2)) (2 # 10) (2 # 10).

Definition far_db : Db :=
  {| sessions := [race_session];
     telemetry_frames := [far_first; far_second] |}.

(** Three samples within a second, the last two less than a step apart at
    10 frames per second. *)
Definition rounding_db : Db :=
  {| sessions := [race_session];
     telemetry_frames :=
       [sample 12 VER 0 (1 # 10) (1 # 10);
        sample 13 VER (9375 # 10000) (2 # 10) (2 # 10);
        sample 14 VER 1 (3 # 10) (3 # 10)] |}.

(** The second sample at 0.30000000000000004, the float next above the
    float nearest to three tenths. *)
Definition late_db : Db :=
  {| sessions := [race_session];
     telemetry_frames :=
       [sample 15 VER 0 (1 # 10) (1 # 10);
        sample 16 VER (30000000000000004 # 100000000000000000)
          (2 # 10) (2 # 10)] |}.

(** Two samples a second apart. *)
Definition near_db : Db :=
  {| sessions := [race_session];
     telemetry_frames :=
       [sample 18 VER 1 (1 # 10) (1 # 10);
        sample 19 VER 2 (2 # 10) (2 # 10)] |}.

(** One sample, at one second. *)
Definition unit_db : Db :=
  {| sessions := [race_session];
     telemetry_frames := [sample 17 VER 1 (1 # 10) (1 # 10)] |}.

(** Two samples more than one step apart. *)
Definition two_step_db : Db :=
  {| sessions := [race_session];
     telemetry_frames :=
       [sample 8 VER 0 (1 # 10) (1 # 10);
        sample 9 VER (15 # 100) (2 # 10) (2 # 10)] |}.

End Examples.

(** ** Orders and counts used to state further properties of the replay *)

Module ReplayOrder.

Import Schemas ReplayService.

(** The order of [ORDER BY t_rel_sec, driver_id]. *)
Definition query_le (a b : TelemetryFrame) : Prop :=
  t_rel_sec a < t_rel_sec b
  \/ (t_rel_sec a == t_rel_sec b /\ (driver_id a <= driver_id b)%Z).

(** The distinct elements of a list, in the order of their first
    occurrence. *)
Definition first_occurrences (l : list Z) : list Z :=
  rev (nodup Z.eq_dec (rev l)).

(** Number of car positions in a list of frames. *)
Definition total_cars (frames : list ReplayFrameSchema) : nat :=
  list_sum (map (fun fr => length (cars fr)) frames).

(** The delays of the sleeps among the events. *)
Definition sleeps (evs : list Event) : list Float64.t :=
  flat_map (fun e => match e with EvSleep d => [d] | _ => [] end) evs.

Definition send_ok (entry : Message * SendResult) : Prop :=
  snd entry = SendOk.

(** The relation decided by a boolean comparison. *)
Definition holds {A : Type} (leb : A -> A -> bool) (a b : A) : Prop :=
  leb a b = true.

End ReplayOrder.

(** ** app/models: the tables read by the query functions and routers *)

Module Season.
Record t : Type := mk { id : Z; year : Z }.
End Season.

Module Race.
Record t : Type := mk {
  id : Z;
  season_id : Z;
  round : Z;
  name : string;
  circuit_name : string;
  country : string;
  date : Z;
  total_laps : option Z;
  season : Season.t
}.
End Race.

Module Team.
Record t : Type := mk {
  id : Z;
  name : string;
  short_name : string;
  color_hex : option string
}.
End Team.

(** [app/models/f1.py], class [DriverSessionResult]; [driver] and [team] are
    the loaded relationship objects. *)
Module Result.
Record t : Type := mk {
  id : Z;
  session_id : Z;
  driver_id : Z;
  team_id : Z;
  position : option Z;
  grid_position : option Z;
  points : option Q;
  final_status : string;
  total_race_time_sec : option Q;
  time_text : option string;
  gap_to_winner_text : option string;
  driver : Driver;
  team : Team.t
}.
End Result.

Module Lap.
Record t : Type := mk {
  id : Z;
  session_id : Z;
  driver_id : Z;
  lap_number : Z;
  lap_time_sec : option Q;
  sector1_time_sec : option Q;
  sector2_time_sec : option Q;
  sector3_time_sec : option Q;
  is_pit_lap : bool;
  tyre_compound : option string;
  tyre_life_laps : option Z;
  track_status : option string
}.
End Lap.

Module Stint.
Record t : Type := mk {
  id : Z;
  session_id : Z;
  driver_id : Z;
  stint_number : Z;
  start_lap : Z;
  end_lap : Z;
  compound : string;
  avg_lap_time_sec : Q;
  laps_count : Z
}.
End Stint.

Module TrackShapePoint.
Record t : Type := mk {
  id : Z;
  race_id : Z;
  order_index : Z;
  x_norm : Q;
  y_norm : Q
}.
End TrackShapePoint.

(** ** app/core/exceptions.py *)

Module Errors.

(** The exceptions of the query and router code paths; [Lookup] carries the
    ones of the session lookup. *)
Inductive error : Type :=
| Lookup (e : Py.exc)
| RaceNotFoundException (race_id : Z)
| DriverNotFoundException (code : string)
| LLMException (msg : string)
| HTTPException (status_code : Z) (detail : string).

Definition decimal (z : Z) : string := NilZero.string_of_int (Z.to_int z).

(** [str(e)]; the query functions raise their exceptions with the messages
    given here. *)
Definition str (e : error) : string :=
  match e with
  | Lookup e' => Py.str e'
  | RaceNotFoundException race_id => "Race " ++ decimal race_id ++ " not found"
  | DriverNotFoundException code => "Driver " ++ code ++ " not found"
  | LLMException msg => msg
  | HTTPException status_code detail => decimal status_code ++ ": " ++ detail
  end%string.

(** [llm_error] *)
Definition llm_error (message : string) : error :=
  HTTPException 500 ("LLM error: " ++ message)%string.

(** [race_not_found] *)
Definition race_not_found (race_id : Z) : error :=
  HTTPException 404 ("Race with ID " ++ decimal race_id ++ " not found")%string.

(** [driver_not_found] *)
Definition driver_not_found (driver_code : string) : error :=
  HTTPException 404 ("Driver with code " ++ driver_code ++ " not found")%string.

End Errors.

(** ** app/services/f1_queries.py, the remaining queries *)

Module RaceQueries.

Import Errors.

(** The tables behind a database session; [core] holds the sessions and the
    telemetry frames. *)
Record Store : Type := mkStore {
  core : F1Queries.Db;
  races : list Race.t;
  drivers : list Driver;
  results : list Result.t;
  laps : list Lap.t;
  stints : list Stint.t;
  track_shape_points : list TrackShapePoint.t
}.

(** [scalar_one_or_none] on the rows a statement selects. *)
Definition scalar_one_or_none {A : Type} (rows : list A) : option A + error :=
  match rows with
  | [] => inl None
  | [row] => inl (Some row)
  | _ :: _ :: _ => inr (Lookup Py.MultipleResultsFound)
  end.

(** [get_race_by_id]: [db.get] by primary key. *)
Definition get_race_by_id (db : Store) (race_id : Z) : Race.t + error :=
  match find (fun r => Z.eqb (Race.id r) race_id) (races db) with
  | Some race => inl race
  | None => inr (RaceNotFoundException race_id)
  end.

(** [get_race_main_session] *)
Definition get_race_main_session (db : Store) (race_id : Z)
  : SessionModel + error :=
  match F1Queries.get_race_main_session (core db) race_id with
  | inl session => inl session
  | inr e => inr (Lookup e)
  end.

Section DriverCodes.

(** [str.upper], taken as given. *)
Variable upper : string -> string.

(** [get_driver_by_code] *)
Definition get_driver_by_code (db : Store) (code : string) : Driver + error :=
  match scalar_one_or_none
          (filter (fun d => String.eqb (Models.code d) (upper code)) (drivers db))
  with
  | inl (Some driver) => inl driver
  | inl None => inr (DriverNotFoundException code)
  | inr e => inr e
  end.

End DriverCodes.

(** [position.nulls_last()], ascending. *)
Definition position_leb (a b : Result.t) : bool :=
  match Result.position a, Result.position b with
  | Some x, Some y => Z.leb x y
  | _, None => true
  | None, Some _ => false
  end.

(** [get_race_results] *)
Definition get_race_results (db : Store) (session_id : Z) : list Result.t :=
  Py.sort_by position_leb
    (filter (fun r => Z.eqb (Result.session_id r) session_id) (results db)).

Definition lap_number_leb (a b : Lap.t) : bool :=
  Z.leb (Lap.lap_number a) (Lap.lap_number b).

(** The rows of [laps] for a session and a driver, restricted to the lap
    range when one is given. *)
Definition laps_where (db : Store) (session_id driver_id : Z)
    (lap_range : option (Z * Z)) : list Lap.t :=
  let stmt :=
    filter (fun l => Z.eqb (Lap.driver_id l) driver_id)
      (filter (fun l => Z.eqb (Lap.session_id l) session_id) (laps db)) in
  match lap_range with
  | Some (start_lap, end_lap) =>
      filter (fun l => Z.leb (Lap.lap_number l) end_lap)
        (filter (fun l => Z.leb start_lap (Lap.lap_number l)) stmt)
  | None => stmt
  end.

(** [get_driver_laps]; a lap range is a pair and as such always truthy. *)
Definition get_driver_laps (db : Store) (session_id driver_id : Z)
    (lap_range : option (Z * Z)) : list Lap.t :=
  Py.sort_by lap_number_leb (laps_where db session_id driver_id lap_range).

Definition stint_number_leb (a b : Stint.t) : bool :=
  Z.leb (Stint.stint_number a) (Stint.stint_number b).

(** [ORDER BY driver_id, stint_number] *)
Definition driver_stint_leb (a b : Stint.t) : bool :=
  Z.ltb (Stint.driver_id a) (Stint.driver_id b)
  || (Z.eqb (Stint.driver_id a) (Stint.driver_id b)
      && Z.leb (Stint.stint_number a) (Stint.stint_number b)).

(** [get_driver_stints] *)
Definition get_driver_stints (db : Store) (session_id driver_id : Z)
  : list Stint.t :=
  Py.sort_by stint_number_leb
    (filter (fun s => Z.eqb (Stint.driver_id s) driver_id)
       (filter (fun s => Z.eqb (Stint.session_id s) session_id) (stints db))).

(** [get_all_session_stints] *)
Definition get_all_session_stints (db : Store) (session_id : Z)
  : list Stint.t :=
  Py.sort_by driver_stint_leb
    (filter (fun s => Z.eqb (Stint.session_id s) session_id) (stints db)).

Definition order_index_leb (a b : TrackShapePoint.t) : bool :=
  Z.leb (TrackShapePoint.order_index a) (TrackShapePoint.order_index b).

(** [get_track_shape] *)
Definition get_track_shape (db : Store) (race_id : Z)
  : list TrackShapePoint.t :=
  Py.sort_by order_index_leb
    (filter (fun p => Z.eqb (TrackShapePoint.race_id p) race_id)
       (track_shape_points db)).

(** [count_pit_stops]: [scalar() or 0] of a count. *)
Definition count_pit_stops (db : Store) (session_id driver_id : Z) : Z :=
  Z.of_nat
    (length
       (filter (fun l => Bool.eqb (Lap.is_pit_lap l) true)
          (filter (fun l => Z.eqb (Lap.driver_id l) driver_id)
             (filter (fun l => Z.eqb (Lap.session_id l) session_id)
                (laps db))))).

(** The dictionary returned by [get_lap_statistics]. *)
Record LapStatistics : Type := mkLapStatistics {
  avg_lap_time : option Q;
  min_lap_time : option Q;
  max_lap_time : option Q;
  total_laps : Z
}.

(** The laps the statistics are taken over: timed, not pit laps. *)
Definition timed_laps (db : Store) (session_id driver_id : Z)
    (lap_range : option (Z * Z)) : list Lap.t :=
  let stmt :=
    filter (fun l => Bool.eqb (Lap.is_pit_lap l) false)
      (filter (fun l => match Lap.lap_time_sec l with Some _ => true | None => false end)
         (filter (fun l => Z.eqb (Lap.driver_id l) driver_id)
            (filter (fun l => Z.eqb (Lap.session_id l) session_id) (laps db)))) in
  match lap_range with
  | Some (start_lap, end_lap) =>
      filter (fun l => Z.leb (Lap.lap_number l) end_lap)
        (filter (fun l => Z.leb start_lap (Lap.lap_number l)) stmt)
  | None => stmt
  end.

(** The non-null values of a nullable column. *)
Definition column {A B : Type} (f : A -> option B) (rows : list A) : list B :=
  flat_map (fun r => match f r with Some v => [v] | None => [] end) rows.

(** SQL [avg], [min] and [max]: null over no rows. *)
Definition sql_avg (values : list Q) : option Q :=
  match values with
  | [] => None
  | _ :: _ => Some (fold_left Qplus values 0 / inject_Z (Z.of_nat (length values)))
  end.

Definition sql_min (values : list Q) : option Q :=
  match values with [] => None | v :: vs => Some (Py.min_of v vs) end.

Definition sql_max (values : list Q) : option Q :=
  match values with [] => None | v :: vs => Some (Py.max_of v vs) end.

(** [float(x) if x else None]: a null and a zero both give [None]. *)
Definition float_if_truthy (x : option Q) : option Q :=
  match x with
  | Some v => if Qeq_bool v 0 then None else Some v
  | None => None
  end.

(** [get_lap_statistics] *)
Definition get_lap_statistics (db : Store) (session_id driver_id : Z)
    (lap_range : option (Z * Z)) : LapStatistics :=
  let rows := timed_laps db session_id driver_id lap_range in
  let times := column Lap.lap_time_sec rows in
  {| avg_lap_time := float_if_truthy (sql_avg times);
     min_lap_time := float_if_truthy (sql_min times);
     max_lap_time := float_if_truthy (sql_max times);
     total_laps := Z.of_nat (length rows) |}.

End RaceQueries.

(** ** Python strings *)

Module PyStr.

(** [needle in hay] *)
Fixpoint contains (needle hay : string) : bool :=
  String.prefix needle hay
  || match hay with
     | EmptyString => false
     | String _ rest => contains needle rest
     end.

(** Truth value of an optional string: [None] and [""] are falsy. *)
Definition truthy_opt (s : option string) : bool :=
  match s with
  | Some (String _ _) => true
  | _ => false
  end.

(** [x in xs] for a list of strings. *)
Definition member (x : string) (xs : list string) : bool :=
  existsb (String.eqb x) xs.

End PyStr.

(** ** app/schemas/f1.py and app/schemas/telemetry.py, response models *)

Module WinnerSchema.
Record t : Type := mk {
  driver_code : string;
  driver_name : string;
  team : string
}.
End WinnerSchema.

Module PodiumDriverSchema.
Record t : Type := mk {
  position : Z;
  driver_code : string;
  driver_name : string;
  team : string
}.
End PodiumDriverSchema.

Module RaceSummarySchema.
Record t : Type := mk {
  race_id : Z;
  race_name : string;
  winner : option WinnerSchema.t;
  podium : list PodiumDriverSchema.t;
  total_laps : Z;
  total_drivers : Z;
  finished_drivers : Z;
  dnf_count : Z
}.
End RaceSummarySchema.

Module RaceDetailSchema.
Record t : Type := mk {
  id : Z;
  season_year : Z;
  round : Z;
  name : string;
  circuit_name : string;
  country : string;
  date : Z;
  total_laps : option Z;
  main_session_id : option Z
}.
End RaceDetailSchema.

Module StintSchema.
Record t : Type := mk {
  stint_number : Z;
  start_lap : Z;
  end_lap : Z;
  compound : string;
  avg_lap_time_sec : Q;
  laps_count : Z
}.

(** [StintSchema.model_validate] *)
Definition model_validate (s : Stint.t) : t :=
  {| stint_number := Stint.stint_number s;
     start_lap := Stint.start_lap s;
     end_lap := Stint.end_lap s;
     compound := Stint.compound s;
     avg_lap_time_sec := Stint.avg_lap_time_sec s;
     laps_count := Stint.laps_count s |}.
End StintSchema.

Module DriverStintsSchema.
Record t : Type := mk {
  driver_code : string;
  driver_name : string;
  team : string;
  stints : list StintSchema.t
}.
End DriverStintsSchema.

Module LapSchema.
Record t : Type := mk {
  lap_number : Z;
  lap_time_sec : option Q;
  sector1_time_sec : option Q;
  sector2_time_sec : option Q;
  sector3_time_sec : option Q;
  is_pit_lap : bool;
  tyre_compound : option string;
  tyre_life_laps : option Z;
  track_status : option string
}.

(** [LapSchema.model_validate] *)
Definition model_validate (l : Lap.t) : t :=
  {| lap_number := Lap.lap_number l;
     lap_time_sec := Lap.lap_time_sec l;
     sector1_time_sec := Lap.sector1_time_sec l;
     sector2_time_sec := Lap.sector2_time_sec l;
     sector3_time_sec := Lap.sector3_time_sec l;
     is_pit_lap := Lap.is_pit_lap l;
     tyre_compound := Lap.tyre_compound l;
     tyre_life_laps := Lap.tyre_life_laps l;
     track_status := Lap.track_status l |}.
End LapSchema.

(** ** app/routers/races.py *)

Module RacesRouter.

Import Errors RaceQueries.

(** [result.position and result.position <= 3] *)
Definition on_podium (result : Result.t) : bool :=
  match Result.position result with
  | Some p => negb (Z.eqb p 0) && Z.leb p 3
  | None => false
  end.

Definition podium_entry (result : Result.t) : PodiumDriverSchema.t :=
  {| PodiumDriverSchema.position :=
       match Result.position result with Some p => p | None => 0 end;
     PodiumDriverSchema.driver_code := code (Result.driver result);
     PodiumDriverSchema.driver_name := full_name (Result.driver result);
     PodiumDriverSchema.team := Team.short_name (Result.team result) |}.

(** [results[0].position == 1] *)
Definition is_winner (result : Result.t) : bool :=
  match Result.position result with
  | Some p => Z.eqb p 1
  | None => false
  end.

Definition is_finished (result : Result.t) : bool :=
  String.eqb (Result.final_status result) "Finished".

(** ["DNF" in r.final_status or r.final_status not in [...]] *)
Definition is_dnf (result : Result.t) : bool :=
  PyStr.contains "DNF" (Result.final_status result)
  || negb (PyStr.member (Result.final_status result)
             ["Finished"; "+1 Lap"; "+2 Laps"]%string).

(** [get_race]: a failed session lookup leaves [main_session_id] empty. *)
Definition get_race (db : Store) (race_id : Z) : RaceDetailSchema.t + error :=
  match get_race_by_id db race_id with
  | inr _ => inr (race_not_found race_id)
  | inl race =>
      let main_session_id :=
        match get_race_main_session db race_id with
        | inl session => Some (session_pk session)
        | inr _ => None
        end in
      inl {| RaceDetailSchema.id := Race.id race;
             RaceDetailSchema.season_year := Season.year (Race.season race);
             RaceDetailSchema.round := Race.round race;
             RaceDetailSchema.name := Race.name race;
             RaceDetailSchema.circuit_name := Race.circuit_name race;
             RaceDetailSchema.country := Race.country race;
             RaceDetailSchema.date := Race.date race;
             RaceDetailSchema.total_laps := Race.total_laps race;
             RaceDetailSchema.main_session_id := main_session_id |}
  end.

(** [get_race_summary] *)
Definition get_race_summary (db : Store) (race_id : Z)
  : RaceSummarySchema.t + error :=
  match get_race_by_id db race_id with
  | inr _ => inr (race_not_found race_id)
  | inl race =>
      match get_race_main_session db race_id with
      | inr _ => inr (race_not_found race_id)
      | inl session =>
          let results := get_race_results db (session_pk session) in
          let winner :=
            match results with
            | first :: _ =>
                if is_winner first
                then Some {| WinnerSchema.driver_code := code (Result.driver first);
                             WinnerSchema.driver_name := full_name (Result.driver first);
                             WinnerSchema.team := Team.short_name (Result.team first) |}
                else None
            | [] => None
            end in
          let podium :=
            fold_left (fun podium result =>
                         if on_podium result
                         then podium ++ [podium_entry result]
                         else podium)
                      (firstn 3 results) [] in
          let finished := length (filter is_finished results) in
          let dnf := length (filter is_dnf results) in
          inl {| RaceSummarySchema.race_id := Race.id race;
                 RaceSummarySchema.race_name := Race.name race;
                 RaceSummarySchema.winner := winner;
                 RaceSummarySchema.podium := podium;
                 RaceSummarySchema.total_laps :=
                   match Race.total_laps race with Some n => n | None => 0 end;
                 RaceSummarySchema.total_drivers := Z.of_nat (length results);
                 RaceSummarySchema.finished_drivers := Z.of_nat finished;
                 RaceSummarySchema.dnf_count := Z.of_nat dnf |}
      end
  end.

End RacesRouter.

(** ** app/routers/telemetry.py *)

Module TelemetryRouter.

Import Errors RaceQueries.

(** One step of the grouping loop of [get_stints]: a list is created for a
    driver id not yet in the map, and the stint is appended to the list of
    its driver. *)
Definition add_stint (driver_stint_map : Py.dict (list Stint.t))
    (stint : Stint.t) : Py.dict (list Stint.t) :=
  let driver_stint_map :=
    match Py.get driver_stint_map (Stint.driver_id stint) with
    | None => Py.setitem driver_stint_map (Stint.driver_id stint) []
    | Some _ => driver_stint_map
    end in
  match Py.get driver_stint_map (Stint.driver_id stint) with
  | Some l => Py.setitem driver_stint_map (Stint.driver_id stint) (l ++ [stint])
  | None => driver_stint_map
  end.

(** [driver_stint_map.get(driver.id, [])] *)
Definition stints_of (driver_stint_map : Py.dict (list Stint.t))
    (driver_id : Z) : list Stint.t :=
  match Py.get driver_stint_map driver_id with
  | Some l => l
  | None => []
  end.

Section DriverCodes.

Variable upper : string -> string.

(** [get_stints] *)
Definition get_stints (db : Store) (race_id : Z) (driver_code : option string)
  : list DriverStintsSchema.t + error :=
  match get_race_main_session db race_id with
  | inr _ => inr (race_not_found race_id)
  | inl session =>
      if PyStr.truthy_opt driver_code then
        let driver_code := match driver_code with Some c => c | None => ""%string end in
        match get_driver_by_code upper db driver_code with
        | inr _ => inr (driver_not_found driver_code)
        | inl driver =>
            let stints := get_driver_stints db (session_pk session) (driver_pk driver) in
            let results := get_race_results db (session_pk session) in
            let driver_result :=
              find (fun r => Z.eqb (Result.driver_id r) (driver_pk driver)) results in
            let team_name :=
              match driver_result with
              | Some r => Team.short_name (Result.team r)
              | None => "Unknown"%string
              end in
            inl [ {| DriverStintsSchema.driver_code := code driver;
                     DriverStintsSchema.driver_name := full_name driver;
                     DriverStintsSchema.team := team_name;
                     DriverStintsSchema.stints := map StintSchema.model_validate stints |} ]
        end
      else
        let results := get_race_results db (session_pk session) in
        let all_stints := get_all_session_stints db (session_pk session) in
        let driver_stint_map := fold_left add_stint all_stints [] in
        inl (fold_left
               (fun response result =>
                  let driver := Result.driver result in
                  let stints := stints_of driver_stint_map (driver_pk driver) in
                  response ++
                  [ {| DriverStintsSchema.driver_code := code driver;
                       DriverStintsSchema.driver_name := full_name driver;
                       DriverStintsSchema.team := Team.short_name (Result.team result);
                       DriverStintsSchema.stints :=
                         map StintSchema.model_validate stints |} ])
               results [])
  end.

(** [get_laps]: the lap range is built only from two given bounds. *)
Definition get_laps (db : Store) (race_id : Z) (driver_code : string)
    (lap_start lap_end : option Z) : list LapSchema.t + error :=
  match get_race_main_session db race_id with
  | inr _ => inr (race_not_found race_id)
  | inl session =>
      match get_driver_by_code upper db driver_code with
      | inr _ => inr (race_not_found race_id)
      | inl driver =>
          let lap_range :=
            match lap_start, lap_end with
            | Some a, Some b => Some (a, b)
            | _, _ => None
            end in
          let laps :=
            get_driver_laps db (session_pk session) (driver_pk driver) lap_range in
          inl (map LapSchema.model_validate laps)
      end
  end.

End DriverCodes.

End TelemetryRouter.

(** ** Orders and predicates used to state the properties of the queries *)

Module QuerySpec.

(** Classified rows first, in ascending position; unclassified rows last. *)
Definition position_le (a b : Result.t) : Prop :=
  match Result.position a, Result.position b with
  | Some x, Some y => (x <= y)%Z
  | _, None => True
  | None, Some _ => False
  end.

Definition lap_number_le (a b : Lap.t) : Prop :=
  (Lap.lap_number a <= Lap.lap_number b)%Z.

(** A classified finisher one or two laps down. *)
Definition is_lapped (result : Result.t) : bool :=
  String.eqb (Result.final_status result) "+1 Lap"
  || String.eqb (Result.final_status result) "+2 Laps".

(** The bounds [get_laps] applies: none unless both are given. *)
Definition within_bounds (lap_start lap_end : option Z) (l : Lap.t) : Prop :=
  match lap_start, lap_end with
  | Some a, Some b => (a <= Lap.lap_number l <= b)%Z
  | _, _ => True
  end.

(** The entry of [get_stints] for a result row, with the stints taken from
    the per-driver query. *)
Definition stints_entry (db : RaceQueries.Store) (session_id : Z)
    (result : Result.t) : DriverStintsSchema.t :=
  {| DriverStintsSchema.driver_code := code (Result.driver result);
     DriverStintsSchema.driver_name := full_name (Result.driver result);
     DriverStintsSchema.team := Team.short_name (Result.team result);
     DriverStintsSchema.stints :=
       map StintSchema.model_validate
           (RaceQueries.get_driver_stints db session_id
              (driver_pk (Result.driver result))) |}.

End QuerySpec.

(** ** A concrete race *)

Module RaceExamples.

Import RaceQueries.

(** Upper case of the letters a to z; other characters are kept. *)
Fixpoint ascii_upper (s : string) : string :=
  match s with
  | EmptyString => EmptyString
  | String c rest =>
      let n := Ascii.nat_of_ascii c in
      String (if (97 <=? n)%nat && (n <=? 122)%nat
              then Ascii.ascii_of_nat (n - 32)
              else c)
             (ascii_upper rest)
  end.

Definition red_bull : Team.t :=
  {| Team.id := 1; Team.name := "Red Bull Racing"; Team.short_name := "Red Bull";
     Team.color_hex := None |}.

Definition mercedes : Team.t :=
  {| Team.id := 2; Team.name := "Mercedes-AMG"; Team.short_name := "Mercedes";
     Team.color_hex := None |}.

Definition season_2024 : Season.t := {| Season.id := 1; Season.year := 2024 |}.

Definition monaco : Race.t :=
  {| Race.id := 7; Race.season_id := 1; Race.round := 8;
     Race.name := "Monaco Grand Prix"; Race.circuit_name := "Circuit de Monaco";
     Race.country := "Monaco"; Race.date := 1716732000;
     Race.total_laps := Some 78%Z; Race.season := season_2024 |}.

Definition result_of (pk : Z) (d : Driver) (team : Team.t)
    (position : option Z) (status : string) : Result.t :=
  {| Result.id := pk; Result.session_id := 1; Result.driver_id := driver_pk d;
     Result.team_id := Team.id team; Result.position := position;
     Result.grid_position := None; Result.points := None;
     Result.final_status := status; Result.total_race_time_sec := None;
     Result.time_text := None; Result.gap_to_winner_text := None;
     Result.driver := d; Result.team := team |}.

Definition lap_of (pk : Z) (d : Driver) (number : Z) (time : option Q)
    (pit : bool) : Lap.t :=
  {| Lap.id := pk; Lap.session_id := 1; Lap.driver_id := driver_pk d;
     Lap.lap_number := number; Lap.lap_time_sec := time;
     Lap.sector1_time_sec := None; Lap.sector2_time_sec := None;
     Lap.sector3_time_sec := None; Lap.is_pit_lap := pit;
     Lap.tyre_compound := None; Lap.tyre_life_laps := None;
     Lap.track_status := None |}.

Definition stint_of (pk : Z) (d : Driver) (number first last : Z)
    (compound : string) : Stint.t :=
  {| Stint.id := pk; Stint.session_id := 1; Stint.driver_id := driver_pk d;
     Stint.stint_number := number; Stint.start_lap := first;
     Stint.end_lap := last; Stint.compound := compound;
     Stint.avg_lap_time_sec := 75; Stint.laps_count := last - first + 1 |}.

Definition store : Store :=
  {| core := Examples.boundary_db;
     races := [monaco];
     drivers := [Examples.VER; Examples.HAM];
     results :=
       [result_of 1 Examples.HAM mercedes (Some 2%Z) "Finished";
        result_of 2 Examples.VER red_bull (Some 1%Z) "Finished"];
     laps :=
       [lap_of 1 Examples.VER 2 (Some (76 # 1)) true;
        lap_of 2 Examples.VER 1 (Some (75 # 1)) false;
        lap_of 3 Examples.VER 3 (Some (74 # 1)) false;
        lap_of 4 Examples.HAM 1 None false];
     stints :=
       [stint_of 1 Examples.VER 2 3 3 "HARD";
        stint_of 2 Examples.HAM 1 1 3 "MEDIUM";
        stint_of 3 Examples.VER 1 1 2 "SOFT"];
     track_shape_points := [] |}.

End RaceExamples.

(** ** app/schemas/chat.py *)

Module ChatSchemas.

Inductive ChatFocus : Type := OVERALL | DRIVER | COMPARISON.

(** [focus.value] *)
Definition focus_value (focus : ChatFocus) : string :=
  match focus with
  | OVERALL => "overall"
  | DRIVER => "driver"
  | COMPARISON => "comparison"
  end.

Record ChatRequest : Type := mkChatRequest {
  question : string;
  driver_codes : list string;
  focus : ChatFocus;
  lap_range : option (Z * Z)
}.

(** An entry of [short_stats]. *)
Record ShortStats : Type := mkShortStats {
  stat_position : option Z;
  stat_stints : Z;
  stat_pit_stops : Z
}.

Record UsedContext : Type := mkUsedContext {
  used_race_id : Z;
  used_drivers : list string;
  used_lap_range : option (Z * Z);
  short_stats : list (string * ShortStats)
}.

Record ChatResponse : Type := mkChatResponse {
  answer : string;
  used_context : UsedContext
}.

End ChatSchemas.

(** ** Dictionaries with string keys, in insertion order *)

Module StrDict.

Definition t (V : Type) : Type := list (string * V).

(** [d[k] = v] *)
Fixpoint setitem {V : Type} (d : t V) (k : string) (v : V) : t V :=
  match d with
  | [] => [(k, v)]
  | (k', v') :: d' =>
      if String.eqb k' k then (k', v) :: d' else (k', v') :: setitem d' k v
  end.

(** [d.get(k)] *)
Fixpoint get {V : Type} (d : t V) (k : string) : option V :=
  match d with
  | [] => None
  | (k', v') :: d' => if String.eqb k' k then Some v' else get d' k
  end.

End StrDict.

(** ** app/services/chat_service.py *)

Module ChatService.

Import Errors RaceQueries ChatSchemas.

(** The dictionaries of the context handed to the language model. *)
Record RaceInfo : Type := mkRaceInfo {
  info_id : Z;
  info_name : string;
  info_season : Z;
  info_round : Z;
  info_circuit : string;
  info_country : string;
  info_total_laps : option Z;
  info_date : string
}.

Record PodiumEntry : Type := mkPodiumEntry {
  podium_position : Z;
  podium_driver : string;
  podium_team : string;
  podium_time : option string
}.

Record StintData : Type := mkStintData {
  data_stint : Z;
  data_compound : string;
  data_laps : string;
  data_laps_count : Z;
  data_avg_lap_time_sec : Q
}.

Record DriverData : Type := mkDriverData {
  data_code : string;
  data_name : string;
  data_team : string;
  data_final_position : option Z;
  data_grid_position : option Z;
  data_final_status : string;
  data_stints : list StintData;
  data_lap_statistics : LapStatistics;
  data_pit_stops : Z
}.

Record Context : Type := mkContext {
  context_race : RaceInfo;
  context_podium : list PodiumEntry;
  context_lap_range : Z * Z;
  context_drivers : list DriverData
}.

(** [build_system_prompt] *)
Definition build_system_prompt : string :=
  "You are an F1 race analysis assistant with deep knowledge of Formula 1 racing, strategy, and telemetry data.

Your role:
- Analyze F1 race data to provide insightful explanations about driver performance, race strategy, and race events
- Answer questions ONLY based on the structured race data provided in the context
- Focus on explaining pace differences, tyre strategy, pit stop timing, and relative performance using actual numbers
- Be concise but insightful - provide 1-3 short paragraphs

Important guidelines:
- If the provided data does not contain enough information to answer the question, explicitly say so
- NEVER invent facts or make assumptions beyond what the data shows
- Reference specific numbers from the data (lap times, stint averages, lap ranges) to support your analysis
- Explain WHY something happened based on the data patterns you observe
- Use F1 terminology appropriately (undercut, overcut, tyre degradation, delta, etc.)

When analyzing:
- Compare lap times and pace across stints
- Consider tyre compound effects on performance
- Look at consistency (standard deviation in lap times)
- Identify key moments (pit stops, pace changes)
- Consider track position and strategy implications".

Section Collaborators.

(** [str.upper], [datetime.isoformat], [round(x, 3)], [json.dumps(context,
    indent=2)] and the language model client, taken as given; the client
    answers or raises [LLMException] with a message. *)
Variable upper : string -> string.
Variable isoformat : Z -> string.
Variable round3 : Q -> Q.
Variable json_dumps : Context -> string.
Variable ask : string -> string -> string + string.

Definition stint_data (s : Stint.t) : StintData :=
  {| data_stint := Stint.stint_number s;
     data_compound := Stint.compound s;
     data_laps := (decimal (Stint.start_lap s) ++ "-" ++ decimal (Stint.end_lap s))%string;
     data_laps_count := Stint.laps_count s;
     data_avg_lap_time_sec := round3 (Stint.avg_lap_time_sec s) |}.

(** The dictionary built for one driver that was found. *)
Definition driver_data (db : Store) (session_id : Z) (results : list Result.t)
    (lap_range : option (Z * Z)) (driver : Driver) : DriverData :=
  let driver_result :=
    find (fun r => Z.eqb (Result.driver_id r) (driver_pk driver)) results in
  let stints := get_driver_stints db session_id (driver_pk driver) in
  let stints_data := map stint_data stints in
  let lap_stats := get_lap_statistics db session_id (driver_pk driver) lap_range in
  let pit_stops := count_pit_stops db session_id (driver_pk driver) in
  {| data_code := code driver;
     data_name := full_name driver;
     data_team :=
       match driver_result with
       | Some r => Team.short_name (Result.team r)
       | None => "Unknown"
       end;
     data_final_position :=
       match driver_result with Some r => Result.position r | None => None end;
     data_grid_position :=
       match driver_result with Some r => Result.grid_position r | None => None end;
     data_final_status :=
       match driver_result with
       | Some r => Result.final_status r
       | None => "Unknown"
       end;
     data_stints := stints_data;
     data_lap_statistics := lap_stats;
     data_pit_stops := pit_stops |}.

(** The loop over the driver codes: a code without a driver is skipped, any
    other failure of the lookup ends the loop. *)
Fixpoint add_drivers (db : Store) (session_id : Z) (results : list Result.t)
    (lap_range : option (Z * Z)) (driver_codes : list string)
    (drivers : list DriverData) : list DriverData + error :=
  match driver_codes with
  | [] => inl drivers
  | code :: rest =>
      match get_driver_by_code upper db code with
      | inl driver =>
          add_drivers db session_id results lap_range rest
            (drivers ++ [driver_data db session_id results lap_range driver])
      | inr (DriverNotFoundException _) =>
          add_drivers db session_id results lap_range rest drivers
      | inr e => inr e
      end
  end.

(** [result.position and result.position <= 3] *)
Definition on_podium (result : Result.t) : bool :=
  match Result.position result with
  | Some p => negb (Z.eqb p 0) && Z.leb p 3
  | None => false
  end.

Definition podium_entry (result : Result.t) : PodiumEntry :=
  {| podium_position :=
       match Result.position result with Some p => p | None => 0 end;
     podium_driver := code (Result.driver result);
     podium_team := Team.short_name (Result.team result);
     podium_time := Result.time_text result |}.

(** [build_context_dict] *)
Definition build_context_dict (db : Store) (race_id session_id : Z)
    (driver_codes : list string) (lap_range : option (Z * Z))
  : Context + error :=
  match get_race_by_id db race_id with
  | inr e => inr e
  | inl race =>
      let results := get_race_results db session_id in
      let podium :=
        fold_left (fun podium result =>
                     if on_podium result
                     then podium ++ [podium_entry result]
                     else podium)
                  (firstn 3 results) [] in
      let race_info :=
        {| info_id := race_id;
           info_name := Race.name race;
           info_season := Season.year (Race.season race);
           info_round := Race.round race;
           info_circuit := Race.circuit_name race;
           info_country := Race.country race;
           info_total_laps := Race.total_laps race;
           info_date := isoformat (Race.date race) |} in
      let context_lap_range :=
        match lap_range with
        | Some range => range
        | None =>
            (1%Z, match Race.total_laps race with Some n => n | None => 0%Z end)
        end in
      match add_drivers db session_id results lap_range driver_codes [] with
      | inr e => inr e
      | inl drivers =>
          inl {| context_race := race_info;
                 context_podium := podium;
                 context_lap_range := context_lap_range;
                 context_drivers := drivers |}
      end
  end.

(** The user prompt of [answer_race_question]. *)
Definition user_prompt (question : string) (focus : ChatFocus)
    (context_json : string) : string :=
  ("Question: " ++ question ++ "

Focus: " ++ focus_value focus ++ "

Race Data Context (JSON):
"
   ++ context_json ++ "

Based on the data above, please provide a concise analysis answering the question. Reference specific numbers from the data to support your explanation.")%string.

Definition short_stat (driver_data : DriverData) : ShortStats :=
  {| stat_position := data_final_position driver_data;
     stat_stints := Z.of_nat (length (data_stints driver_data));
     stat_pit_stops := data_pit_stops driver_data |}.

(** [answer_race_question] *)
Definition answer_race_question (db : Store) (race_id : Z) (question : string)
    (driver_codes : list string) (focus : ChatFocus)
    (lap_range : option (Z * Z)) : ChatResponse + error :=
  match get_race_by_id db race_id with
  | inr e => inr e
  | inl race =>
      match get_race_main_session db race_id with
      | inr e => inr e
      | inl session =>
          let driver_codes := map upper (firstn 2 driver_codes) in
          match build_context_dict db race_id (session_pk session)
                  driver_codes lap_range with
          | inr e => inr e
          | inl context =>
              let context_json := json_dumps context in
              let user_prompt := user_prompt question focus context_json in
              let system_prompt := build_system_prompt in
              match ask system_prompt user_prompt with
              | inr msg => inr (LLMException msg)
              | inl answer =>
                  let short_stats :=
                    fold_left (fun short_stats driver_data =>
                                 StrDict.setitem short_stats
                                   (data_code driver_data)
                                   (short_stat driver_data))
                              (context_drivers context) [] in
                  inl {| answer := answer;
                         used_context :=
                           {| used_race_id := race_id;
                              used_drivers := driver_codes;
                              used_lap_range := lap_range;
                              short_stats := short_stats |} |}
              end
          end
      end
  end.

(** [chat_about_race]: every exception becomes [llm_error]. *)
Definition chat_about_race (db : Store) (race_id : Z) (request : ChatRequest)
  : ChatResponse + error :=
  match answer_race_question db race_id (question request)
          (driver_codes request) (focus request) (lap_range request) with
  | inl response => inl response
  | inr e => inr (llm_error (Errors.str e))
  end.

End Collaborators.

End ChatService.

Import Schemas ReplayService ReplaySpec.

(** * Properties *)

(** ** Comparisons *)

Lemma Qlt_bool_iff (a b : Q) : Qlt_bool a b = true <-> a < b.
Proof.
  unfold Qlt_bool. rewrite negb_true_iff.
  split; intro H.
  - apply Qnot_le_lt. intro Hle. apply Qle_bool_iff in Hle. congruence.
  - destruct (Qle_bool b a) eqn:E; [|reflexivity].
    apply Qle_bool_iff in E. exfalso. apply (Qlt_not_le a b); assumption.
Qed.

Lemma Qlt_bool_false (a b : Q) : Qlt_bool a b = false <-> b <= a.
Proof.
  unfold Qlt_bool. rewrite negb_false_iff. apply Qle_bool_iff.
Qed.

Lemma Qle_bool_false (a b : Q) : Qle_bool a b = false <-> b < a.
Proof.
  split; intro H.
  - apply Qnot_le_lt. intro Hle. apply Qle_bool_iff in Hle. congruence.
  - destruct (Qle_bool a b) eqn:E; [|reflexivity].
    apply Qle_bool_iff in E. exfalso. apply (Qlt_not_le b a); assumption.
Qed.

(** ** Binary64 arithmetic *)

Module Float64Facts.

Import Float64.

(** ** Powers of two *)

Lemma pow2_pos (e : Z) : 0 < pow2 e.
Proof. apply Qpower_0_lt. reflexivity. Qed.

Lemma pow2_add (a b : Z) : pow2 (a + b) == pow2 a * pow2 b.
Proof. apply Qpower_plus. discriminate. Qed.

Lemma pow2_le (a b : Z) : (a <= b)%Z -> pow2 a <= pow2 b.
Proof. intro H. apply Qpower_le_compat_l; [exact H | discriminate]. Qed.

Lemma pow2_lt (a b : Z) : (a < b)%Z -> pow2 a < pow2 b.
Proof. intro H. apply Qpower_lt_compat_l; [exact H | reflexivity]. Qed.

Lemma pow2_lt_inv (a b : Z) : pow2 a < pow2 b -> (a < b)%Z.
Proof. intro H. apply (Qpower_lt_compat_l_inv (2 # 1)); [exact H | reflexivity]. Qed.

Lemma pow2_Z (n : Z) : (0 <= n)%Z -> pow2 n == inject_Z (2 ^ n).
Proof. intro H. unfold pow2. rewrite (Zpower_Qpower 2 n H). reflexivity. Qed.

Lemma pow2_succ (e : Z) : pow2 (e + 1) == 2 * pow2 e.
Proof. rewrite pow2_add. change (pow2 1) with (2 # 1). ring. Qed.

Lemma pow2_pred (e : Z) : pow2 (e - 1) == (1 # 2) * pow2 e.
Proof.
  rewrite <- (Qmult_1_l (pow2 (e - 1))).
  replace e with (e - 1 + 1)%Z at 2 by lia. rewrite pow2_succ. ring.
Qed.

Lemma pow2_sub (a b : Z) : pow2 (a - b) == pow2 a / pow2 b.
Proof.
  assert (H := pow2_add (a - b) b). replace (a - b + b)%Z with a in H by lia.
  rewrite H. field. intro H0. pose proof (pow2_pos b). lra.
Qed.

(** ** The binary logarithm *)

Lemma Qabs_num_den (p : Z) (q : positive) :
  Qabs (p # q) * inject_Z (Zpos q) == inject_Z (Z.abs p).
Proof. unfold Qeq, Qabs, Qmult, inject_Z. cbn. lia. Qed.

Lemma ilog2_spec (x : Q) :
  ~ x == 0 -> pow2 (ilog2 x) <= Qabs x /\ Qabs x < pow2 (ilog2 x + 1).
Proof.
  intro Hx. unfold ilog2. destruct x as [p q]. cbn [Qnum Qden].
  set (a := Z.log2 (Z.abs p)). set (b := Z.log2 (Zpos q)).
  assert (Hp : (0 < Z.abs p)%Z).
  { assert (p <> 0)%Z; [|lia]. intro H0. apply Hx. subst p. reflexivity. }
  destruct (Z.log2_spec (Z.abs p) Hp) as [Ha1 Ha2]. fold a in Ha1, Ha2.
  destruct (Z.log2_spec (Zpos q) ltac:(lia)) as [Hb1 Hb2]. fold b in Hb1, Hb2.
  assert (Ha0 : (0 <= a)%Z) by apply Z.log2_nonneg.
  assert (Hb0 : (0 <= b)%Z) by apply Z.log2_nonneg.
  pose proof (Qabs_num_den p q) as Hfrac.
  assert (Hq : 0 < inject_Z (Zpos q)) by reflexivity.
  assert (HP1 : pow2 a <= inject_Z (Z.abs p))
    by (rewrite pow2_Z, <- Zle_Qle; assumption).
  assert (HP2 : inject_Z (Z.abs p) < pow2 (a + 1))
    by (rewrite pow2_Z, <- Zlt_Qlt; [exact Ha2 | lia]).
  assert (HQ1 : pow2 b <= inject_Z (Zpos q))
    by (rewrite pow2_Z, <- Zle_Qle; assumption).
  assert (HQ2 : inject_Z (Zpos q) < pow2 (b + 1))
    by (rewrite pow2_Z, <- Zlt_Qlt; [exact Hb2 | lia]).
  assert (Hlow : pow2 (a - b - 1) <= Qabs (p # q)).
  { apply (Qmult_le_r _ _ (inject_Z (Zpos q)) Hq). rewrite Hfrac.
    apply Qle_trans with (pow2 (a - b - 1) * pow2 (b + 1)).
    - apply Qmult_le_l; [apply pow2_pos | apply Qlt_le_weak, HQ2].
    - rewrite <- pow2_add. replace (a - b - 1 + (b + 1))%Z with a by lia.
      exact HP1. }
  assert (Hup : Qabs (p # q) < pow2 (a - b + 1)).
  { apply (Qmult_lt_r _ _ (inject_Z (Zpos q)) Hq). rewrite Hfrac.
    apply Qlt_le_trans with (pow2 (a - b + 1) * pow2 b).
    - rewrite <- pow2_add. replace (a - b + 1 + b)%Z with (a + 1)%Z by lia.
      exact HP2.
    - apply Qmult_le_l; [apply pow2_pos | exact HQ1]. }
  destruct (Qle_bool (pow2 (a - b)) (Qabs (p # q))) eqn:E.
  - apply Qle_bool_iff in E. split; [exact E | exact Hup].
  - apply Qle_bool_false in E. split; [exact Hlow|].
    replace (a - b - 1 + 1)%Z with (a - b)%Z by lia. exact E.
Qed.

(** The binade of a number is determined by its magnitude. *)
Lemma ilog2_lt (x : Q) (b : Z) : ~ x == 0 -> Qabs x < pow2 b -> (ilog2 x < b)%Z.
Proof.
  intros Hx Hb. destruct (ilog2_spec x Hx) as [Hlow _].
  apply pow2_lt_inv. lra.
Qed.

(** ** Rounding to the nearest integer, ties to even *)

Lemma nearest_even_spec (m : Q) :
  Qabs (inject_Z (nearest_even m) - m) <= 1 # 2.
Proof.
  unfold nearest_even. pose proof (Qfloor_le m) as Hlo.
  pose proof (Qlt_floor m) as Hhi. rewrite inject_Z_plus in Hhi.
  change (inject_Z 1) with 1 in Hhi.
  apply Qabs_Qle_condition.
  destruct (Qcompare_spec (m - inject_Z (Qfloor m)) (1 # 2)) as [He|Hl|Hg].
  - destruct (Z.even (Qfloor m)); rewrite ?inject_Z_plus;
      change (inject_Z 1) with 1; lra.
  - lra.
  - rewrite inject_Z_plus. change (inject_Z 1) with 1. lra.
Qed.

(** No integer is nearer. *)
Lemma nearest_even_nearest (m : Q) (k : Z) :
  Qabs (inject_Z (nearest_even m) - m) <= Qabs (inject_Z k - m).
Proof.
  pose proof (nearest_even_spec m) as H. apply Qabs_Qle_condition in H.
  destruct (Z.eq_dec k (nearest_even m)) as [->|Hne]; [apply Qle_refl|].
  apply Qle_trans with (1 # 2); [apply Qabs_Qle_condition; exact H|].
  assert (Hk : (k + 1 <= nearest_even m \/ nearest_even m + 1 <= k)%Z) by lia.
  destruct Hk as [Hk|Hk]; rewrite Zle_Qle, inject_Z_plus in Hk;
    change (inject_Z 1) with 1 in Hk.
  - rewrite Qabs_neg by lra. lra.
  - rewrite Qabs_pos by lra. lra.
Qed.

(** ** Rounding to 53 bits *)

Lemma nearest_zero (x : Q) : x == 0 -> nearest x = 0.
Proof.
  intro H. unfold nearest. apply Qeq_bool_iff in H. rewrite H. reflexivity.
Qed.

Lemma nearest_nonzero (x : Q) :
  ~ x == 0 ->
  nearest x
  = inject_Z (nearest_even (x / pow2 (ulp_exponent x))) * pow2 (ulp_exponent x).
Proof.
  intro H. unfold nearest. destruct (Qeq_bool x 0) eqn:E; [|reflexivity].
  apply Qeq_bool_iff in E. contradiction.
Qed.

Lemma scaled_distance (k : Z) (x : Q) (e : Z) :
  Qabs (inject_Z k * pow2 e - x)
  == Qabs (inject_Z k - x / pow2 e) * pow2 e.
Proof.
  pose proof (pow2_pos e) as He.
  rewrite <- (Qabs_pos (pow2 e)) at 3 by lra. rewrite <- Qabs_Qmult.
  apply Qabs_wd. field. lra.
Qed.

(** The rounded value is a nearest multiple of the unit in the last place. *)
Lemma nearest_multiple (x : Q) (k : Z) :
  ~ x == 0 ->
  Qabs (nearest x - x) <= Qabs (inject_Z k * pow2 (ulp_exponent x) - x).
Proof.
  intro Hx. rewrite (nearest_nonzero x Hx), !scaled_distance.
  apply Qmult_le_compat_r; [apply nearest_even_nearest|].
  apply Qlt_le_weak, pow2_pos.
Qed.

Lemma nearest_error (x : Q) :
  ~ x == 0 -> Qabs (nearest x - x) <= (1 # 2) * pow2 (ulp_exponent x).
Proof.
  intro Hx. rewrite (nearest_nonzero x Hx), scaled_distance.
  apply Qmult_le_compat_r; [apply nearest_even_spec|].
  apply Qlt_le_weak, pow2_pos.
Qed.

Lemma ulp_exponent_bounds (x : Q) :
  (-1074 <= ulp_exponent x)%Z /\ (ilog2 x - 52 <= ulp_exponent x)%Z.
Proof. unfold ulp_exponent. lia. Qed.

Lemma nearest_closest (x f : Q) :
  representable f -> Qabs (nearest x - x) <= Qabs (f - x).
Proof.
  intros (m & e & Hf & Hm & He).
  destruct (Qeq_dec x 0) as [H0|Hx].
  { rewrite (nearest_zero x H0). setoid_replace (0 - x) with 0 by lra.
    apply Qabs_nonneg. }
  destruct (ulp_exponent_bounds x) as [HE1 HE2].
  destruct (Z_le_gt_dec (ulp_exponent x) e) as [Hge|Hlt].
  - (* [f] is a multiple of the unit in the last place *)
    assert (Hk : f == inject_Z (m * 2 ^ (e - ulp_exponent x))
                      * pow2 (ulp_exponent x)).
    { rewrite Hf, inject_Z_mult, <- pow2_Z by lia.
      rewrite <- Qmult_assoc, <- pow2_add.
      replace (e - ulp_exponent x + ulp_exponent x)%Z with e by lia.
      reflexivity. }
    rewrite Hk. apply nearest_multiple, Hx.
  - (* [f] is below the binade of [x] *)
    assert (HE : ulp_exponent x = (ilog2 x - 52)%Z)
      by (unfold ulp_exponent in *; lia).
    destruct (ilog2_spec x Hx) as [Hlow _].
    assert (Hfabs : Qabs f <= pow2 (ilog2 x)).
    { rewrite Hf, Qabs_Qmult, (Qabs_pos (pow2 e))
        by apply Qlt_le_weak, pow2_pos.
      apply Qle_trans with (pow2 53 * pow2 e).
      - apply Qmult_le_compat_r; [|apply Qlt_le_weak, pow2_pos].
        rewrite pow2_Z by lia.
        assert (Hz : Qabs (inject_Z m) == inject_Z (Z.abs m))
          by (unfold Qabs, inject_Z; reflexivity).
        rewrite Hz, <- Zle_Qle. exact Hm.
      - rewrite <- pow2_add. apply pow2_le. lia. }
    assert (Hg : pow2 (ilog2 x) == inject_Z (2 ^ 52) * pow2 (ulp_exponent x)).
    { rewrite <- pow2_Z, <- pow2_add, HE by lia.
      replace (52 + (ilog2 x - 52))%Z with (ilog2 x) by lia. reflexivity. }
    destruct (Qlt_le_dec x 0) as [Hneg|Hpos].
    + rewrite Qabs_neg in Hlow by lra.
      apply Qle_trans
        with (Qabs (inject_Z (- 2 ^ 52) * pow2 (ulp_exponent x) - x)).
      * apply nearest_multiple, Hx.
      * rewrite inject_Z_opp.
        setoid_replace (- inject_Z (2 ^ 52) * pow2 (ulp_exponent x) - x)
          with (- x - pow2 (ilog2 x)) by (rewrite Hg; ring).
        rewrite Qabs_pos by lra.
        apply Qabs_Qle_condition in Hfabs.
        apply Qle_trans with (f - x); [lra | apply Qle_Qabs].
    + rewrite Qabs_pos in Hlow by lra.
      apply Qle_trans
        with (Qabs (inject_Z (2 ^ 52) * pow2 (ulp_exponent x) - x)).
      * apply nearest_multiple, Hx.
      * rewrite <- Hg. rewrite Qabs_neg by lra.
        apply Qabs_Qle_condition in Hfabs.
        rewrite <- (Qabs_opp (f - x)).
        apply Qle_trans with (- (f - x)); [lra | apply Qle_Qabs].
Qed.

Lemma representable_compat (f g : Q) : f == g -> representable f -> representable g.
Proof.
  intros Heq (m & e & Hf & H). exists m, e. rewrite <- Heq. auto.
Qed.

Lemma representable_pow2 (e : Z) : (-1074 <= e)%Z -> representable (pow2 e).
Proof.
  intro He. exists 1%Z, e. split; [ring | split; [cbn; lia | exact He]].
Qed.

Lemma representable_opp (f : Q) : representable f -> representable (- f).
Proof.
  intros (m & e & Hf & Hm & He). exists (- m)%Z, e.
  rewrite inject_Z_opp, Hf. split; [ring | split; [lia | exact He]].
Qed.

Lemma representable_zero : representable 0.
Proof. exists 0%Z, 0%Z. split; [reflexivity | split; cbn; lia]. Qed.

Lemma nearest_representable (x : Q) : representable (nearest x).
Proof.
  destruct (Qeq_dec x 0) as [H0|Hx].
  { rewrite (nearest_zero x H0). apply representable_zero. }
  rewrite (nearest_nonzero x Hx).
  exists (nearest_even (x / pow2 (ulp_exponent x))), (ulp_exponent x).
  destruct (ulp_exponent_bounds x) as [HE1 HE2].
  split; [reflexivity|]. split; [|exact HE1].
  destruct (ilog2_spec x Hx) as [_ Hup].
  set (E := ulp_exponent x) in *. set (m := x / pow2 E).
  assert (Hm : Qabs m < pow2 53).
  { unfold m, Qdiv. rewrite Qabs_Qmult, Qabs_Qinv, (Qabs_pos (pow2 E))
      by apply Qlt_le_weak, pow2_pos.
    apply Qlt_shift_div_r; [apply pow2_pos|].
    rewrite <- pow2_add. apply Qlt_le_trans with (pow2 (ilog2 x + 1)).
    - exact Hup.
    - apply pow2_le. lia. }
  rewrite pow2_Z in Hm by lia.
  apply Qabs_Qlt_condition in Hm. destruct Hm as [Hm1 Hm2].
  pose proof (nearest_even_spec m) as Hn.
  apply Qabs_Qle_condition in Hn. destruct Hn as [Hn1 Hn2].
  assert (H1 : inject_Z (- (2 ^ 53 + 1)) < inject_Z (nearest_even m)).
  { rewrite inject_Z_opp, inject_Z_plus. change (inject_Z 1) with 1. lra. }
  assert (H2 : inject_Z (nearest_even m) < inject_Z (2 ^ 53 + 1)).
  { rewrite inject_Z_plus. change (inject_Z 1) with 1. lra. }
  rewrite <- Zlt_Qlt in H1, H2. lia.
Qed.

Lemma nearest_ge (x f : Q) : representable f -> f <= x -> f <= nearest x.
Proof.
  intros Hf Hle. pose proof (nearest_closest x f Hf) as H.
  rewrite (Qabs_neg (f - x)) in H by lra.
  apply Qabs_Qle_condition in H. lra.
Qed.

Lemma nearest_le (x f : Q) : representable f -> x <= f -> nearest x <= f.
Proof.
  intros Hf Hle. pose proof (nearest_closest x f Hf) as H.
  rewrite (Qabs_pos (f - x)) in H by lra.
  apply Qabs_Qle_condition in H. lra.
Qed.

(** ** Rounding to binary64 *)

Lemma round_compat (x y : Q) : x == y -> round x = round y.
Proof. intro H. unfold round. rewrite (Qred_complete x y H). reflexivity. Qed.

Lemma round_cases (x : Q) :
  (exists y, round x = Finite y /\ y == nearest (Qred x) /\ is_float y)
  \/ (round x = Infinity (Qlt_bool (Qred x) 0)
      /\ pow2 1024 <= Qabs (nearest (Qred x))).
Proof.
  unfold round. cbv zeta.
  destruct (Qlt_bool (Qabs (nearest (Qred x))) (pow2 1024)) eqn:E.
  - left. apply Qlt_bool_iff in E. eexists. split; [reflexivity|].
    split; [apply Qred_correct|]. split.
    + apply (representable_compat (nearest (Qred x)));
        [symmetry; apply Qred_correct | apply nearest_representable].
    + rewrite Qred_correct. exact E.
  - right. apply Qlt_bool_false in E. split; [reflexivity | exact E].
Qed.

Lemma round_ge (x f : Q) : is_float f -> f <= x -> le (Finite f) (round x).
Proof.
  intros [Hf Hrange] Hle. rewrite <- (Qred_correct x) in Hle.
  pose proof (nearest_ge (Qred x) f Hf Hle) as Hge.
  destruct (round_cases x) as [(y & -> & Hy & _) | [-> Hbig]].
  - apply Qle_bool_iff. rewrite Hy. exact Hge.
  - destruct (Qlt_bool (Qred x) 0) eqn:E; [|reflexivity].
    exfalso. apply Qlt_bool_iff in E.
    pose proof (nearest_le (Qred x) 0 representable_zero ltac:(lra)) as Hneg.
    rewrite Qabs_neg in Hbig by exact Hneg.
    apply Qabs_Qlt_condition in Hrange. lra.
Qed.

Lemma round_le (x f : Q) : is_float f -> x <= f -> le (round x) (Finite f).
Proof.
  intros [Hf Hrange] Hle. rewrite <- (Qred_correct x) in Hle.
  pose proof (nearest_le (Qred x) f Hf Hle) as Hge.
  destruct (round_cases x) as [(y & -> & Hy & _) | [-> Hbig]].
  - apply Qle_bool_iff. rewrite Hy. exact Hge.
  - destruct (Qlt_bool (Qred x) 0) eqn:E; [reflexivity|].
    exfalso. apply Qlt_bool_false in E.
    pose proof (nearest_ge (Qred x) 0 representable_zero E) as Hpos.
    rewrite Qabs_pos in Hbig by exact Hpos.
    apply Qabs_Qlt_condition in Hrange. lra.
Qed.

Lemma round_valid (x : Q) : valid (round x).
Proof.
  destruct (round_cases x) as [(y & -> & _ & Hy) | [-> _]]; [exact Hy | exact I].
Qed.

(** ** The order of the binary64 values *)

Lemma le_trans (a b c : t) : le a b -> le b c -> le a c.
Proof.
  unfold le. destruct a as [x|[|]|], b as [y|[|]|], c as [z|[|]|]; cbn;
    try discriminate; try reflexivity.
  rewrite !Qle_bool_iff. intros. lra.
Qed.

Lemma lt_le_trans (a b c : t) : lt a b -> le b c -> lt a c.
Proof.
  unfold le, lt. destruct a as [x|[|]|], b as [y|[|]|], c as [z|[|]|]; cbn;
    try discriminate; try reflexivity.
  rewrite !Qlt_bool_iff, Qle_bool_iff. intros. lra.
Qed.

Lemma le_lt_trans (a b c : t) : le a b -> lt b c -> lt a c.
Proof.
  unfold le, lt. destruct a as [x|[|]|], b as [y|[|]|], c as [z|[|]|]; cbn;
    try discriminate; try reflexivity.
  rewrite !Qlt_bool_iff, Qle_bool_iff. intros. lra.
Qed.

Lemma lt_le (a b : t) : lt a b -> le a b.
Proof.
  unfold le, lt. destruct a as [x|[|]|], b as [y|[|]|]; cbn;
    try discriminate; try reflexivity.
  rewrite Qlt_bool_iff, Qle_bool_iff. intros. lra.
Qed.

Lemma le_not_lt (a b : t) : le a b -> ~ lt b a.
Proof.
  unfold le, lt. destruct a as [x|[|]|], b as [y|[|]|]; cbn;
    try discriminate; intros H H'; try discriminate.
  apply Qle_bool_iff in H. apply Qlt_bool_iff in H'. lra.
Qed.

Lemma le_refl (a : t) : a <> NaN -> le a a.
Proof.
  unfold le. destruct a as [x|[|]|]; cbn; intro H; try reflexivity;
    [apply Qle_bool_iff; lra | congruence].
Qed.

Lemma ltb_false (a b : t) : a <> NaN -> b <> NaN -> ltb a b = false -> le b a.
Proof.
  unfold le. destruct a as [x|[|]|], b as [y|[|]|]; cbn; intros Ha Hb H;
    try discriminate; try reflexivity; try congruence.
  apply Qle_bool_iff. apply Qlt_bool_false in H. exact H.
Qed.

Lemma leb_false (a b : t) : a <> NaN -> b <> NaN -> leb a b = false -> lt b a.
Proof.
  unfold lt. destruct a as [x|[|]|], b as [y|[|]|]; cbn; intros Ha Hb H;
    try discriminate; try reflexivity; try congruence.
  apply Qlt_bool_iff. apply Qle_bool_false in H. exact H.
Qed.

Lemma le_Finite (x y : Q) : le (Finite x) (Finite y) <-> x <= y.
Proof. apply Qle_bool_iff. Qed.

Lemma lt_Finite (x y : Q) : lt (Finite x) (Finite y) <-> x < y.
Proof. apply Qlt_bool_iff. Qed.

Lemma valid_not_nan (a : t) : valid a -> a <> NaN.
Proof. destruct a; cbn; [discriminate | discriminate | contradiction]. Qed.

(** ** Addition *)

Lemma add_not_nan (a : t) (s : Q) : a <> NaN -> valid (add a (Finite s)).
Proof.
  destruct a as [x|b|]; cbn; intro H; [apply round_valid | exact I | congruence].
Qed.

(** Adding a number that is not negative never gives less. *)
Lemma add_nondecreasing (a : t) (s : Q) :
  valid a -> 0 <= s -> le a (add a (Finite s)).
Proof.
  destruct a as [x|b|]; cbn; intros Ha Hs.
  - apply round_ge; [exact Ha | lra].
  - destruct b; reflexivity.
  - contradiction.
Qed.

(** Adding a number that is not positive never gives more. *)
Lemma add_nonincreasing (a : t) (s : Q) :
  valid a -> s <= 0 -> le (add a (Finite s)) a.
Proof.
  destruct a as [x|b|]; cbn; intros Ha Hs.
  - apply round_le; [exact Ha | lra].
  - destruct b; reflexivity.
  - contradiction.
Qed.

Lemma is_float_zero : is_float 0.
Proof. split; [apply representable_zero | apply pow2_pos]. Qed.

Lemma is_float_opp (f : Q) : is_float f -> is_float (- f).
Proof.
  intros [Hf Hr]. split; [apply representable_opp, Hf|].
  rewrite Qabs_opp. exact Hr.
Qed.

Lemma is_float_pow2 (e : Z) : (-1074 <= e <= 1023)%Z -> is_float (pow2 e).
Proof.
  intro He. split; [apply representable_pow2; lia|].
  rewrite Qabs_pos by apply Qlt_le_weak, pow2_pos. apply pow2_lt. lia.
Qed.

(** A magnitude of [2 ** 1024] or more is beyond the binary64 numbers. *)
Lemma round_overflows (x : Q) :
  pow2 1024 <= x -> round x = Infinity false.
Proof.
  intro Hx. rewrite <- (Qred_correct x) in Hx.
  pose proof (pow2_pos 1024) as Hpos.
  pose proof (nearest_ge (Qred x) (pow2 1024)
                (representable_pow2 1024 ltac:(lia)) Hx) as Hge.
  destruct (round_cases x) as [(y & _ & Hy & _ & Hr) | [-> _]].
  - exfalso. rewrite Hy, Qabs_pos in Hr by lra. lra.
  - f_equal. apply Qlt_bool_false. lra.
Qed.

(** Where the step is at least the unit in the last place, an addition
    advances by at least half the step. *)
Lemma add_progress (a s : Q) (b : Z) :
  (-1021 <= b <= 1023)%Z ->
  Qabs (a + s) < pow2 b ->
  pow2 (b - 53) <= s ->
  le (Finite (a + (1 # 2) * s)) (add (Finite a) (Finite s)).
Proof.
  intros Hb Hrange Hstep. cbn [add].
  pose proof (pow2_pos (b - 53)) as Hpos.
  rewrite <- (Qred_correct (a + s)) in Hrange.
  assert (Hnear : Qred (a + s) - (1 # 2) * s <= nearest (Qred (a + s))).
  { destruct (Qeq_dec (Qred (a + s)) 0) as [H0|Hx].
    - rewrite (nearest_zero _ H0). lra.
    - pose proof (nearest_error _ Hx) as Herr.
      apply Qabs_Qle_condition in Herr.
      assert (HE : pow2 (ulp_exponent (Qred (a + s))) <= pow2 (b - 53)).
      { apply pow2_le. pose proof (ilog2_lt _ b Hx Hrange).
        unfold ulp_exponent. lia. }
      lra. }
  destruct (round_cases (a + s)) as [(y & -> & Hy & _) | [_ Hbig]].
  - apply Qle_bool_iff. rewrite Hy.
    pose proof (Qred_correct (a + s)). lra.
  - exfalso. apply Qabs_Qlt_condition in Hrange.
    destruct (is_float_pow2 b ltac:(lia)) as [Hrep _].
    pose proof (nearest_le (Qred (a + s)) (pow2 b) Hrep ltac:(lra)) as H1.
    pose proof (nearest_ge (Qred (a + s)) (- pow2 b)
                  (representable_opp _ Hrep) ltac:(lra)) as H2.
    assert (Hlt : pow2 b < pow2 1024) by (apply pow2_lt; lia).
    assert (Qabs (nearest (Qred (a + s))) <= pow2 b)
      by (apply Qabs_Qle_condition; split; assumption).
    lra.
Qed.

End Float64Facts.

(** ** Python builtins *)

Section MinMax.

Lemma min_of_le_start (xs : list Q) (x0 : Q) : Py.min_of x0 xs <= x0.
Proof.
  revert x0. induction xs as [|v xs IH]; intro x0; cbn.
  - apply Qle_refl.
  - destruct (Qlt_bool v x0) eqn:E.
    + apply Qlt_bool_iff in E. specialize (IH v).
      change (Py.min_of v xs <= x0). lra.
    + apply IH.
Qed.

Lemma min_of_le_all (xs : list Q) (x0 : Q) :
  Forall (fun v => Py.min_of x0 xs <= v) xs.
Proof.
  revert x0. induction xs as [|v xs IH]; intro x0; constructor.
  - cbn. destruct (Qlt_bool v x0) eqn:E.
    + apply (min_of_le_start xs v).
    + apply Qlt_bool_false in E.
      pose proof (min_of_le_start xs x0) as H.
      change (Py.min_of x0 xs <= v). lra.
  - cbn. destruct (Qlt_bool v x0); apply IH.
Qed.

Lemma max_of_ge_start (xs : list Q) (x0 : Q) : x0 <= Py.max_of x0 xs.
Proof.
  revert x0. induction xs as [|v xs IH]; intro x0; cbn.
  - apply Qle_refl.
  - destruct (Qlt_bool x0 v) eqn:E.
    + apply Qlt_bool_iff in E. specialize (IH v).
      change (x0 <= Py.max_of v xs). lra.
    + apply IH.
Qed.

Lemma max_of_ge_all (xs : list Q) (x0 : Q) :
  Forall (fun v => v <= Py.max_of x0 xs) xs.
Proof.
  revert x0. induction xs as [|v xs IH]; intro x0; constructor.
  - cbn. destruct (Qlt_bool x0 v) eqn:E.
    + apply (max_of_ge_start xs v).
    + apply Qlt_bool_false in E.
      pose proof (max_of_ge_start xs x0) as H.
      change (v <= Py.max_of x0 xs). lra.
  - cbn. destruct (Qlt_bool x0 v); apply IH.
Qed.

Lemma min_of_in (xs : list Q) (x0 : Q) : In (Py.min_of x0 xs) (x0 :: xs).
Proof.
  revert x0. induction xs as [|v xs IH]; intro x0; [left; reflexivity|].
  unfold Py.min_of. cbn [fold_left].
  destruct (Qlt_bool v x0).
  - right. apply (IH v).
  - destruct (IH x0) as [H | H]; [left; exact H | right; right; exact H].
Qed.

Lemma max_of_in (xs : list Q) (x0 : Q) : In (Py.max_of x0 xs) (x0 :: xs).
Proof.
  revert x0. induction xs as [|v xs IH]; intro x0; [left; reflexivity|].
  unfold Py.max_of. cbn [fold_left].
  destruct (Qlt_bool x0 v).
  - right. apply (IH v).
  - destruct (IH x0) as [H | H]; [left; exact H | right; right; exact H].
Qed.

End MinMax.

(** ** The stable sort *)

Section Sorting.

Context {A : Type} (leb : A -> A -> bool).

Lemma insert_by_perm (a : A) (l : list A) :
  Permutation (Py.insert_by leb a l) (a :: l).
Proof.
  induction l as [|b l IH]; cbn.
  - apply Permutation_refl.
  - destruct (leb a b).
    + apply Permutation_refl.
    + eapply perm_trans; [apply perm_skip, IH | apply perm_swap].
Qed.

Lemma sort_by_perm (l : list A) : Permutation (Py.sort_by leb l) l.
Proof.
  induction l as [|a l IH]; cbn.
  - apply perm_nil.
  - eapply perm_trans; [apply insert_by_perm | apply perm_skip, IH].
Qed.

End Sorting.

Lemma insert_by_time_sorted (a : TelemetryFrame) (l : list TelemetryFrame) :
  StronglySorted time_le l ->
  StronglySorted time_le (Py.insert_by by_time_leb a l).
Proof.
  induction 1 as [|b l Hs IH Hb]; cbn.
  - repeat constructor.
  - unfold by_time_leb at 1. destruct (Qle_bool (t_rel_sec a) (t_rel_sec b)) eqn:E.
    + apply Qle_bool_iff in E. constructor.
      * constructor; assumption.
      * constructor; [exact E|].
        eapply Forall_impl; [|exact Hb].
        unfold time_le. intros c Hc. lra.
    + apply Qle_bool_false in E. constructor; [exact IH|].
      eapply Permutation_Forall.
      * apply Permutation_sym, insert_by_perm.
      * constructor; [unfold time_le; lra | exact Hb].
Qed.

Lemma sort_by_time_sorted (l : list TelemetryFrame) :
  StronglySorted time_le (sort_by_time l).
Proof.
  unfold sort_by_time.
  induction l as [|a l IH]; cbn.
  - constructor.
  - apply insert_by_time_sorted, IH.
Qed.

Lemma sort_by_time_perm (l : list TelemetryFrame) :
  Permutation (sort_by_time l) l.
Proof. apply sort_by_perm. Qed.

(** Every loaded frame lies between [min_time] and [max_time]; so does every
    frame of the sorted list. *)
Lemma time_range_bounds (frame0 : TelemetryFrame) (others : list TelemetryFrame) :
  Forall (fun f => min_time_of frame0 others <= t_rel_sec f
                   /\ t_rel_sec f <= max_time_of frame0 others)
         (sort_by_time (frame0 :: others)).
Proof.
  eapply Permutation_Forall; [apply Permutation_sym, sort_by_time_perm|].
  unfold min_time_of, max_time_of. constructor.
  - split; [apply min_of_le_start | apply max_of_ge_start].
  - apply Forall_forall. intros f Hf.
    pose proof (min_of_le_all (map t_rel_sec others) (t_rel_sec frame0)) as Hmin.
    pose proof (max_of_ge_all (map t_rel_sec others) (t_rel_sec frame0)) as Hmax.
    rewrite Forall_forall in Hmin, Hmax.
    split; [apply Hmin | apply Hmax]; apply in_map; exact Hf.
Qed.

Lemma min_le_max (frame0 : TelemetryFrame) (others : list TelemetryFrame) :
  min_time_of frame0 others <= max_time_of frame0 others.
Proof.
  pose proof (min_of_le_start (map t_rel_sec others) (t_rel_sec frame0)).
  pose proof (max_of_ge_start (map t_rel_sec others) (t_rel_sec frame0)).
  unfold min_time_of, max_time_of. lra.
Qed.

(** ** The time step *)

Lemma float_of_int_finite (n : Z) (d : Float64.t) :
  Py.float_of_int n = inl d ->
  exists q, d = Float64.Finite q /\ Float64.round (inject_Z n) = Float64.Finite q
            /\ Float64.is_float q.
Proof.
  unfold Py.float_of_int.
  destruct (Float64Facts.round_cases (inject_Z n)) as [(y & Hr & _ & Hy) | [Hr _]];
    rewrite Hr; intro H; inversion H.
  exists y. auto.
Qed.

Lemma is_float_one : Float64.is_float 1.
Proof. apply (Float64Facts.is_float_pow2 0). lia. Qed.

(** [1.0 / fps] for a positive [fps] in the range of the floats is a
    positive float, at most 1. *)
Lemma time_step_positive (fps : Z) (time_step : Float64.t) :
  (0 < fps)%Z ->
  Py.truediv (Float64.Finite 1) fps = inl time_step ->
  exists s, time_step = Float64.Finite s /\ 0 < s /\ s <= 1
            /\ Float64.is_float s.
Proof.
  intros Hfps. unfold Py.truediv.
  destruct (Py.float_of_int fps) as [d|e] eqn:Ed; [|discriminate].
  destruct (float_of_int_finite fps d Ed) as (q & -> & Hr & Hq).
  assert (Hq1 : 1 <= q).
  { pose proof (Float64Facts.round_ge (inject_Z fps) 1 is_float_one) as H.
    rewrite Hr in H. apply Float64Facts.le_Finite, H.
    change 1 with (inject_Z 1). rewrite <- Zle_Qle. lia. }
  unfold Py.float_truediv.
  destruct (Qeq_bool q 0) eqn:E0; [apply Qeq_bool_iff in E0; lra|].
  intro H. inversion H as [Hstep]. clear H.
  assert (Hinv : 0 < 1 / q) by (apply Qlt_shift_div_l; lra).
  assert (Hle : 1 / q <= 1) by (apply Qle_shift_div_r; lra).
  pose proof (Float64Facts.round_le (1 / q) 1 is_float_one Hle) as Hup.
  assert (Hsmall : Float64.is_float (Float64.pow2 (-1024)))
    by (apply Float64Facts.is_float_pow2; lia).
  assert (Hlow : Float64.pow2 (-1024) <= 1 / q).
  { destruct Hq as [_ Hq]. rewrite Qabs_pos in Hq by lra.
    apply Qle_shift_div_l; [lra|].
    apply Qle_trans with (Float64.pow2 (-1024) * Float64.pow2 1024).
    - apply Qmult_le_l; [apply Float64Facts.pow2_pos | lra].
    - rewrite <- Float64Facts.pow2_add. apply Qle_refl. }
  pose proof (Float64Facts.round_ge (1 / q) _ Hsmall Hlow) as Hdown.
  pose proof (Float64Facts.round_valid (1 / q)) as Hvalid.
  destruct (Float64.round (1 / q)) as [s|b|]; [|destruct b; discriminate|contradiction].
  exists s. split; [reflexivity|].
  apply Float64Facts.le_Finite in Hup, Hdown.
  pose proof (Float64Facts.pow2_pos (-1024)).
  repeat split; try lra; apply Hvalid.
Qed.

(** ** The cursor scan *)

(** On any input the scan consumes a prefix of the remaining frames: the
    frames not later than [window_end], up to the first later one; of these
    it keeps the ones not earlier than [current_time]. *)
Lemma scan_window_spec (now window_end : Float64.t) (rest : list TelemetryFrame) :
  forall (idx : nat) (acc : list TelemetryFrame),
  exists n : nat,
    (n <= length rest)%nat /\
    scan_window now window_end rest idx acc
      = ((idx + n)%nat,
         acc ++ filter (fun f => Float64.leb now (Float64.Finite (t_rel_sec f)))
                       (firstn n rest)) /\
    Forall (fun f => Float64.ltb window_end (Float64.Finite (t_rel_sec f)) = false)
           (firstn n rest) /\
    match skipn n rest with
    | [] => True
    | f :: _ => Float64.lt window_end (Float64.Finite (t_rel_sec f))
    end.
Proof.
  induction rest as [|f rest IH]; intros idx acc.
  - exists 0%nat. cbn. rewrite Nat.add_0_r, app_nil_r. auto.
  - cbn [scan_window].
    destruct (Float64.ltb window_end (Float64.Finite (t_rel_sec f))) eqn:E.
    + exists 0%nat. cbn. rewrite Nat.add_0_r, app_nil_r.
      repeat split; auto. lia.
    + destruct (IH (S idx)
                  (if Float64.leb now (Float64.Finite (t_rel_sec f))
                   then acc ++ [f] else acc))
        as (n & Hn & Heq & Hall & Hnext).
      exists (S n). cbn [length firstn skipn filter].
      repeat split.
      * lia.
      * rewrite Heq. f_equal; [lia|].
        destruct (Float64.leb now (Float64.Finite (t_rel_sec f))); [|reflexivity].
        rewrite <- app_assoc. reflexivity.
      * constructor; assumption.
      * exact Hnext.
Qed.

(** The window is never longer than the stretch the cursor moves over. *)
Lemma loop_body_length (l : list TelemetryFrame) (time_step : Float64.t)
    (st : LoopState) :
  (frame_index st <= length l)%nat ->
  let '(window_frames, st') := loop_body l time_step st in
  (frame_index st + length window_frames <= frame_index st')%nat /\
  (frame_index st' <= length l)%nat.
Proof.
  intro Hidx. unfold loop_body.
  destruct (scan_window_spec (current_time st)
              (Float64.add (current_time st) time_step)
              (skipn (frame_index st) l) (frame_index st) [])
    as (n & Hn & Heq & _).
  rewrite Heq. cbn [frame_index app]. rewrite length_skipn in Hn. split; [|lia].
  apply Nat.add_le_mono_l.
  eapply Nat.le_trans; [apply filter_length_le|].
  rewrite length_firstn. lia.
Qed.

Lemma sorted_skipn (n : nat) (l : list TelemetryFrame) :
  StronglySorted time_le l -> StronglySorted time_le (skipn n l).
Proof.
  revert l. induction n as [|n IH]; intros l Hs; [exact Hs|].
  destruct l as [|a l]; [constructor|].
  cbn. apply IH. inversion Hs; assumption.
Qed.

Lemma sorted_above_head (bound : Float64.t) (l : list TelemetryFrame) :
  StronglySorted time_le l ->
  match l with
  | [] => True
  | f :: _ => Float64.lt bound (Float64.Finite (t_rel_sec f))
  end ->
  Forall (fun f => Float64.lt bound (Float64.Finite (t_rel_sec f))) l.
Proof.
  intros Hs Hhd. destruct l as [|f l]; constructor; [exact Hhd|].
  inversion Hs as [|? ? _ Hall]; subst.
  eapply Forall_impl; [|exact Hall].
  unfold time_le. intros c Hc.
  apply (Float64Facts.lt_le_trans _ _ _ Hhd), Float64Facts.le_Finite, Hc.
Qed.

Lemma filter_all_true {A : Type} (p : A -> bool) (l : list A) :
  Forall (fun a => p a = true) l -> filter p l = l.
Proof.
  induction 1 as [|a l Ha _ IH]; cbn; [reflexivity|].
  rewrite Ha, IH. reflexivity.
Qed.

Lemma filter_all_false {A : Type} (p : A -> bool) (l : list A) :
  Forall (fun a => p a = false) l -> filter p l = [].
Proof.
  induction 1 as [|a l Ha _ IH]; cbn; [reflexivity|].
  rewrite Ha, IH. reflexivity.
Qed.

Lemma firstn_plus {A : Type} (i n : nat) (l : list A) :
  firstn (i + n) l = firstn i l ++ firstn n (skipn i l).
Proof.
  revert l. induction i as [|i IH]; intro l; [reflexivity|].
  destruct l as [|a l]; cbn.
  - rewrite firstn_nil. reflexivity.
  - rewrite IH. reflexivity.
Qed.

Lemma skipn_plus {A : Type} (i n : nat) (l : list A) :
  skipn (i + n) l = skipn n (skipn i l).
Proof.
  revert l. induction i as [|i IH]; intro l; [reflexivity|].
  destruct l as [|a l]; cbn.
  - rewrite skipn_nil. reflexivity.
  - apply IH.
Qed.

Lemma Forall_prefix {A : Type} (P : A -> Prop) (n : nat) (l : list A) :
  Forall P l -> Forall P (firstn n l).
Proof.
  intro H. rewrite <- (firstn_skipn n l) in H.
  apply Forall_app in H. apply H.
Qed.

Lemma in_window_iff (k : nat) (now window_end : Float64.t) (f : TelemetryFrame) :
  in_window k now window_end f = true
  <-> ahead k now f
      /\ Float64.le (Float64.Finite (t_rel_sec f)) window_end.
Proof.
  unfold in_window, ahead, Float64.le, Float64.lt. rewrite andb_true_iff.
  destruct k; tauto.
Qed.

Lemma in_window_false (k : nat) (now window_end : Float64.t) (f : TelemetryFrame) :
  ~ (ahead k now f /\ Float64.le (Float64.Finite (t_rel_sec f)) window_end) ->
  in_window k now window_end f = false.
Proof.
  intro H. destruct (in_window k now window_end f) eqn:E; [|reflexivity].
  apply in_window_iff in E. contradiction.
Qed.

(** ** The loop times *)

Section LoopTimes.

Variable min_time : Q.
Variable s : Q.

Let now (k : nat) : Float64.t := time_at min_time (Float64.Finite s) k.

(** From the first addition on, the loop time is a float or an infinity. *)
Lemma time_at_valid (k : nat) : Float64.valid (now (S k)).
Proof.
  subst now. induction k as [|k IH]; cbn [time_at].
  - apply Float64Facts.add_not_nan. discriminate.
  - apply Float64Facts.add_not_nan, Float64Facts.valid_not_nan, IH.
Qed.

Lemma time_at_not_nan (k : nat) : now k <> Float64.NaN.
Proof.
  destruct k as [|k]; [discriminate|].
  apply Float64Facts.valid_not_nan, time_at_valid.
Qed.

(** With a step that is not negative the loop time never decreases after
    the first addition. *)
Lemma time_at_step (k : nat) :
  0 <= s -> Float64.le (now (S k)) (now (S (S k))).
Proof.
  intro Hs. apply Float64Facts.add_nondecreasing; [apply time_at_valid | exact Hs].
Qed.

Lemma time_at_monotone (i j : nat) :
  0 <= s -> (i <= j)%nat -> Float64.le (now (S i)) (now (S j)).
Proof.
  intros Hs Hij. induction Hij as [|j _ IH].
  - apply Float64Facts.le_refl, time_at_not_nan.
  - eapply Float64Facts.le_trans; [exact IH | apply time_at_step, Hs].
Qed.

(** A step that is absorbed by the first addition is absorbed by every
    later one: the loop time stays where it is. *)
Lemma time_at_stuck (k : nat) :
  Float64.le (now 1) (now 0) -> Float64.le (now 0) (now 1) ->
  now (S k) = now 1.
Proof.
  subst now. cbn [time_at Float64.add]. intros Hback Hforth.
  destruct (Float64.round (min_time + s)) as [y|b|] eqn:Er;
    [|destruct b; discriminate|discriminate].
  apply Float64Facts.le_Finite in Hback, Hforth.
  induction k as [|k IH]; cbn [time_at Float64.add]; [exact Er|].
  rewrite IH. cbn [Float64.add]. rewrite <- Er.
  apply Float64Facts.round_compat. lra.
Qed.

End LoopTimes.

Lemma state_time (l : list TelemetryFrame) (min_time : Q)
    (time_step : Float64.t) (k : nat) :
  current_time (state_at l min_time time_step k)
  = time_at min_time time_step k.
Proof.
  induction k as [|k IH]; [reflexivity|].
  cbn [state_at time_at]. unfold loop_body.
  destruct (scan_window _ _ _ _ _) as [idx w]. cbn. rewrite IH. reflexivity.
Qed.

(** ** The outer loop on a sorted list with a step that is not negative *)

Section SortedReplay.

Variable telemetry_frames : list TelemetryFrame.
Variable min_time : Q.
Variable s : Q.

Hypothesis frames_sorted : StronglySorted time_le telemetry_frames.
Hypothesis step_nonnegative : 0 <= s.
Hypothesis min_time_least :
  Forall (fun f => min_time <= t_rel_sec f) telemetry_frames.

Let time_step : Float64.t := Float64.Finite s.
Let now (k : nat) : Float64.t := time_at min_time time_step k.
Let cursor (k : nat) : nat :=
  frame_index (state_at telemetry_frames min_time time_step k).
Let window (k : nat) : list TelemetryFrame :=
  window_at telemetry_frames min_time time_step k.

Let cursor_inv (k : nat) : Prop :=
  cursor_splits telemetry_frames min_time time_step k.

Lemma cursor_inv_start : cursor_inv 0.
Proof.
  subst cursor_inv cursor now. unfold cursor_splits. cbn. repeat split.
  - lia.
  - constructor.
  - eapply Forall_impl; [|exact min_time_least].
    intros f Hf. apply Qle_bool_iff, Hf.
Qed.

(** One iteration: the window is the next [n] frames, none later than the
    window end, and the cursor stops in front of the first later frame. *)
Lemma loop_body_spec (k : nat) :
  cursor_inv k ->
  exists n : nat,
    cursor (S k) = (cursor k + n)%nat /\
    (n <= length (skipn (cursor k) telemetry_frames))%nat /\
    window k = firstn n (skipn (cursor k) telemetry_frames) /\
    Forall (fun f => Float64.le (Float64.Finite (t_rel_sec f)) (now (S k)))
           (firstn n (skipn (cursor k) telemetry_frames)) /\
    Forall (fun f => Float64.lt (now (S k)) (Float64.Finite (t_rel_sec f)))
           (skipn n (skipn (cursor k) telemetry_frames)).
Proof using frames_sorted.
  intros (Hlen & Hpast & Hahead).
  pose proof (state_time telemetry_frames min_time time_step k) as Hnow.
  subst cursor window. cbn [state_at]. unfold window_at, loop_body.
  set (st := state_at telemetry_frames min_time time_step k) in *.
  destruct (scan_window_spec (current_time st)
              (Float64.add (current_time st) time_step)
              (skipn (frame_index st) telemetry_frames) (frame_index st) [])
    as (n & Hn & Heq & Hin & Hnext).
  rewrite Heq. cbn [fst snd frame_index app]. rewrite Hnow in *.
  change (Float64.add (time_at min_time time_step k) time_step)
    with (now (S k)) in *.
  exists n. repeat split; auto.
  - apply filter_all_true.
    assert (Hsub : Forall (ahead k (now k))
                     (firstn n (skipn (frame_index st) telemetry_frames)))
      by (apply Forall_prefix, Hahead).
    eapply Forall_impl; [|exact Hsub].
    intros f Hf. unfold ahead in Hf.
    destruct k; [exact Hf | apply Float64Facts.lt_le, Hf].
  - eapply Forall_impl; [|exact Hin].
    intros f Hf. apply Float64Facts.ltb_false;
      [apply time_at_not_nan | discriminate | exact Hf].
  - apply sorted_above_head; [|exact Hnext].
    apply sorted_skipn, sorted_skipn, frames_sorted.
Qed.

Lemma cursor_inv_step (k : nat) : cursor_inv k -> cursor_inv (S k).
Proof using frames_sorted step_nonnegative.
  intro Hinv. destruct (loop_body_spec k Hinv) as (n & Hc & Hn & _ & Hin & Hout).
  destruct Hinv as (Hlen & Hpast & Hahead).
  fold (cursor k) in Hlen, Hpast, Hahead. fold (now k) in Hpast, Hahead.
  subst cursor_inv. unfold cursor_splits.
  fold (cursor (S k)). fold (now (S k)). rewrite Hc.
  repeat split.
  - rewrite length_skipn in Hn. lia.
  - rewrite firstn_plus. apply Forall_app. split.
    + destruct k as [|k]; [constructor|].
      eapply Forall_impl; [|exact Hpast].
      intros f Hf Hf'. apply Hf. unfold ahead in *.
      eapply Float64Facts.le_lt_trans; [|exact Hf'].
      apply (time_at_step min_time s k step_nonnegative).
    + eapply Forall_impl; [|exact Hin].
      intros f Hf Hf'. exact (Float64Facts.le_not_lt _ _ Hf Hf').
  - rewrite skipn_plus. exact Hout.
Qed.

Lemma cursor_inv_all (k : nat) : cursor_inv k.
Proof using frames_sorted step_nonnegative min_time_least.
  induction k as [|k IH]; [apply cursor_inv_start | apply cursor_inv_step, IH].
Qed.

(** The window of iteration [k], as a set of times. *)
Lemma window_at_filter (k : nat) :
  window k = filter (in_window k (now k) (now (S k))) telemetry_frames.
Proof using frames_sorted step_nonnegative min_time_least.
  pose proof (cursor_inv_all k) as Hinv.
  destruct (loop_body_spec k Hinv) as (n & _ & _ & Hw & Hin & Hout).
  destruct Hinv as (_ & Hpast & Hahead).
  fold (cursor k) in Hpast, Hahead. fold (now k) in Hpast, Hahead.
  rewrite Hw.
  rewrite <- (firstn_skipn (cursor k) telemetry_frames) at 2.
  rewrite <- (firstn_skipn n (skipn (cursor k) telemetry_frames)) at 2.
  rewrite !filter_app.
  rewrite (filter_all_false _ (firstn (cursor k) telemetry_frames)).
  2:{ eapply Forall_impl; [|exact Hpast].
      intros f Hf. apply in_window_false. intros [H _]. exact (Hf H). }
  rewrite (filter_all_false _ (skipn n _)).
  2:{ eapply Forall_impl; [|exact Hout].
      intros f Hf. apply in_window_false. intros [_ H].
      exact (Float64Facts.le_not_lt _ _ H Hf). }
  rewrite app_nil_r. cbn [app]. symmetry. apply filter_all_true.
  assert (Hsub : Forall (ahead k (now k))
                   (firstn n (skipn (cursor k) telemetry_frames)))
    by (apply Forall_prefix, Hahead).
  apply Forall_forall. intros f Hf. rewrite Forall_forall in Hsub, Hin.
  apply in_window_iff. split; [apply Hsub | apply Hin]; exact Hf.
Qed.

(** The windows of the first [n] iterations, in order, are the frames
    the cursor has passed. *)
Lemma windows_concat (n : nat) :
  concat (map window (seq 0 n)) = firstn (cursor n) telemetry_frames.
Proof using frames_sorted step_nonnegative min_time_least.
  induction n as [|n IH]; [reflexivity|].
  rewrite seq_S, map_app, concat_app, IH. cbn [map concat Nat.add].
  rewrite app_nil_r.
  destruct (loop_body_spec n (cursor_inv_all n)) as (m & Hc & _ & Hw & _).
  rewrite Hc, firstn_plus, Hw. reflexivity.
Qed.

Lemma cursor_monotone (k : nat) : (cursor k <= cursor (S k))%nat.
Proof using frames_sorted step_nonnegative min_time_least.
  destruct (loop_body_spec k (cursor_inv_all k)) as (m & Hc & _).
  rewrite Hc. lia.
Qed.

(** Once the time has passed every frame, the cursor is at the end. *)
Lemma windows_cover (max_time : Q) (n : nat) :
  Forall (fun f => t_rel_sec f <= max_time) telemetry_frames ->
  Float64.lt (Float64.Finite max_time) (now (S n)) ->
  concat (map window (seq 0 (S n))) = telemetry_frames.
Proof using frames_sorted step_nonnegative min_time_least.
  intros Hmax Hlate. rewrite windows_concat.
  destruct (cursor_inv_all (S n)) as (_ & _ & Hahead).
  fold (cursor (S n)) in Hahead. fold (now (S n)) in Hahead.
  rewrite <- (firstn_skipn (cursor (S n)) telemetry_frames) at 2.
  destruct (skipn (cursor (S n)) telemetry_frames) as [|f rest] eqn:E.
  - rewrite app_nil_r. reflexivity.
  - exfalso. inversion Hahead as [|? ? Hf _]; subst.
    assert (Hin : In f telemetry_frames).
    { rewrite <- (firstn_skipn (cursor (S n)) telemetry_frames), E.
      apply in_or_app. right. left. reflexivity. }
    rewrite Forall_forall in Hmax. specialize (Hmax f Hin).
    unfold ahead in Hf.
    apply (Float64Facts.le_not_lt (Float64.Finite (t_rel_sec f)) (now (S n))).
    + apply Float64Facts.lt_le.
      eapply Float64Facts.le_lt_trans; [|exact Hlate].
      apply Float64Facts.le_Finite, Hmax.
    + exact Hf.
Qed.

Lemma window_bounds (k : nat) :
  window k <> [] -> Float64.lt (now k) (now (S k)) \/ k = 0%nat.
Proof using frames_sorted step_nonnegative min_time_least.
  intro Hne. destruct k as [|k]; [right; reflexivity | left].
  rewrite window_at_filter in Hne.
  destruct (filter _ telemetry_frames) as [|f rest] eqn:E; [congruence|].
  assert (Hf : In f (filter (in_window (S k) (now (S k)) (now (S (S k))))
                            telemetry_frames))
    by (rewrite E; left; reflexivity).
  apply filter_In in Hf. destruct Hf as [_ Hf].
  apply in_window_iff in Hf. destruct Hf as [Hlow Hup].
  eapply Float64Facts.lt_le_trans; [exact Hlow | exact Hup].
Qed.

(** The times of two windows that are not empty are apart: the earlier
    iteration has the smaller time. *)
Lemma occupied_times_increase (k j : nat) :
  window k <> [] -> window j <> [] -> (k < j)%nat ->
  Float64.lt (now k) (now j).
Proof using frames_sorted step_nonnegative min_time_least.
  intros Hk Hj Hkj.
  destruct j as [|j]; [lia|].
  destruct (window_bounds (S j) Hj) as [Hadv|]; [|discriminate].
  destruct (window_bounds k Hk) as [Hstep | ->].
  - eapply Float64Facts.lt_le_trans; [exact Hstep|].
    destruct k as [|k].
    + apply (time_at_monotone min_time s 0 j step_nonnegative). lia.
    + apply (time_at_monotone min_time s (S k) j step_nonnegative). lia.
  - (* the first window: closed at [min_time] *)
    rewrite window_at_filter in Hk.
    destruct (filter _ telemetry_frames) as [|f rest] eqn:E; [congruence|].
    assert (Hf : In f (filter (in_window 0 (now 0) (now 1)) telemetry_frames))
      by (rewrite E; left; reflexivity).
    apply filter_In in Hf. destruct Hf as [_ Hf].
    apply in_window_iff in Hf. destruct Hf as [Hlow Hup]. unfold ahead in Hlow.
    assert (H01 : Float64.le (now 0) (now 1))
      by (eapply Float64Facts.le_trans; [exact Hlow | exact Hup]).
    assert (H1j : Float64.le (now 1) (now (S j)))
      by (apply (time_at_monotone min_time s 0 j step_nonnegative); lia).
    apply Float64Facts.leb_false;
      [apply time_at_not_nan | discriminate|].
    destruct (Float64.leb (now (S j)) (now 0)) eqn:Eback; [|reflexivity].
    exfalso.
    assert (H10 : Float64.le (now 1) (now 0))
      by (eapply Float64Facts.le_trans; [exact H1j | exact Eback]).
    assert (Hj1 : now (S j) = now 1)
      by apply (time_at_stuck min_time s j H10 H01).
    assert (Hj2 : now (S (S j)) = now 1)
      by apply (time_at_stuck min_time s (S j) H10 H01).
    rewrite Hj1, Hj2 in Hadv.
    apply (Float64Facts.le_not_lt (now 1) (now 1)); [|exact Hadv].
    apply Float64Facts.le_refl, time_at_not_nan.
Qed.

End SortedReplay.
(** ** Running the outer loop *)

Lemma replay_loop_eq (fuel : nat) (l : list TelemetryFrame)
    (max_time : Q) (time_step : Float64.t) (st : LoopState) :
  replay_loop fuel l max_time time_step st =
  if Float64.leb (current_time st) (Float64.Finite max_time) then
    match fuel with
    | O => ([], OutOfFuel)
    | S fuel' =>
        let '(window_frames, st') := loop_body l time_step st in
        let '(evs, out) := replay_loop fuel' l max_time time_step st' in
        (yield_window (current_time st) window_frames
           ++ EvSleep time_step :: evs, out)
    end
  else ([], Returned).
Proof. destruct fuel; reflexivity. Qed.

Lemma loop_body_at (l : list TelemetryFrame) (min_time : Q)
    (time_step : Float64.t) (k : nat) :
  loop_body l time_step (state_at l min_time time_step k)
  = (window_at l min_time time_step k, state_at l min_time time_step (S k)).
Proof.
  unfold window_at. cbn [state_at].
  destruct (loop_body l time_step (state_at l min_time time_step k)).
  reflexivity.
Qed.

Section Iterations.

Variables min_time max_time : Q.
Variable time_step : Float64.t.

Lemma iterations_from_le (fuel k : nat) :
  (iterations_from fuel min_time max_time time_step k <= fuel)%nat.
Proof.
  revert k. induction fuel as [|fuel IH]; intro k; cbn; [lia|].
  destruct (running min_time max_time time_step k); [|lia].
  specialize (IH (S k)). lia.
Qed.

(** The guard holds at every iteration that is made. *)
Lemma iterations_running (fuel k j : nat) :
  (j < iterations_from fuel min_time max_time time_step k)%nat ->
  running min_time max_time time_step (k + j) = true.
Proof.
  revert k j. induction fuel as [|fuel IH]; intros k j; cbn; [lia|].
  destruct (running min_time max_time time_step k) eqn:E; [|lia].
  destruct j as [|j]; intro Hj.
  - rewrite Nat.add_0_r. exact E.
  - replace (k + S j)%nat with (S k + j)%nat by lia. apply IH. lia.
Qed.

(** Fuel that reaches an iteration at which the guard fails is enough to
    see the guard fail. *)
Lemma iterations_stop (fuel k j : nat) :
  (j <= fuel)%nat ->
  running min_time max_time time_step (k + j) = false ->
  running min_time max_time time_step
    (k + iterations_from fuel min_time max_time time_step k) = false.
Proof.
  revert k j. induction fuel as [|fuel IH]; intros k j Hj Hstop; cbn.
  - replace j with 0%nat in Hstop by lia. exact Hstop.
  - destruct (running min_time max_time time_step k) eqn:E.
    + destruct j as [|j]; [rewrite Nat.add_0_r in Hstop; congruence|].
      replace (k + S (iterations_from fuel min_time max_time time_step (S k)))%nat
        with (S k + iterations_from fuel min_time max_time time_step (S k))%nat
        by lia.
      apply (IH (S k) j); [lia|].
      replace (S k + j)%nat with (k + S j)%nat by lia. exact Hstop.
    + rewrite Nat.add_0_r. exact E.
Qed.

(** The loop, started at iteration [k], makes the iterations the fuel and
    the guard allow, with their events in order; it returns when the guard
    fails and is out of fuel otherwise. *)
Lemma replay_loop_events (l : list TelemetryFrame) (fuel k : nat) :
  replay_loop fuel l max_time time_step (state_at l min_time time_step k)
  = (flat_map (events_at l min_time time_step)
       (seq k (iterations_from fuel min_time max_time time_step k)),
     if running min_time max_time time_step
          (k + iterations_from fuel min_time max_time time_step k)
     then OutOfFuel else Returned).
Proof.
  revert k. induction fuel as [|fuel IH]; intro k;
    rewrite replay_loop_eq, state_time; cbn [iterations_from];
    fold (running min_time max_time time_step k).
  - rewrite Nat.add_0_r.
    destruct (running min_time max_time time_step k); reflexivity.
  - destruct (running min_time max_time time_step k) eqn:E.
    + rewrite loop_body_at, IH. cbn [seq flat_map]. unfold events_at at 2.
      rewrite <- app_assoc.
      replace (k + S (iterations_from fuel min_time max_time time_step (S k)))%nat
        with (S k + iterations_from fuel min_time max_time time_step (S k))%nat
        by lia.
      reflexivity.
    + rewrite Nat.add_0_r, E. reflexivity.
Qed.

End Iterations.

(** ** The insertion-ordered dictionary *)

Section Dict.

Context {V : Type}.
Implicit Types (d : Py.dict V) (k : Z) (v : V).

Lemma get_setitem_same d k v : Py.get (Py.setitem d k v) k = Some v.
Proof.
  induction d as [|[k' v'] d IH]; cbn.
  - rewrite Z.eqb_refl. reflexivity.
  - destruct (Z.eqb k' k) eqn:E; cbn; rewrite E; [reflexivity | exact IH].
Qed.

Lemma get_setitem_other d k v k' :
  k' <> k -> Py.get (Py.setitem d k v) k' = Py.get d k'.
Proof.
  intro Hne. induction d as [|[k0 v0] d IH]; cbn.
  - destruct (Z.eqb_spec k k'); [congruence | reflexivity].
  - destruct (Z.eqb_spec k0 k); cbn.
    + subst k0. destruct (Z.eqb_spec k k'); [congruence | reflexivity].
    + destruct (Z.eqb k0 k'); [reflexivity | exact IH].
Qed.

Lemma keys_setitem d k v k' :
  In k' (Py.keys (Py.setitem d k v)) <-> k' = k \/ In k' (Py.keys d).
Proof.
  unfold Py.keys. induction d as [|[k0 v0] d IH]; cbn.
  - intuition congruence.
  - destruct (Z.eqb_spec k0 k); cbn.
    + subst k0. intuition congruence.
    + rewrite IH. tauto.
Qed.

Lemma keys_setitem_nodup d k v :
  NoDup (Py.keys d) -> NoDup (Py.keys (Py.setitem d k v)).
Proof.
  unfold Py.keys. induction d as [|[k0 v0] d IH]; cbn; intro Hnd.
  - constructor; [intros [] | constructor].
  - inversion Hnd as [|? ? Hnotin Hnd']; subst.
    destruct (Z.eqb_spec k0 k); cbn.
    + constructor; assumption.
    + constructor; [|apply IH; exact Hnd'].
      intro Hin. apply (keys_setitem d k v k0) in Hin.
      destruct Hin as [Heq | Hin]; [congruence | exact (Hnotin Hin)].
Qed.

(** A key that is present sits at one position, with its value at the same
    position of the values. *)
Lemma get_position d k v :
  Py.get d k = Some v ->
  exists i : nat,
    nth_error (Py.keys d) i = Some k /\ nth_error (Py.values d) i = Some v.
Proof.
  unfold Py.keys, Py.values.
  induction d as [|[k0 v0] d IH]; cbn; [discriminate|].
  destruct (Z.eqb_spec k0 k); intro H.
  - exists 0%nat. cbn. split; congruence.
  - destruct (IH H) as (i & Hk & Hv). exists (S i). cbn. auto.
Qed.

End Dict.

(** ** Grouping and frame assembly *)

Lemma group_snoc (frames : list TelemetryFrame) (f : TelemetryFrame) :
  group_frames_by_driver (frames ++ [f])
  = Py.setitem (group_frames_by_driver frames) (driver_id f) f.
Proof. unfold group_frames_by_driver. rewrite fold_left_app. reflexivity. Qed.

Lemma group_keys_nodup (frames : list TelemetryFrame) :
  NoDup (Py.keys (group_frames_by_driver frames)).
Proof.
  induction frames as [|f frames IH] using rev_ind.
  - constructor.
  - rewrite group_snoc. apply keys_setitem_nodup, IH.
Qed.

Lemma group_keys (frames : list TelemetryFrame) (k : Z) :
  In k (Py.keys (group_frames_by_driver frames))
  <-> exists g, In g frames /\ driver_id g = k.
Proof.
  induction frames as [|f frames IH] using rev_ind.
  - cbn. split; [intros [] | intros (g & [] & _)].
  - rewrite group_snoc, keys_setitem, IH. split.
    + intros [Hk | (g & Hg & Hd)].
      * exists f. split; [apply in_or_app; right; left; reflexivity | congruence].
      * exists g. split; [apply in_or_app; left; exact Hg | exact Hd].
    + intros (g & Hg & Hd). apply in_app_or in Hg.
      destruct Hg as [Hg | [Hg | []]].
      * right. exists g. auto.
      * left. congruence.
Qed.

(** The value kept for a driver is the driver's last frame of the pass. *)
Lemma group_last (pre post : list TelemetryFrame) (f : TelemetryFrame) :
  (forall g, In g post -> driver_id g <> driver_id f) ->
  Py.get (group_frames_by_driver (pre ++ f :: post)) (driver_id f) = Some f.
Proof.
  induction post as [|g post IH] using rev_ind; intro Hpost.
  - rewrite group_snoc. apply get_setitem_same.
  - change (pre ++ f :: post ++ [g]) with (pre ++ (f :: post) ++ [g]).
    rewrite app_assoc, group_snoc, get_setitem_other.
    + apply IH. intros h Hh. apply Hpost, in_or_app. left. exact Hh.
    + intro Heq. apply (Hpost g); [apply in_or_app; right; left; reflexivity|].
      congruence.
Qed.

Lemma append_cars (d : Py.dict TelemetryFrame) (acc : list CarPositionSchema) :
  fold_left (fun cars item => cars ++ [car_position (snd item)]) d acc
  = acc ++ map car_position (Py.values d).
Proof.
  unfold Py.values. revert acc. induction d as [|item d IH]; intro acc; cbn.
  - rewrite app_nil_r. reflexivity.
  - rewrite IH, <- app_assoc. reflexivity.
Qed.

Lemma build_replay_frame_cars (now : Float64.t) (frames : list TelemetryFrame) :
  cars (build_replay_frame now frames)
  = map car_position (Py.values (group_frames_by_driver frames)).
Proof. unfold build_replay_frame. cbn [cars]. apply append_cars. Qed.

Lemma build_replay_frame_nonempty (now : Float64.t) (frames : list TelemetryFrame) :
  Py.truthy frames = true -> cars (build_replay_frame now frames) <> [].
Proof.
  intros Hne Hnil. destruct frames as [|f frames]; [discriminate|].
  assert (Hkey : In (driver_id f)
                    (Py.keys (group_frames_by_driver (f :: frames)))).
  { apply group_keys. exists f. split; [left|]; reflexivity. }
  rewrite build_replay_frame_cars in Hnil.
  unfold Py.keys, Py.values in *.
  destruct (group_frames_by_driver (f :: frames)); [destruct Hkey | discriminate].
Qed.

(** ** The frames of the iterations *)

Lemma yielded_events (l : list TelemetryFrame) (min_time : Q)
    (time_step : Float64.t) (ks : list nat) :
  yielded (flat_map (events_at l min_time time_step) ks)
  = flat_map (frames_at l min_time time_step) ks.
Proof.
  induction ks as [|k ks IH]; [reflexivity|].
  cbn [flat_map]. unfold yielded in *. rewrite flat_map_app, IH.
  f_equal. unfold events_at, frames_at, yield_window.
  rewrite flat_map_app.
  destruct (Py.truthy (window_at l min_time time_step k)); reflexivity.
Qed.

Lemma frames_at_times (l : list TelemetryFrame) (min_time : Q)
    (time_step : Float64.t) (ks : list nat) :
  map t (flat_map (frames_at l min_time time_step) ks)
  = map (time_at min_time time_step)
        (filter (fun k => Py.truthy (window_at l min_time time_step k)) ks).
Proof.
  induction ks as [|k ks IH]; [reflexivity|].
  cbn [flat_map filter]. rewrite map_app, IH. unfold frames_at.
  destruct (Py.truthy (window_at l min_time time_step k)); reflexivity.
Qed.

Lemma frames_at_nonempty (l : list TelemetryFrame) (min_time : Q)
    (time_step : Float64.t) (ks : list nat) :
  Forall (fun fr => cars fr <> [])
         (flat_map (frames_at l min_time time_step) ks).
Proof.
  induction ks as [|k ks IH]; [constructor|].
  cbn [flat_map]. apply Forall_app. split; [|exact IH].
  unfold frames_at.
  destruct (Py.truthy (window_at l min_time time_step k)) eqn:E;
    constructor; [|constructor].
  apply build_replay_frame_nonempty, E.
Qed.

Lemma truthy_nonempty {A : Type} (l : list A) : Py.truthy l = true <-> l <> [].
Proof. destruct l; cbn; split; congruence. Qed.

(** ** The generator on a loaded, non-empty frame list *)

Section Stream.

Variable frame0 : TelemetryFrame.
Variable others : list TelemetryFrame.
Variable fps : Z.
Variable s : Q.
Hypothesis fps_positive : (0 < fps)%Z.
Hypothesis step_computed :
  Py.truediv (Float64.Finite 1) fps = inl (Float64.Finite s).

Let frames := frame0 :: others.
Let sorted := sort_by_time frames.
Let min_time := min_time_of frame0 others.
Let max_time := max_time_of frame0 others.
Let time_step := Float64.Finite s.

Lemma stream_step : 0 < s.
Proof.
  destruct (time_step_positive fps _ fps_positive step_computed)
    as (s' & Heq & Hs & _).
  inversion Heq. exact Hs.
Qed.

Lemma sorted_min_least :
  Forall (fun f => min_time <= t_rel_sec f) sorted.
Proof.
  eapply Forall_impl; [|apply time_range_bounds]. intros f [H _]. exact H.
Qed.

Lemma sorted_max_greatest :
  Forall (fun f => t_rel_sec f <= max_time) sorted.
Proof.
  eapply Forall_impl; [|apply time_range_bounds]. intros f [_ H]. exact H.
Qed.

(** The generator body makes the iterations the fuel and the guard allow. *)
Lemma stream_frames_run (fuel : nat) :
  stream_frames fuel frames fps
  = (flat_map (events_at sorted min_time time_step)
       (seq 0 (iterations fuel min_time max_time time_step)),
     if running min_time max_time time_step
          (iterations fuel min_time max_time time_step)
     then OutOfFuel else Returned).
Proof.
  unfold stream_frames. subst frames. cbv iota beta.
  rewrite step_computed.
  apply (replay_loop_events min_time max_time time_step sorted fuel 0).
Qed.

Lemma stream_window (k : nat) :
  window_at sorted min_time time_step k
  = filter (in_window k (time_at min_time time_step k)
              (time_at min_time time_step (S k))) sorted.
Proof.
  apply window_at_filter.
  - apply sort_by_time_sorted.
  - apply Qlt_le_weak, stream_step.
  - apply sorted_min_least.
Qed.

Lemma stream_prefix (n : nat) :
  concat (map (window_at sorted min_time time_step) (seq 0 n))
  = firstn (frame_index (state_at sorted min_time time_step n)) sorted.
Proof.
  apply windows_concat.
  - apply sort_by_time_sorted.
  - apply Qlt_le_weak, stream_step.
  - apply sorted_min_least.
Qed.

Lemma stream_cursor_monotone (k : nat) :
  (frame_index (state_at sorted min_time time_step k)
   <= frame_index (state_at sorted min_time time_step (S k)))%nat.
Proof.
  apply cursor_monotone.
  - apply sort_by_time_sorted.
  - apply Qlt_le_weak, stream_step.
  - apply sorted_min_least.
Qed.

(** The first iteration is always made. *)
Lemma stream_starts : running min_time max_time time_step 0 = true.
Proof. apply Qle_bool_iff, min_le_max. Qed.

(** When the guard fails, every frame has been in a window. *)
Lemma stream_partition (n : nat) :
  running min_time max_time time_step n = false ->
  concat (map (window_at sorted min_time time_step) (seq 0 n)) = sorted.
Proof.
  intro Hstop. destruct n as [|n]; [rewrite stream_starts in Hstop; discriminate|].
  apply (windows_cover sorted min_time s
           (sort_by_time_sorted frames)
           (Qlt_le_weak _ _ stream_step)
           sorted_min_least max_time).
  - apply sorted_max_greatest.
  - apply Float64Facts.leb_false;
      [apply time_at_not_nan | discriminate | exact Hstop].
Qed.

Lemma stream_times_increase (ks : list nat) :
  StronglySorted lt ks ->
  StronglySorted Float64.lt
    (map (time_at min_time time_step)
         (filter (fun k => Py.truthy (window_at sorted min_time time_step k)) ks)).
Proof.
  induction 1 as [|k ks Hs IH Hk]; cbn [filter map]; [constructor|].
  destruct (Py.truthy (window_at sorted min_time time_step k)) eqn:E;
    [|exact IH].
  cbn [map]. constructor; [exact IH|].
  apply Forall_forall. intros q Hq. apply in_map_iff in Hq.
  destruct Hq as (j & <- & Hj). apply filter_In in Hj. destruct Hj as [Hj Ej].
  rewrite Forall_forall in Hk.
  apply (occupied_times_increase sorted min_time s
           (sort_by_time_sorted frames)
           (Qlt_le_weak _ _ stream_step)
           sorted_min_least k j).
  - apply truthy_nonempty, E.
  - apply truthy_nonempty, Ej.
  - apply Hk, Hj.
Qed.

End Stream.

Lemma sorted_seq (a n : nat) : StronglySorted lt (seq a n).
Proof.
  revert a. induction n as [|n IH]; intro a; cbn; constructor.
  - apply IH.
  - apply Forall_forall. intros b Hb. apply in_seq in Hb. lia.
Qed.

Lemma sorted_filter {A : Type} (R : A -> A -> Prop) (p : A -> bool) (l : list A) :
  StronglySorted R l -> StronglySorted R (filter p l).
Proof.
  induction 1 as [|a l Hs IH Ha]; cbn; [constructor|].
  destruct (p a); [|exact IH].
  constructor; [exact IH|].
  apply Forall_forall. intros b Hb. apply filter_In in Hb.
  rewrite Forall_forall in Ha. apply Ha, Hb.
Qed.

(** The generator is the store query followed by the streaming of what was
    loaded. *)
Lemma generate_loaded (fuel : nat) (db : F1Queries.Db) (sid fps : Z)
    (driver_ids : option (list Z)) :
  let loaded := F1Queries.get_telemetry_frames db sid driver_ids in
  let run := generate_replay_frames fuel db sid fps driver_ids in
  events run = EvQuery sid driver_ids :: fst (stream_frames fuel loaded fps) /\
  yielded (events run) = yielded (fst (stream_frames fuel loaded fps)) /\
  outcome run = snd (stream_frames fuel loaded fps).
Proof.
  cbv zeta. unfold generate_replay_frames.
  destruct (stream_frames fuel _ fps) as [evs out]. repeat split.
Qed.
(** * The streaming windows *)

(** C1, as the code has it: with a positive frame rate, the window collected
    in iteration [k] over the sorted frames holds exactly the frames whose
    time lies between [current_time] and [window_end], the binary64 sum
    [current_time + time_step] of the loop, both ends included in the first
    iteration and the lower end excluded afterwards (a frame at the lower
    end was taken by the window before), in sorted order; a frame exactly at
    [window_end] belongs to the current window. *)
Theorem window_contents (frame0 : TelemetryFrame)
    (others : list TelemetryFrame) (fps : Z) (time_step : Float64.t)
    (k : nat) :
  (0 < fps)%Z ->
  Py.truediv (Float64.Finite 1) fps = inl time_step ->
  let telemetry_frames := sort_by_time (frame0 :: others) in
  let min_time := min_time_of frame0 others in
  let st := state_at telemetry_frames min_time time_step k in
  let window_end := Float64.add (current_time st) time_step in
  let window_frames := window_at telemetry_frames min_time time_step k in
  current_time st = time_at min_time time_step k /\
  window_frames
    = filter (in_window k (current_time st) window_end) telemetry_frames /\
  (forall f, In f window_frames <->
     In f telemetry_frames /\
     ahead k (current_time st) f /\
     Float64.le (Float64.Finite (t_rel_sec f)) window_end).
Proof.
  intros Hfps Hstep telemetry_frames min_time st window_end window_frames.
  destruct (time_step_positive fps time_step Hfps Hstep) as (s & -> & _).
  assert (Htime : current_time st = time_at min_time (Float64.Finite s) k)
    by apply state_time.
  assert (Hw : window_frames
               = filter (in_window k (current_time st) window_end)
                        telemetry_frames).
  { subst window_end. rewrite Htime.
    apply (stream_window frame0 others fps s Hfps Hstep k). }
  split; [exact Htime|]. split; [exact Hw|].
  intro f. rewrite Hw, filter_In, in_window_iff. tauto.
Qed.

Lemma window_contents_witness :
  (0 < 4)%Z /\
  Py.truediv (Float64.Finite 1) 4 = inl (Float64.Finite (1 # 4)) /\
  forall f,
    In f (window_at (sort_by_time [Examples.boundary_first; Examples.boundary_second])
            (min_time_of Examples.boundary_first [Examples.boundary_second])
            (Float64.Finite (1 # 4)) 0)
    <-> In f (sort_by_time [Examples.boundary_first; Examples.boundary_second]) /\
        ahead 0 (current_time
                   (state_at (sort_by_time [Examples.boundary_first; Examples.boundary_second])
                      (min_time_of Examples.boundary_first [Examples.boundary_second])
                      (Float64.Finite (1 # 4)) 0)) f /\
        Float64.le (Float64.Finite (t_rel_sec f))
          (Float64.add
             (current_time
                (state_at (sort_by_time [Examples.boundary_first; Examples.boundary_second])
                   (min_time_of Examples.boundary_first [Examples.boundary_second])
                   (Float64.Finite (1 # 4)) 0))
             (Float64.Finite (1 # 4))).
Proof.
  split; [lia|]. split; [vm_compute; reflexivity|].
  apply (window_contents Examples.boundary_first [Examples.boundary_second]
           4 (Float64.Finite (1 # 4)) 0); [lia | vm_compute; reflexivity].
Defined.

(** C1, refuted as stated: at 4 frames per second, with samples at times 0
    and 0.25, the step is 0.25 and the first window holds both samples
    although the second lies exactly at [current_time + time_step], outside
    the half-open interval. *)
Lemma window_includes_upper_bound :
  let telemetry_frames :=
    sort_by_time [Examples.boundary_first; Examples.boundary_second] in
  let min_time := min_time_of Examples.boundary_first [Examples.boundary_second] in
  let time_step := Float64.Finite (1 # 4) in
  let window_end := Float64.add (time_at min_time time_step 0) time_step in
  Py.truediv (Float64.Finite 1) 4 = inl time_step /\
  F1Queries.get_telemetry_frames Examples.boundary_db 1 None
    = [Examples.boundary_first; Examples.boundary_second] /\
  window_at telemetry_frames min_time time_step 0
    = [Examples.boundary_first; Examples.boundary_second] /\
  Float64.Finite (t_rel_sec Examples.boundary_second) = window_end /\
  ~ (forall f,
       In f (window_at telemetry_frames min_time time_step 0) <->
       In f telemetry_frames /\
       in_half_open (time_at min_time time_step 0) window_end f).
Proof.
  cbv zeta. split; [vm_compute; reflexivity|].
  split; [vm_compute; reflexivity|].
  split; [vm_compute; reflexivity|]. split; [vm_compute; reflexivity|].
  intro H. specialize (H Examples.boundary_second). destruct H as [H _].
  assert (Hin : In Examples.boundary_second
                  (window_at
                     (sort_by_time [Examples.boundary_first; Examples.boundary_second])
                     (min_time_of Examples.boundary_first [Examples.boundary_second])
                     (Float64.Finite (1 # 4)) 0)).
  { vm_compute. right. left. reflexivity. }
  destruct (H Hin) as (_ & _ & Hlt). vm_compute in Hlt. discriminate.
Qed.

(** * Emitted frames *)

(** The frames the generator yields within [fuel] iterations, and how it
    ends. *)
Lemma generate_yielded (fuel : nat) (db : F1Queries.Db) (sid fps : Z)
    (driver_ids : option (list Z)) (frame0 : TelemetryFrame)
    (others : list TelemetryFrame) (s : Q) :
  (0 < fps)%Z ->
  Py.truediv (Float64.Finite 1) fps = inl (Float64.Finite s) ->
  F1Queries.get_telemetry_frames db sid driver_ids = frame0 :: others ->
  let telemetry_frames := sort_by_time (frame0 :: others) in
  let min_time := min_time_of frame0 others in
  let max_time := max_time_of frame0 others in
  let time_step := Float64.Finite s in
  let n := iterations fuel min_time max_time time_step in
  let run := generate_replay_frames fuel db sid fps driver_ids in
  events run
  = EvQuery sid driver_ids
      :: flat_map (events_at telemetry_frames min_time time_step) (seq 0 n) /\
  outcome run
  = (if running min_time max_time time_step n then OutOfFuel else Returned) /\
  yielded (events run)
  = flat_map (frames_at telemetry_frames min_time time_step) (seq 0 n).
Proof.
  intros Hfps Hstep Hload. cbv zeta.
  destruct (generate_loaded fuel db sid fps driver_ids) as (He & Hy & Hout).
  rewrite Hy, He, Hout, Hload.
  rewrite (stream_frames_run frame0 others fps s Hstep fuel). cbn [fst snd].
  split; [reflexivity|]. split; [reflexivity|]. apply yielded_events.
Qed.

(** C4, as the code has it: with at least one sample and a positive frame
    rate, the loop times are [min_time] and the binary64 sums obtained by
    adding [time_step] again and again (not the products
    [min_time + k * time_step]); the timestamps of the frames yielded are
    strictly increasing and are exactly the loop times of the iterations
    made whose window, in the sense of the code (closed at the window end;
    closed at [current_time] in the first iteration and open there
    afterwards), holds at least one sample; every yielded frame has a
    car.  The generator returns when a loop time is beyond [max_time]. *)
Theorem emitted_timestamps (db : F1Queries.Db) (sid fps : Z)
    (driver_ids : option (list Z)) (frame0 : TelemetryFrame)
    (others : list TelemetryFrame) (time_step : Float64.t) (fuel : nat) :
  (0 < fps)%Z ->
  Py.truediv (Float64.Finite 1) fps = inl time_step ->
  F1Queries.get_telemetry_frames db sid driver_ids = frame0 :: others ->
  let telemetry_frames := sort_by_time (frame0 :: others) in
  let min_time := min_time_of frame0 others in
  let max_time := max_time_of frame0 others in
  let grid := time_at min_time time_step in
  let n := iterations fuel min_time max_time time_step in
  let occupied (k : nat) :=
    Py.truthy (filter (in_window k (grid k) (grid (S k))) telemetry_frames) in
  let run := generate_replay_frames fuel db sid fps driver_ids in
  grid 0%nat = Float64.Finite min_time /\
  (forall k, grid (S k) = Float64.add (grid k) time_step) /\
  (forall k, (k < n)%nat -> Float64.le (grid k) (Float64.Finite max_time)) /\
  outcome run
  = (if Float64.leb (grid n) (Float64.Finite max_time)
     then OutOfFuel else Returned) /\
  map t (yielded (events run)) = map grid (filter occupied (seq 0 n)) /\
  StronglySorted Float64.lt (map t (yielded (events run))) /\
  Forall (fun fr => cars fr <> []) (yielded (events run)).
Proof.
  intros Hfps Hstep Hload.
  destruct (time_step_positive fps time_step Hfps Hstep) as (s & -> & _).
  cbv zeta. split; [reflexivity|]. split; [reflexivity|].
  split.
  { intros k Hk. apply (iterations_running _ _ _ fuel 0 k Hk). }
  destruct (generate_yielded fuel db sid fps driver_ids frame0 others s
              Hfps Hstep Hload) as (_ & Hout & Hy).
  cbv zeta in Hout, Hy. split; [exact Hout|].
  rewrite Hy, frames_at_times.
  rewrite (filter_ext _
             (fun k => Py.truthy
                (filter (in_window k
                           (time_at (min_time_of frame0 others) (Float64.Finite s) k)
                           (time_at (min_time_of frame0 others) (Float64.Finite s) (S k)))
                        (sort_by_time (frame0 :: others))))).
  2:{ intro k. rewrite (stream_window frame0 others fps s Hfps Hstep k).
      reflexivity. }
  split; [reflexivity|]. split.
  - rewrite <- (filter_ext
                  (fun k => Py.truthy
                     (window_at (sort_by_time (frame0 :: others))
                        (min_time_of frame0 others) (Float64.Finite s) k))).
    + apply (stream_times_increase frame0 others fps s Hfps Hstep), sorted_seq.
    + intro k. rewrite (stream_window frame0 others fps s Hfps Hstep k).
      reflexivity.
  - apply frames_at_nonempty.
Qed.

Lemma emitted_timestamps_witness :
  (0 < 10)%Z /\
  Py.truediv (Float64.Finite 1) 10 = inl (Float64.Finite (Float64.literal (1 # 10))) /\
  F1Queries.get_telemetry_frames Examples.two_step_db 1 None
  = [Examples.sample 8 Examples.VER 0 (1 # 10) (1 # 10);
     Examples.sample 9 Examples.VER (15 # 100) (2 # 10) (2 # 10)] /\
  map t (yielded (events (generate_replay_frames 2 Examples.two_step_db 1 10 None)))
  = [Float64.Finite 0; Float64.Finite (Float64.literal (1 # 10))].
Proof.
  split; [lia|]. split; [vm_compute; reflexivity|]. split; [reflexivity|].
  pose proof (emitted_timestamps Examples.two_step_db 1 10 None
                (Examples.sample 8 Examples.VER 0 (1 # 10) (1 # 10))
                [Examples.sample 9 Examples.VER (15 # 100) (2 # 10) (2 # 10)]
                (Float64.Finite (Float64.literal (1 # 10))) 2
                ltac:(lia) ltac:(vm_compute; reflexivity) eq_refl) as H.
  cbv zeta in H. destruct H as (_ & _ & _ & _ & Ht & _).
  rewrite Ht. vm_compute. reflexivity.
Defined.

(** C4, refuted as stated: at 4 frames per second, with samples at times 0
    and 0.25, the grid point 0.25 is not after [max_time] and its half-open
    window holds the second sample, yet the only frame yielded is the one
    at time 0. *)
Lemma occupied_grid_point_not_emitted :
  let frames := F1Queries.get_telemetry_frames Examples.boundary_db 1 None in
  let min_time := min_time_of Examples.boundary_first [Examples.boundary_second] in
  let max_time := max_time_of Examples.boundary_first [Examples.boundary_second] in
  let time_step := Float64.Finite (1 # 4) in
  let grid := time_at min_time time_step in
  let run := generate_replay_frames 2 Examples.boundary_db 1 4 None in
  Py.truediv (Float64.Finite 1) 4 = inl time_step /\
  frames = [Examples.boundary_first; Examples.boundary_second] /\
  outcome run = Returned /\
  grid 1%nat = Float64.Finite (1 # 4) /\
  Float64.le (grid 1%nat) (Float64.Finite max_time) /\
  In Examples.boundary_second frames /\
  in_half_open (grid 1%nat) (grid 2%nat) Examples.boundary_second /\
  map t (yielded (events run)) = [Float64.Finite 0] /\
  ~ (exists fr, In fr (yielded (events run)) /\ t fr = grid 1%nat).
Proof.
  cbv zeta. split; [vm_compute; reflexivity|].
  split; [vm_compute; reflexivity|].
  split; [vm_compute; reflexivity|].
  split; [vm_compute; reflexivity|].
  split; [vm_compute; reflexivity|].
  split; [right; left; reflexivity|].
  split; [split; vm_compute; reflexivity|].
  split; [vm_compute; reflexivity|].
  intros (fr & Hin & Ht). vm_compute in Hin.
  destruct Hin as [<- | []]. vm_compute in Ht. discriminate.
Qed.
(** C5, as the code has it: with a positive frame rate no sample is in two
    windows.  The windows of the iterations made, put one after the other,
    are the sorted samples up to the cursor: the cursor never moves back and
    passes over no sample without putting it into the window, and the frames
    yielded are assembled from these windows, the empty ones left out.  When
    the generator returns, the cursor has reached the end: every loaded
    sample has been in exactly one window. *)
Theorem each_sample_in_one_window (db : F1Queries.Db) (sid fps : Z)
    (driver_ids : option (list Z)) (frame0 : TelemetryFrame)
    (others : list TelemetryFrame) (time_step : Float64.t) (fuel : nat) :
  (0 < fps)%Z ->
  Py.truediv (Float64.Finite 1) fps = inl time_step ->
  F1Queries.get_telemetry_frames db sid driver_ids = frame0 :: others ->
  let frames := frame0 :: others in
  let telemetry_frames := sort_by_time frames in
  let min_time := min_time_of frame0 others in
  let max_time := max_time_of frame0 others in
  let n := iterations fuel min_time max_time time_step in
  let cursor (k : nat) :=
    frame_index (state_at telemetry_frames min_time time_step k) in
  let windows := map (window_at telemetry_frames min_time time_step) (seq 0 n) in
  let run := generate_replay_frames fuel db sid fps driver_ids in
  concat windows = firstn (cursor n) telemetry_frames /\
  (forall k, (cursor k <= cursor (S k))%nat) /\
  yielded (events run)
  = flat_map (fun k =>
                let window_frames :=
                  window_at telemetry_frames min_time time_step k in
                if Py.truthy window_frames
                then [build_replay_frame (time_at min_time time_step k)
                        window_frames]
                else [])
             (seq 0 n) /\
  (outcome run = Returned ->
   concat windows = telemetry_frames /\ Permutation (concat windows) frames).
Proof.
  intros Hfps Hstep Hload.
  destruct (time_step_positive fps time_step Hfps Hstep) as (s & -> & _).
  cbv zeta.
  split; [apply (stream_prefix frame0 others fps s Hfps Hstep)|].
  split; [apply (stream_cursor_monotone frame0 others fps s Hfps Hstep)|].
  destruct (generate_yielded fuel db sid fps driver_ids frame0 others s
              Hfps Hstep Hload) as (_ & Hout & Hy).
  cbv zeta in Hout, Hy. split; [exact Hy|].
  rewrite Hout.
  destruct (running _ _ _ _) eqn:Erun; [discriminate|]. intros _.
  pose proof (stream_partition frame0 others fps s Hfps Hstep _ Erun) as Hpart.
  split; [exact Hpart|]. rewrite Hpart. apply sort_by_time_perm.
Qed.

Lemma each_sample_in_one_window_witness :
  (0 < 10)%Z /\
  Py.truediv (Float64.Finite 1) 10
  = inl (Float64.Finite (Float64.literal (1 # 10))) /\
  F1Queries.get_telemetry_frames Examples.boundary_db 1 None
  = [Examples.boundary_first; Examples.boundary_second] /\
  outcome (generate_replay_frames 3 Examples.boundary_db 1 10 None) = Returned /\
  concat (map (window_at (sort_by_time [Examples.boundary_first; Examples.boundary_second])
                 (min_time_of Examples.boundary_first [Examples.boundary_second])
                 (Float64.Finite (Float64.literal (1 # 10))))
              (seq 0 (iterations 3
                        (min_time_of Examples.boundary_first [Examples.boundary_second])
                        (max_time_of Examples.boundary_first [Examples.boundary_second])
                        (Float64.Finite (Float64.literal (1 # 10))))))
  = sort_by_time [Examples.boundary_first; Examples.boundary_second].
Proof.
  split; [lia|]. split; [vm_compute; reflexivity|]. split; [reflexivity|].
  assert (Hret : outcome (generate_replay_frames 3 Examples.boundary_db 1 10 None)
                 = Returned) by (vm_compute; reflexivity).
  split; [exact Hret|].
  destruct (each_sample_in_one_window Examples.boundary_db 1 10 None
              Examples.boundary_first [Examples.boundary_second]
              (Float64.Finite (Float64.literal (1 # 10))) 3
              ltac:(lia) ltac:(vm_compute; reflexivity) eq_refl)
    as (_ & _ & _ & H).
  apply (H Hret).
Defined.

(** ** A time step absorbed by the rounding *)

(** At times of the order of 1e16 seconds the step of a tenth of a second
    is absorbed by the addition: after the first iteration the loop state
    does not change any more. *)
Lemma far_replay_stuck (k : nat) :
  state_at (sort_by_time [Examples.far_first; Examples.far_second])
    (min_time_of Examples.far_first [Examples.far_second])
    (Float64.Finite (Float64.literal (1 # 10))) (S k)
  = {| current_time := Float64.Finite (t_rel_sec Examples.far_first);
       frame_index := 1 |}.
Proof.
  induction k as [|k IH]; [vm_compute; reflexivity|].
  cbn [state_at] in *. rewrite IH. vm_compute. reflexivity.
Qed.

Lemma far_replay_running (k : nat) :
  running (min_time_of Examples.far_first [Examples.far_second])
    (max_time_of Examples.far_first [Examples.far_second])
    (Float64.Finite (Float64.literal (1 # 10))) k = true.
Proof.
  unfold running.
  rewrite <- (state_time (sort_by_time [Examples.far_first; Examples.far_second])).
  destruct k as [|k]; [vm_compute; reflexivity|].
  rewrite far_replay_stuck. vm_compute. reflexivity.
Qed.

Lemma far_replay_windows (k : nat) :
  window_at (sort_by_time [Examples.far_first; Examples.far_second])
    (min_time_of Examples.far_first [Examples.far_second])
    (Float64.Finite (Float64.literal (1 # 10))) k
  = match k with O => [Examples.far_first] | S _ => [] end.
Proof.
  destruct k as [|k]; [vm_compute; reflexivity|].
  unfold window_at. rewrite far_replay_stuck. vm_compute. reflexivity.
Qed.

(** C5, refuted as stated: at 10 frames per second, with samples at 1e16
    and 1e16 + 2 seconds, both binary64 numbers, [current_time + time_step]
    is [current_time] again.  Every iteration is made at the time of the
    first sample; the second sample, whose time lies within
    [[min_time, max_time]], is in no window of any iteration, and the cursor
    never passes it either. *)
Lemma far_sample_in_no_window :
  let telemetry_frames :=
    sort_by_time [Examples.far_first; Examples.far_second] in
  let min_time := min_time_of Examples.far_first [Examples.far_second] in
  let max_time := max_time_of Examples.far_first [Examples.far_second] in
  let time_step := Float64.Finite (Float64.literal (1 # 10)) in
  Py.truediv (Float64.Finite 1) 10 = inl time_step /\
  F1Queries.get_telemetry_frames Examples.far_db 1 None
  = [Examples.far_first; Examples.far_second] /\
  Float64.round (t_rel_sec Examples.far_first)
  = Float64.Finite (t_rel_sec Examples.far_first) /\
  Float64.round (t_rel_sec Examples.far_second)
  = Float64.Finite (t_rel_sec Examples.far_second) /\
  Float64.add (Float64.Finite min_time) time_step = Float64.Finite min_time /\
  min_time <= t_rel_sec Examples.far_second <= max_time /\
  nth_error telemetry_frames 1 = Some Examples.far_second /\
  forall k,
    running min_time max_time time_step k = true /\
    ~ In Examples.far_second (window_at telemetry_frames min_time time_step k) /\
    (frame_index (state_at telemetry_frames min_time time_step k) <= 1)%nat.
Proof.
  cbv zeta. split; [vm_compute; reflexivity|].
  split; [vm_compute; reflexivity|].
  split; [vm_compute; reflexivity|]. split; [vm_compute; reflexivity|].
  split; [vm_compute; reflexivity|].
  split; [split; vm_compute; discriminate|].
  split; [vm_compute; reflexivity|].
  intro k. split; [apply far_replay_running|]. split.
  - rewrite far_replay_windows. destruct k as [|k]; [|intros []].
    intros [H | []]. vm_compute in H. discriminate.
  - destruct k as [|k]; [cbn; lia|]. rewrite far_replay_stuck. cbn. lia.
Qed.

(** * Termination *)

Lemma running_prefix (min_time max_time : Q) (time_step : Float64.t) (n : nat) :
  (forall j, (j < n)%nat -> running min_time max_time time_step j = true)
  \/ (exists m, (m < n)%nat /\ running min_time max_time time_step m = false).
Proof.
  induction n as [|n [IH | (m & Hm & Hstop)]].
  - left. intros j Hj. lia.
  - destruct (running min_time max_time time_step n) eqn:E.
    + left. intros j Hj. destruct (Nat.eq_dec j n) as [->|]; [exact E|].
      apply IH. lia.
    + right. exists n. split; [lia | exact E].
  - right. exists m. split; [lia | exact Hstop].
Qed.

Section Progress.

Variables min_time max_time s : Q.
Variable b : Z.

Hypothesis exponent_range : (-1021 <= b <= 1023)%Z.
Hypothesis lower : - Float64.pow2 b < min_time.
Hypothesis upper : max_time + s < Float64.pow2 b.
Hypothesis resolution : Float64.pow2 (b - 53) <= s.

Let time_step : Float64.t := Float64.Finite s.
Let now (k : nat) : Float64.t := time_at min_time time_step k.

Lemma resolved_step_positive : 0 < s.
Proof. pose proof (Float64Facts.pow2_pos (b - 53)). lra. Qed.

(** While the guard holds, every iteration moves the time on by half a
    step at least. *)
Lemma time_at_progress (k : nat) :
  (forall j, (j < k)%nat -> running min_time max_time time_step j = true) ->
  Float64.le
    (Float64.Finite (min_time + inject_Z (Z.of_nat k) * ((1 # 2) * s)))
    (now k).
Proof.
  pose proof resolved_step_positive as Hs.
  induction k as [|k IH]; intro Hrun.
  - change (now 0%nat) with (Float64.Finite min_time).
    apply Float64Facts.le_Finite.
    change (inject_Z (Z.of_nat 0)) with 0. lra.
  - assert (Hk : running min_time max_time time_step k = true)
      by (apply Hrun; lia).
    specialize (IH ltac:(intros j Hj; apply Hrun; lia)).
    unfold running in Hk. fold (now k) in Hk.
    change (now (S k)) with (Float64.add (now k) (Float64.Finite s)).
    destruct (now k) as [c|neg|] eqn:Ec;
      [|destruct neg; discriminate|discriminate].
    apply Float64Facts.le_Finite in IH, Hk.
    assert (Hk0 : 0 <= inject_Z (Z.of_nat k))
      by (change 0 with (inject_Z 0); rewrite <- Zle_Qle; lia).
    assert (Hprod : 0 <= inject_Z (Z.of_nat k) * ((1 # 2) * s))
      by (apply Qmult_le_0_compat; lra).
    eapply Float64Facts.le_trans;
      [|apply (Float64Facts.add_progress c s b exponent_range);
        [apply Qabs_Qlt_condition; lra | exact resolution]].
    apply Float64Facts.le_Finite.
    rewrite Nat2Z.inj_succ. unfold Z.succ. rewrite inject_Z_plus.
    change (inject_Z 1) with 1. lra.
Qed.

(** The guard fails within any number of iterations whose half steps
    exceed the span of the samples. *)
Lemma guard_fails_within (n : nat) :
  max_time - min_time < inject_Z (Z.of_nat n) * ((1 # 2) * s) ->
  exists m, (m <= n)%nat /\ running min_time max_time time_step m = false.
Proof.
  intro Hn.
  destruct (running_prefix min_time max_time time_step (S n))
    as [Hall | (m & Hm & Hstop)].
  - exfalso.
    pose proof (time_at_progress n ltac:(intros j Hj; apply Hall; lia)) as Hp.
    specialize (Hall n ltac:(lia)). unfold running in Hall. fold (now n) in Hall.
    pose proof (Float64Facts.le_trans _ _ _ Hp Hall) as H.
    apply Float64Facts.le_Finite in H. lra.
  - exists m. split; [lia | exact Hstop].
Qed.

Lemma span_iterations :
  min_time <= max_time ->
  max_time - min_time
  < inject_Z (Z.of_nat (S (Z.to_nat (Qfloor (2 * (max_time - min_time) / s)))))
    * ((1 # 2) * s).
Proof.
  intro Hrange. pose proof resolved_step_positive as Hs.
  set (q := 2 * (max_time - min_time) / s).
  assert (Hq : 0 <= q).
  { unfold q. apply Qle_shift_div_l; [exact Hs | lra]. }
  assert (Hfloor : (0 <= Qfloor q)%Z).
  { rewrite <- (Qfloor_Z 0). apply Qfloor_resp_le. exact Hq. }
  rewrite Nat2Z.inj_succ, Z2Nat.id by exact Hfloor.
  pose proof (Qlt_floor q) as Hlt.
  assert (Heq : max_time - min_time == q * ((1 # 2) * s))
    by (unfold q; field; lra).
  rewrite Heq at 1. apply Qmult_lt_r; [lra | exact Hlt].
Qed.

End Progress.

(** C10, as the code has it: for a non-empty loaded sample list and a
    positive frame rate, [current_time] never decreases, but it need not
    grow: the binary64 addition may absorb the step.  Where the times are
    small against the resolution of the floats (all of them, and the last
    window end, below [2 ** b] in magnitude, with a step of at least
    [2 ** (b - 53)]), [current_time] passes [max_time] within
    [2 * (max_time - min_time) / time_step + 1] iterations, and the
    generator returns with any fuel of at least that many. *)
Theorem streaming_loop_terminates (db : F1Queries.Db) (sid fps : Z)
    (driver_ids : option (list Z)) (frame0 : TelemetryFrame)
    (others : list TelemetryFrame) (s : Q) (b : Z) :
  (0 < fps)%Z ->
  Py.truediv (Float64.Finite 1) fps = inl (Float64.Finite s) ->
  F1Queries.get_telemetry_frames db sid driver_ids = frame0 :: others ->
  let telemetry_frames := sort_by_time (frame0 :: others) in
  let min_time := min_time_of frame0 others in
  let max_time := max_time_of frame0 others in
  let time_step := Float64.Finite s in
  (-1021 <= b <= 1023)%Z ->
  - Float64.pow2 b < min_time ->
  max_time + s < Float64.pow2 b ->
  Float64.pow2 (b - 53) <= s ->
  0 < s /\
  (forall k,
     current_time (state_at telemetry_frames min_time time_step (S k))
     = Float64.add
         (current_time (state_at telemetry_frames min_time time_step k))
         time_step) /\
  (forall k,
     Float64.le
       (current_time (state_at telemetry_frames min_time time_step (S k)))
       (current_time (state_at telemetry_frames min_time time_step (S (S k))))) /\
  exists n : nat,
    (n <= S (Z.to_nat (Qfloor (2 * (max_time - min_time) / s))))%nat /\
    Float64.lt (Float64.Finite max_time)
      (current_time (state_at telemetry_frames min_time time_step n)) /\
    forall fuel, (n <= fuel)%nat ->
      outcome (generate_replay_frames fuel db sid fps driver_ids) = Returned.
Proof.
  intros Hfps Hstep Hload. cbv zeta. intros Hb Hlow Hup Hres.
  pose proof (resolved_step_positive s b Hres) as Hs.
  split; [exact Hs|].
  split; [intro k; rewrite !state_time; reflexivity|].
  split.
  { intro k. rewrite !state_time. apply time_at_step. lra. }
  destruct (guard_fails_within (min_time_of frame0 others)
              (max_time_of frame0 others) s b Hb Hlow Hup Hres _
              (span_iterations _ _ s b Hres (min_le_max frame0 others)))
    as (n & Hn & Hstop).
  exists n. split; [exact Hn|]. split.
  - rewrite state_time. apply Float64Facts.leb_false;
      [apply time_at_not_nan | discriminate | exact Hstop].
  - intros fuel Hfuel.
    destruct (generate_yielded fuel db sid fps driver_ids frame0 others s
                Hfps Hstep Hload) as (_ & Hout & _).
    cbv zeta in Hout. rewrite Hout. unfold iterations.
    pose proof (iterations_stop _ _ _ fuel 0 n Hfuel Hstop) as Hend.
    cbn [Nat.add] in Hend. rewrite Hend. reflexivity.
Qed.

Lemma streaming_loop_terminates_witness :
  (0 < 10)%Z /\
  Py.truediv (Float64.Finite 1) 10
  = inl (Float64.Finite (Float64.literal (1 # 10))) /\
  F1Queries.get_telemetry_frames Examples.boundary_db 1 None
  = [Examples.boundary_first; Examples.boundary_second] /\
  (-1021 <= 1 <= 1023)%Z /\
  - Float64.pow2 1
  < min_time_of Examples.boundary_first [Examples.boundary_second] /\
  max_time_of Examples.boundary_first [Examples.boundary_second]
  + Float64.literal (1 # 10) < Float64.pow2 1 /\
  Float64.pow2 (1 - 53) <= Float64.literal (1 # 10) /\
  exists n : nat,
    (n <= 5)%nat /\
    forall fuel, (n <= fuel)%nat ->
      outcome (generate_replay_frames fuel Examples.boundary_db 1 10 None)
      = Returned.
Proof.
  split; [lia|]. split; [vm_compute; reflexivity|]. split; [reflexivity|].
  split; [lia|]. split; [vm_compute; reflexivity|].
  split; [vm_compute; reflexivity|]. split; [vm_compute; discriminate|].
  destruct (streaming_loop_terminates Examples.boundary_db 1 10 None
              Examples.boundary_first [Examples.boundary_second]
              (Float64.literal (1 # 10)) 1
              ltac:(lia) ltac:(vm_compute; reflexivity) eq_refl
              ltac:(lia) ltac:(vm_compute; reflexivity)
              ltac:(vm_compute; reflexivity) ltac:(vm_compute; discriminate))
    as (_ & _ & _ & n & Hn & _ & Hret).
  exists n. split; [|exact Hret].
  eapply Nat.le_trans; [exact Hn|]. vm_compute. lia.
Defined.

(** C10, refuted as stated: at 10 frames per second, with samples at 1e16
    and 1e16 + 2 seconds, the step is positive but [current_time] stays at
    1e16, never beyond [max_time]: the generator does not return within any
    number of iterations. *)
Lemma absorbed_step_never_returns :
  (0 < 10)%Z /\
  F1Queries.get_telemetry_frames Examples.far_db 1 None
  = [Examples.far_first; Examples.far_second] /\
  Py.truediv (Float64.Finite 1) 10
  = inl (Float64.Finite (Float64.literal (1 # 10))) /\
  0 < Float64.literal (1 # 10) /\
  (forall k,
     current_time
       (state_at (sort_by_time [Examples.far_first; Examples.far_second])
          (min_time_of Examples.far_first [Examples.far_second])
          (Float64.Finite (Float64.literal (1 # 10))) k)
     = Float64.Finite (t_rel_sec Examples.far_first)) /\
  forall fuel,
    outcome (generate_replay_frames fuel Examples.far_db 1 10 None)
    = OutOfFuel.
Proof.
  split; [lia|]. split; [vm_compute; reflexivity|].
  split; [vm_compute; reflexivity|]. split; [vm_compute; reflexivity|].
  split.
  { intros [|k]; [vm_compute; reflexivity|]. rewrite far_replay_stuck.
    reflexivity. }
  intro fuel.
  destruct (generate_yielded fuel Examples.far_db 1 10 None
              Examples.far_first [Examples.far_second]
              (Float64.literal (1 # 10))
              ltac:(lia) ltac:(vm_compute; reflexivity)
              ltac:(vm_compute; reflexivity)) as (_ & Hout & _).
  cbv zeta in Hout. rewrite Hout, far_replay_running. reflexivity.
Qed.
(** * Non-positive frame rates *)

Lemma replay_loop_no_query (l : list TelemetryFrame) (max_time : Q)
    (time_step : Float64.t) (fuel : nat) :
  forall st : LoopState,
    queries (fst (replay_loop fuel l max_time time_step st)) = [].
Proof.
  induction fuel as [|fuel IH]; intro st; rewrite replay_loop_eq;
    destruct (Float64.leb (current_time st) (Float64.Finite max_time));
    try reflexivity.
  destruct (loop_body l time_step st) as [w st']. specialize (IH st').
  destruct (replay_loop fuel l max_time time_step st') as [evs out].
  cbn [fst] in *. unfold queries in *. rewrite flat_map_app.
  cbn [flat_map app]. rewrite IH. unfold yield_window.
  destruct (Py.truthy w); reflexivity.
Qed.

Lemma stream_no_query (fuel : nat) (loaded : list TelemetryFrame) (fps : Z) :
  queries (fst (stream_frames fuel loaded fps)) = [].
Proof.
  unfold stream_frames. destruct loaded as [|frame0 others]; [reflexivity|].
  destruct (Py.truediv (Float64.Finite 1) fps); [|reflexivity].
  apply replay_loop_no_query.
Qed.

(** The store query is the first event of every run, and the only query. *)
Lemma generate_queries_once (db : F1Queries.Db) (sid fps : Z)
    (driver_ids : option (list Z)) (fuel : nat) :
  let run := generate_replay_frames fuel db sid fps driver_ids in
  hd_error (events run) = Some (EvQuery sid driver_ids) /\
  queries (events run) = [(sid, driver_ids)].
Proof.
  cbv zeta. unfold generate_replay_frames.
  pose proof (stream_no_query fuel
                (F1Queries.get_telemetry_frames db sid driver_ids) fps) as Hq.
  destruct (stream_frames fuel _ fps) as [evs out]. cbn [fst] in Hq.
  cbn [events hd_error]. split; [reflexivity|].
  change (queries (EvQuery sid driver_ids :: evs))
    with ((sid, driver_ids) :: queries evs).
  rewrite Hq. reflexivity.
Qed.

Lemma truediv_zero (a : Float64.t) :
  Py.truediv a 0 = inr Py.ZeroDivisionError.
Proof. reflexivity. Qed.

(** [1.0 / fps] for a negative [fps] in the range of the floats is a float
    that is not positive. *)
Lemma time_step_nonpositive (fps : Z) (time_step : Float64.t) :
  (fps < 0)%Z ->
  Py.truediv (Float64.Finite 1) fps = inl time_step ->
  exists s, time_step = Float64.Finite s /\ s <= 0.
Proof.
  intros Hfps. unfold Py.truediv.
  destruct (Py.float_of_int fps) as [d|e] eqn:Ed; [|discriminate].
  destruct (float_of_int_finite fps d Ed) as (q & -> & Hr & Hq).
  assert (Hminus : Float64.is_float (- (1)))
    by apply Float64Facts.is_float_opp, is_float_one.
  assert (Hq1 : q <= - (1)).
  { pose proof (Float64Facts.round_le (inject_Z fps) (- (1)) Hminus) as H.
    rewrite Hr in H. apply Float64Facts.le_Finite, H.
    change (- (1)) with (inject_Z (- 1)). rewrite <- Zle_Qle. lia. }
  unfold Py.float_truediv.
  destruct (Qeq_bool q 0) eqn:E0; [apply Qeq_bool_iff in E0; lra|].
  intro H. inversion H as [Hstep]. clear H.
  assert (Hinv : 1 / q == - (1 / - q)) by (field; lra).
  assert (Hpos : 0 < 1 / - q) by (apply Qlt_shift_div_l; lra).
  assert (Hle : 1 / - q <= 1) by (apply Qle_shift_div_r; lra).
  pose proof (Float64Facts.round_le (1 / q) 0 Float64Facts.is_float_zero
                ltac:(lra)) as Hup.
  pose proof (Float64Facts.round_ge (1 / q) (- (1)) Hminus ltac:(lra)) as Hdown.
  destruct (Float64.round (1 / q)) as [s|neg|];
    [|destruct neg; discriminate|discriminate].
  exists s. split; [reflexivity|]. apply Float64Facts.le_Finite, Hup.
Qed.

(** With a negative frame rate and float samples loaded, the loop time
    never rises above [min_time]: the guard never fails, and the generator
    does not return within any number of iterations. *)
Lemma negative_fps_never_returns (db : F1Queries.Db) (sid fps : Z)
    (driver_ids : option (list Z)) (fuel : nat) (time_step : Float64.t) :
  (fps < 0)%Z ->
  Py.truediv (Float64.Finite 1) fps = inl time_step ->
  F1Queries.get_telemetry_frames db sid driver_ids <> [] ->
  Forall (fun f => Float64.is_float (t_rel_sec f))
         (F1Queries.get_telemetry_frames db sid driver_ids) ->
  outcome (generate_replay_frames fuel db sid fps driver_ids) = OutOfFuel.
Proof.
  intros Hfps Hstep Hload Hfloat.
  destruct (time_step_nonpositive fps time_step Hfps Hstep) as (s & -> & Hs).
  destruct (generate_loaded fuel db sid fps driver_ids) as (_ & _ & Hout).
  rewrite Hout. clear Hout.
  destruct (F1Queries.get_telemetry_frames db sid driver_ids)
    as [|frame0 others]; [congruence|].
  unfold stream_frames. rewrite Hstep.
  fold (min_time_of frame0 others). fold (max_time_of frame0 others).
  rewrite (replay_loop_events (min_time_of frame0 others)
             (max_time_of frame0 others) (Float64.Finite s) _ fuel 0).
  cbn [snd].
  assert (Hmin : Float64.is_float (min_time_of frame0 others)).
  { rewrite Forall_forall in Hfloat.
    destruct (min_of_in (map t_rel_sec others) (t_rel_sec frame0)) as [H | H].
    - unfold min_time_of. rewrite <- H. apply Hfloat. left. reflexivity.
    - apply in_map_iff in H. destruct H as (f & Hf & Hin).
      unfold min_time_of. rewrite <- Hf. apply Hfloat. right. exact Hin. }
  assert (Hbelow : forall k,
             Float64.valid (time_at (min_time_of frame0 others) (Float64.Finite s) k)
             /\ Float64.le (time_at (min_time_of frame0 others) (Float64.Finite s) k)
                  (Float64.Finite (min_time_of frame0 others))).
  { induction k as [|k [IHv IHle]].
    - split; [exact Hmin | apply Float64Facts.le_Finite, Qle_refl].
    - split; [apply time_at_valid|].
      eapply Float64Facts.le_trans; [|exact IHle].
      apply Float64Facts.add_nonincreasing; assumption. }
  assert (Hrun : forall k,
             running (min_time_of frame0 others) (max_time_of frame0 others)
               (Float64.Finite s) k = true).
  { intro k. destruct (Hbelow k) as [_ Hle].
    eapply Float64Facts.le_trans; [exact Hle|].
    apply Float64Facts.le_Finite, min_le_max. }
  rewrite Hrun. reflexivity.
Qed.

(** A frame rate beyond the range of the floats cannot be converted: the
    division raises, after the samples were loaded. *)
Lemma overflowing_fps_raises (db : F1Queries.Db) (sid fps : Z)
    (driver_ids : option (list Z)) (fuel : nat) :
  (2 ^ 1024 <= fps)%Z ->
  F1Queries.get_telemetry_frames db sid driver_ids <> [] ->
  outcome (generate_replay_frames fuel db sid fps driver_ids)
  = Raised Py.OverflowError.
Proof.
  intros Hfps Hload.
  destruct (generate_loaded fuel db sid fps driver_ids) as (_ & _ & Hout).
  rewrite Hout.
  destruct (F1Queries.get_telemetry_frames db sid driver_ids)
    as [|frame0 others]; [congruence|].
  unfold stream_frames, Py.truediv, Py.float_of_int.
  rewrite Float64Facts.round_overflows; [reflexivity|].
  rewrite Float64Facts.pow2_Z by lia. rewrite <- Zle_Qle. exact Hfps.
Qed.

(** C2, as the code has it: there is no check of the frame rate.  For a
    frame rate of zero or below, the store query is still the first thing
    the generator does and it is issued once, so the request is not refused
    before the store is read; with no samples loaded the generator returns
    normally without a frame; with samples loaded and a frame rate of zero
    it raises the division by zero, after the query, without a frame. *)
Theorem nonpositive_fps_not_validated (db : F1Queries.Db) (sid fps : Z)
    (driver_ids : option (list Z)) (fuel : nat) :
  (fps <= 0)%Z ->
  let run := generate_replay_frames fuel db sid fps driver_ids in
  let loaded := F1Queries.get_telemetry_frames db sid driver_ids in
  hd_error (events run) = Some (EvQuery sid driver_ids) /\
  queries (events run) = [(sid, driver_ids)] /\
  ~ rejected_before_query run /\
  (loaded = [] -> outcome run = Returned /\ yielded (events run) = []) /\
  (loaded <> [] -> fps = 0%Z ->
   outcome run = Raised Py.ZeroDivisionError /\ yielded (events run) = []).
Proof.
  intros Hfps. cbv zeta.
  destruct (generate_queries_once db sid fps driver_ids fuel) as [Hhd Hq].
  split; [exact Hhd|]. split; [exact Hq|].
  split; [intros [Hnone _]; rewrite Hq in Hnone; discriminate|].
  destruct (generate_loaded fuel db sid fps driver_ids) as (_ & Hy & Hout).
  rewrite Hy, Hout. split.
  - intros ->. split; reflexivity.
  - intros Hload ->.
    destruct (F1Queries.get_telemetry_frames db sid driver_ids)
      as [|frame0 others]; [congruence|].
    unfold stream_frames. rewrite truediv_zero. split; reflexivity.
Qed.

Lemma nonpositive_fps_not_validated_witness :
  (0 <= 0)%Z /\
  outcome (generate_replay_frames 3 Examples.boundary_db 1 0 None)
  = Raised Py.ZeroDivisionError.
Proof.
  split; [lia|].
  destruct (nonpositive_fps_not_validated Examples.boundary_db 1 0 None 3
              ltac:(lia)) as (_ & _ & _ & _ & H).
  apply H; [discriminate | reflexivity].
Defined.

(** C2, refuted as stated: with a frame rate of zero on a session that has
    telemetry, the store is queried and the division by zero is raised
    afterwards; with a frame rate of -1 the store is queried and nothing is
    raised at all. *)
Lemma zero_fps_queries_then_divides :
  let run := generate_replay_frames 3 Examples.boundary_db 1 0 None in
  let run' := generate_replay_frames 3 Examples.boundary_db 1 (-1) None in
  queries (events run) = [(1%Z, None)] /\
  outcome run = Raised Py.ZeroDivisionError /\
  ~ rejected_before_query run /\
  queries (events run') = [(1%Z, None)] /\
  outcome run' = OutOfFuel /\
  ~ rejected_before_query run'.
Proof.
  cbv zeta. split; [vm_compute; reflexivity|]. split; [vm_compute; reflexivity|].
  split; [intros [Hq _]; vm_compute in Hq; discriminate|].
  split; [vm_compute; reflexivity|]. split; [vm_compute; reflexivity|].
  intros [Hq _]. vm_compute in Hq. discriminate.
Qed.

(** * Frame assembly *)

(** C3: when [f] is the last sample of its driver in the window, in input
    order, the assembled frame has one car per driver of the window, and the
    car at the driver's position carries the fields of [f]: the code of its
    driver, its two coordinates, its speed and its lap; nothing is asked of
    the times of the samples. *)
Theorem last_sample_wins (now : Float64.t) (pre post : list TelemetryFrame)
    (f : TelemetryFrame) :
  (forall g, In g post -> driver_id g <> driver_id f) ->
  let window_frames := pre ++ f :: post in
  let driver_frames := group_frames_by_driver window_frames in
  let frame := build_replay_frame now window_frames in
  NoDup (Py.keys driver_frames) /\
  (forall k, In k (Py.keys driver_frames)
             <-> exists g, In g window_frames /\ driver_id g = k) /\
  cars frame = map car_position (Py.values driver_frames) /\
  (forall i g,
     nth_error (Py.values driver_frames) i = Some g ->
     nth_error (cars frame) i
     = Some {| driver_code := code (driver g);
               x := x_norm g;
               y := y_norm g;
               car_speed_kph := speed_kph g;
               lap := lap_number g |}) /\
  Py.get driver_frames (driver_id f) = Some f /\
  exists i : nat,
    nth_error (Py.keys driver_frames) i = Some (driver_id f) /\
    nth_error (Py.values driver_frames) i = Some f /\
    nth_error (cars frame) i
    = Some {| driver_code := code (driver f);
              x := x_norm f;
              y := y_norm f;
              car_speed_kph := speed_kph f;
              lap := lap_number f |}.
Proof.
  intros Hlast. cbv zeta.
  pose proof (group_last pre post f Hlast) as Hget.
  assert (Hcars : forall i g,
             nth_error (Py.values (group_frames_by_driver (pre ++ f :: post))) i
             = Some g ->
             nth_error (cars (build_replay_frame now (pre ++ f :: post))) i
             = Some (car_position g)).
  { intros i g Hg. rewrite build_replay_frame_cars.
    apply map_nth_error. exact Hg. }
  split; [apply group_keys_nodup|].
  split; [intro k; apply group_keys|].
  split; [apply build_replay_frame_cars|].
  split; [exact Hcars|].
  split; [exact Hget|].
  destruct (get_position _ _ _ Hget) as (i & Hk & Hv).
  exists i. split; [exact Hk|]. split; [exact Hv|]. apply Hcars, Hv.
Qed.

Lemma last_sample_wins_witness :
  (forall g, In g [] -> driver_id g <> driver_id Examples.early_last) /\
  t_rel_sec Examples.early_last < t_rel_sec Examples.late_first /\
  cars (build_replay_frame (Float64.Finite 0)
          [Examples.late_first; Examples.early_last])
  = [ {| driver_code := "VER";
         x := x_norm Examples.early_last;
         y := y_norm Examples.early_last;
         car_speed_kph := None;
         lap := 1 |} ].
Proof.
  split; [intros g []|]. split; [vm_compute; reflexivity|].
  destruct (last_sample_wins (Float64.Finite 0) [Examples.late_first] []
              Examples.early_last)
    as (_ & _ & Hcars & _).
  - intros g [].
  - cbn [app] in Hcars. rewrite Hcars. reflexivity.
Defined.
(** * The telemetry query *)

(** C9: an empty list of driver ids restricts nothing: the query returns
    what it returns without a driver list, the frames of the session. *)
Theorem empty_driver_list_is_no_filter (db : F1Queries.Db) (sid : Z) :
  F1Queries.get_telemetry_frames db sid (Some [])
  = F1Queries.get_telemetry_frames db sid None /\
  forall f,
    In f (F1Queries.get_telemetry_frames db sid (Some []))
    <-> In f (F1Queries.telemetry_frames db) /\ session_id f = sid.
Proof.
  split; [reflexivity|]. intro f.
  unfold F1Queries.get_telemetry_frames. cbn [Py.truthy_opt Py.truthy].
  unfold F1Queries.where_session.
  rewrite <- Z.eqb_eq,
    <- (filter_In (fun g => Z.eqb (session_id g) sid) f (F1Queries.telemetry_frames db)).
  split; apply Permutation_in;
    [apply sort_by_perm | apply Permutation_sym, sort_by_perm].
Qed.

(** * The WebSocket endpoint *)

Lemma sent_app (l1 l2 : SendLog) : sent (l1 ++ l2) = sent l1 ++ sent l2.
Proof. apply map_app. Qed.

(** Sending the frames hands over a prefix of them, all of them when no send
    fails. *)
Lemma send_frames_sent (sink : Sink) (frames : list ReplayFrameSchema) :
  forall log0 : SendLog,
  exists m : nat,
    sent (fst (send_frames sink log0 frames))
    = sent log0 ++ map MsgFrame (firstn m frames) /\
    (snd (send_frames sink log0 frames) = None -> firstn m frames = frames).
Proof.
  induction frames as [|fr frames IH]; intro log0.
  - exists 0%nat. cbn. rewrite app_nil_r. auto.
  - cbn [send_frames]. unfold send_json.
    destruct (sink (sent log0) (MsgFrame fr)) as [|e].
    + destruct (IH (log0 ++ [(MsgFrame fr, SendOk)])) as (m & Hs & Hall).
      exists (S m). cbn [firstn map]. rewrite Hs, sent_app, <- app_assoc.
      split; [reflexivity|]. intro Hn. rewrite (Hall Hn). reflexivity.
    + exists 1%nat. cbn [fst snd firstn map]. rewrite sent_app.
      split; [reflexivity | discriminate].
Qed.

Lemma frames_only (l : list ReplayFrameSchema) : Forall is_frame (map MsgFrame l).
Proof. induction l; constructor; [exact I | assumption]. Qed.

Lemma no_completion_among_frames (ms : list Message) :
  Forall is_frame ms -> filter is_complete ms = [].
Proof.
  induction 1 as [|m ms Hm _ IH]; [reflexivity|].
  destruct m; cbn in *; [exact IH | contradiction | contradiction].
Qed.

Lemma replay_session_returned (fuel : nat) (db : F1Queries.Db)
    (sid fps : Z) (sink : Sink) :
  snd (replay_session_websocket fuel db sid fps sink []) = Returned ->
  outcome (generate_replay_frames fuel db sid fps None) = Returned /\
  sent (fst (replay_session_websocket fuel db sid fps sink []))
  = map MsgFrame (yielded (events (generate_replay_frames fuel db sid fps None))).
Proof.
  unfold replay_session_websocket.
  destruct (send_frames_sent sink
              (yielded (events (generate_replay_frames fuel db sid fps None))) [])
    as (m & Hs & Hall).
  destruct (send_frames sink [] _) as [l [e|]]; cbn [fst snd] in *.
  - discriminate.
  - intros Hout. split; [exact Hout|]. rewrite Hs, (Hall eq_refl). reflexivity.
Qed.

Lemma replay_session_frames_only (fuel : nat) (db : F1Queries.Db)
    (sid fps : Z) (sink : Sink) :
  Forall is_frame (sent (fst (replay_session_websocket fuel db sid fps sink []))).
Proof.
  unfold replay_session_websocket.
  destruct (send_frames_sent sink
              (yielded (events (generate_replay_frames fuel db sid fps None))) [])
    as (m & Hs & _).
  destruct (send_frames sink [] _) as [l [e|]]; cbn [fst] in *;
    rewrite Hs; apply frames_only.
Qed.

(** C6: for a race whose main session has no telemetry, the generator
    yields nothing and returns normally, whatever the frame rate; the
    endpoint hands the completion message to the sink first, and with a sink
    that accepts it, that message is all the client receives. *)
Theorem empty_session_completes (fuel : nat) (db : F1Queries.Db) (rid : Z)
    (settings : Router.Settings) (sink : Sink) (session : SessionModel) :
  F1Queries.get_race_main_session db rid = inl session ->
  F1Queries.get_telemetry_frames db (session_pk session) None = [] ->
  let run :=
    generate_replay_frames fuel db (session_pk session)
      (Router.replay_fps settings) None in
  let conn := Router.replay_race fuel db rid settings sink in
  yielded (events run) = [] /\
  outcome run = Returned /\
  Router.finished conn = true /\
  hd_error (sent (Router.log conn)) = Some MsgComplete /\
  (sink [] MsgComplete = SendOk -> sent (Router.log conn) = [MsgComplete]).
Proof.
  intros Hsession Hempty. cbv zeta.
  unfold Router.replay_race, replay_session_websocket, generate_replay_frames.
  rewrite Hsession, Hempty. cbn.
  unfold Router.handle_exception, send_json.
  destruct (sink [] MsgComplete) as [|e]; cbn.
  - repeat split.
  - destruct (Py.is_disconnect e); cbn; repeat split; discriminate.
Qed.

Lemma empty_session_completes_witness :
  F1Queries.get_race_main_session Examples.empty_db 7 = inl Examples.race_session /\
  F1Queries.get_telemetry_frames Examples.empty_db 1 None = [] /\
  sent (Router.log (Router.replay_race 0 Examples.empty_db 7
                      Router.default_settings Examples.accepting_sink))
  = [MsgComplete].
Proof.
  split; [reflexivity|]. split; [reflexivity|].
  destruct (empty_session_completes 0 Examples.empty_db 7
              Router.default_settings Examples.accepting_sink
              Examples.race_session eq_refl eq_refl)
    as (_ & _ & _ & _ & H).
  apply H. reflexivity.
Defined.

(** C7: for every playback the messages handed to the sink before the end
    are frames only, and after them
    - when all sends succeed and the generator returns, the completion
      message is handed over, once, as the next message, followed at most by
      an error message if that very send fails;
    - when a send or the generator raises, no completion message is handed
      over: an error message follows unless the exception is a disconnect,
      after which nothing more is sent;
    - when the session lookup fails, no completion message is handed
      over. *)
Theorem completion_signal_once (fuel : nat) (db : F1Queries.Db) (rid : Z)
    (settings : Router.Settings) (sink : Sink) :
  let conn := Router.replay_race fuel db rid settings sink in
  let completions := length (filter is_complete (sent (Router.log conn))) in
  match F1Queries.get_race_main_session db rid with
  | inr e =>
      completions = 0%nat /\ sent (Router.log conn) = [MsgError (Py.str e)]
  | inl session =>
      let played :=
        replay_session_websocket fuel db (session_pk session)
          (Router.replay_fps settings) sink [] in
      Forall is_frame (sent (fst played)) /\
      match snd played with
      | Returned =>
          outcome (generate_replay_frames fuel db (session_pk session)
                     (Router.replay_fps settings) None) = Returned /\
          sent (fst played)
          = map MsgFrame
              (yielded (events (generate_replay_frames fuel db
                                  (session_pk session)
                                  (Router.replay_fps settings) None))) /\
          completions = 1%nat /\
          sent (Router.log conn)
          = sent (fst played) ++ MsgComplete ::
              match sink (sent (fst played)) MsgComplete with
              | SendOk => []
              | SendRaises e =>
                  if Py.is_disconnect e then [] else [MsgError (Py.str e)]
              end
      | Raised e =>
          completions = 0%nat /\
          sent (Router.log conn)
          = sent (fst played)
              ++ (if Py.is_disconnect e then [] else [MsgError (Py.str e)])
      | OutOfFuel =>
          completions = 0%nat /\ Router.finished conn = false
      end
  end.
Proof.
  cbv zeta. unfold Router.replay_race.
  destruct (F1Queries.get_race_main_session db rid) as [session|e] eqn:Hs.
  - pose proof (replay_session_frames_only fuel db (session_pk session)
                  (Router.replay_fps settings) sink) as Hframes.
    pose proof (replay_session_returned fuel db (session_pk session)
                  (Router.replay_fps settings) sink) as Hall.
    destruct (replay_session_websocket fuel db (session_pk session)
                (Router.replay_fps settings) sink []) as [l out].
    cbn [fst snd] in *. split; [exact Hframes|].
    pose proof (no_completion_among_frames _ Hframes) as Hnone.
    destruct out as [|e|].
    + destruct (Hall eq_refl) as [Hgen Hsent].
      split; [exact Hgen|]. split; [exact Hsent|].
      unfold send_json, Router.handle_exception, send_json.
      destruct (sink (sent l) MsgComplete) as [|e]; cbn [Router.log fst].
      * rewrite sent_app, filter_app, Hnone. split; reflexivity.
      * destruct (Py.is_disconnect e); cbn [fst];
          rewrite ?sent_app, ?filter_app, Hnone, <- ?app_assoc;
          split; reflexivity.
    + unfold Router.handle_exception, send_json.
      destruct (Py.is_disconnect e); cbn [Router.log fst].
      * rewrite Hnone, app_nil_r. split; reflexivity.
      * rewrite sent_app, filter_app, Hnone. split; reflexivity.
    + cbn [Router.log Router.finished]. rewrite Hnone. split; reflexivity.
  - assert (He : Py.is_disconnect e = false).
    { unfold F1Queries.get_race_main_session in Hs.
      destruct (filter _ _) as [|s [|s' rest]]; inversion Hs; reflexivity. }
    unfold Router.handle_exception, send_json. rewrite He. cbn.
    split; reflexivity.
Qed.

(** * Runs of the endpoint on the concrete sessions *)

Example scenario_replay :
  sent (Router.log (Router.replay_race 1 Examples.scenario_db 7
                      Router.default_settings Examples.accepting_sink))
  = [MsgFrame {| t := Float64.Finite (Float64.literal (2 # 100));
                 cars := [ {| driver_code := "VER";
                              x := Float64.literal (2 # 10);
                              y := Float64.literal (2 # 10);
                              car_speed_kph := None; lap := 1 |};
                           {| driver_code := "HAM";
                              x := Float64.literal (5 # 10);
                              y := Float64.literal (5 # 10);
                              car_speed_kph := None; lap := 1 |} ] |};
     MsgComplete].
Proof. vm_compute. reflexivity. Qed.

Example two_step_replay :
  map t (yielded (events (generate_replay_frames 2 Examples.two_step_db 1 10 None)))
  = [Float64.Finite 0; Float64.Finite (Float64.literal (1 # 10))]
  /\ outcome (generate_replay_frames 2 Examples.two_step_db 1 10 None) = Returned
  /\ outcome (generate_replay_frames 1 Examples.two_step_db 1 10 None) = OutOfFuel.
Proof. vm_compute. repeat split. Qed.

(** The sums of the loop are binary64 sums: the third loop time at 10
    frames per second is not the float nearest to three tenths. *)
Example accumulated_time_is_rounded :
  time_at 0 (Float64.Finite (Float64.literal (1 # 10))) 3
  = Float64.round (Float64.literal (3 # 10) + Float64.pow2 (-54))
  /\ Float64.lt (Float64.Finite (Float64.literal (3 # 10)))
       (time_at 0 (Float64.Finite (Float64.literal (1 # 10))) 3).
Proof. vm_compute. split; reflexivity. Qed.

Example disconnect_is_silent :
  sent (Router.log (Router.replay_race 2 Examples.two_step_db 7
                      Router.default_settings Examples.disconnecting_sink))
  = map MsgFrame
        (firstn 2 (yielded (events (generate_replay_frames 2 Examples.two_step_db
                                      1 10 None)))).
Proof. vm_compute. reflexivity. Qed.

Example sink_failure_is_reported :
  sent (Router.log (Router.replay_race 2 Examples.two_step_db 7
                      Router.default_settings Examples.failing_sink))
  = map MsgFrame
        (firstn 1 (yielded (events (generate_replay_frames 2 Examples.two_step_db
                                      1 10 None))))
    ++ [MsgError "connection lost"].
Proof. vm_compute. reflexivity. Qed.

Example missing_session_is_reported :
  sent (Router.log (Router.replay_race 2 Examples.two_step_db 8
                      Router.default_settings Examples.accepting_sink))
  = [MsgError "No race session found for race 8"].
Proof. vm_compute. reflexivity. Qed.


(** ** Runs in which the rounding shows *)

(** Samples at 0, 0.9375 and 1.0 at 10 frames per second: the tenth loop
    time is 0.8999999999999999, its window ends below 1.0, and the last two
    samples go into two frames. *)
Example rounded_times_split_a_window :
  map t (yielded (events (generate_replay_frames 12 Examples.rounding_db 1 10 None)))
  = [Float64.Finite 0;
     Float64.Finite (Float64.literal (8999999999999999 # 10000000000000000));
     Float64.Finite (Float64.literal (9999999999999999 # 10000000000000000))]
  /\ outcome (generate_replay_frames 12 Examples.rounding_db 1 10 None) = Returned
  /\ iterations 12 0 1 (Float64.Finite (Float64.literal (1 # 10))) = 11%nat.
Proof. vm_compute. repeat split. Qed.

(** Samples at 0 and 0.30000000000000004 at 10 frames per second: the
    second sample is in the frame of time 0.2, whose window end, the float
    sum of 0.2 and 0.1, is the time of the sample, above three tenths. *)
Example rounded_window_end_takes_sample :
  map t (yielded (events (generate_replay_frames 5 Examples.late_db 1 10 None)))
  = [Float64.Finite 0; Float64.Finite (Float64.literal (2 # 10))]
  /\ Float64.add (Float64.Finite (Float64.literal (2 # 10)))
       (Float64.Finite (Float64.literal (1 # 10)))
     = Float64.Finite (Float64.literal (30000000000000004 # 100000000000000000))
  /\ Float64.literal (2 # 10) + Float64.literal (1 # 10)
     < Float64.literal (30000000000000004 # 100000000000000000)
  /\ outcome (generate_replay_frames 5 Examples.late_db 1 10 None) = Returned.
Proof. vm_compute. repeat split. Qed.

(** One sample at one second and a frame rate of -10 ** 17: the step is
    absorbed, the window of the first iteration ends at the sample, and a
    frame is yielded although the frame rate is negative. *)
Example negative_fps_yields_a_frame :
  map t (yielded (events (generate_replay_frames 3 Examples.unit_db 1
                            (- 10 ^ 17) None)))
  = [Float64.Finite 1]
  /\ outcome (generate_replay_frames 3 Examples.unit_db 1 (- 10 ^ 17) None)
     = OutOfFuel.
Proof. vm_compute. repeat split. Qed.

(** A frame rate of 10 ** 309 is beyond the floats: the division raises. *)
Example huge_fps_overflows :
  events (generate_replay_frames 3 Examples.unit_db 1 (10 ^ 309) None)
  = [EvQuery 1 None]
  /\ outcome (generate_replay_frames 3 Examples.unit_db 1 (10 ^ 309) None)
     = Raised Py.OverflowError.
Proof. vm_compute. repeat split. Qed.

(** The number of iterations follows the rounded sums: with samples at 0
    and 0.3 the fourth loop time, 0.30000000000000004, is beyond the last
    sample after three iterations; with samples at 0 and 2 the loop makes
    20 iterations. *)
Example iterations_follow_the_rounding :
  iterations 30 0 (Float64.literal (3 # 10))
    (Float64.Finite (Float64.literal (1 # 10))) = 3%nat
  /\ iterations 30 0 2 (Float64.Finite (Float64.literal (1 # 10))) = 20%nat.
Proof. vm_compute. split; reflexivity. Qed.

(** A step that the first addition absorbs is absorbed in every iteration:
    the generator does not return. *)
Lemma absorbed_step_loops (db : F1Queries.Db) (sid fps : Z)
    (driver_ids : option (list Z)) (frame0 : TelemetryFrame)
    (others : list TelemetryFrame) (time_step : Float64.t) :
  (0 < fps)%Z ->
  Py.truediv (Float64.Finite 1) fps = inl time_step ->
  F1Queries.get_telemetry_frames db sid driver_ids = frame0 :: others ->
  Float64.add (Float64.Finite (min_time_of frame0 others)) time_step
  = Float64.Finite (min_time_of frame0 others) ->
  forall fuel,
    outcome (generate_replay_frames fuel db sid fps driver_ids) = OutOfFuel.
Proof.
  intros Hfps Hstep Hload Habs fuel.
  destruct (time_step_positive fps time_step Hfps Hstep) as (s & -> & _).
  destruct (generate_yielded fuel db sid fps driver_ids frame0 others s
              Hfps Hstep Hload) as (_ & Hout & _).
  cbv zeta in Hout. rewrite Hout.
  assert (Htime : forall k,
             time_at (min_time_of frame0 others) (Float64.Finite s) k
             = Float64.Finite (min_time_of frame0 others)).
  { induction k as [|k IH]; [reflexivity|].
    cbn [time_at]. rewrite IH. exact Habs. }
  unfold running. rewrite Htime. cbn [Float64.leb].
  pose proof (min_le_max frame0 others) as Hle.
  apply Qle_bool_iff in Hle. rewrite Hle. reflexivity.
Qed.

(** Samples at one and two seconds at 10 ** 17 frames per second: the step
    is absorbed at once. *)
Example high_rate_never_returns (fuel : nat) :
  outcome (generate_replay_frames fuel Examples.near_db 1 (10 ^ 17) None)
  = OutOfFuel.
Proof.
  eapply absorbed_step_loops;
    [lia | vm_compute; reflexivity | reflexivity | vm_compute; reflexivity].
Qed.
(** * Further properties of the replay *)

Import ReplayOrder.

(** ** Stable sorting by a total preorder *)

Section SortedBy.

Context {A : Type} (leb : A -> A -> bool).
Hypothesis leb_total : forall a b, leb a b = false -> leb b a = true.
Hypothesis leb_trans :
  forall a b c, leb a b = true -> leb b c = true -> leb a c = true.

Lemma insert_by_sorted (a : A) (l : list A) :
  StronglySorted (holds leb) l ->
  StronglySorted (holds leb) (Py.insert_by leb a l).
Proof.
  induction 1 as [|b l Hs IH Hb]; cbn.
  - repeat constructor.
  - destruct (leb a b) eqn:E.
    + constructor; [constructor; assumption|].
      constructor; [exact E|].
      eapply Forall_impl; [|exact Hb]. intros c Hc. exact (leb_trans _ _ _ E Hc).
    + constructor; [exact IH|].
      eapply Permutation_Forall; [apply Permutation_sym, insert_by_perm|].
      constructor; [apply leb_total, E | exact Hb].
Qed.

Lemma sort_by_sorted (l : list A) :
  StronglySorted (holds leb) (Py.sort_by leb l).
Proof.
  induction l as [|a l IH]; [constructor|].
  change (Py.sort_by leb (a :: l))
    with (Py.insert_by leb a (Py.sort_by leb l)).
  apply insert_by_sorted, IH.
Qed.

(** A list that is already in order is left as it is. *)
Lemma sort_by_sorted_id (l : list A) :
  StronglySorted (holds leb) l -> Py.sort_by leb l = l.
Proof.
  induction 1 as [|a l Hs IH Ha]; [reflexivity|].
  change (Py.sort_by leb (a :: l))
    with (Py.insert_by leb a (Py.sort_by leb l)).
  rewrite IH. destruct l as [|b l]; [reflexivity|].
  cbn. inversion Ha as [|? ? Hab _]; subst. unfold holds in Hab.
  rewrite Hab. reflexivity.
Qed.

Lemma sort_by_In (a : A) (l : list A) : In a (Py.sort_by leb l) <-> In a l.
Proof.
  split; apply Permutation_in;
    [apply sort_by_perm | apply Permutation_sym, sort_by_perm].
Qed.

End SortedBy.

Lemma sorted_weaken {A : Type} (R R' : A -> A -> Prop) (l : list A) :
  (forall a b, R a b -> R' a b) -> StronglySorted R l -> StronglySorted R' l.
Proof.
  intros Himp. induction 1 as [|a l Hs IH Ha]; constructor; [exact IH|].
  eapply Forall_impl; [|exact Ha]. intro b. apply Himp.
Qed.

Lemma order_key_leb_iff (a b : TelemetryFrame) :
  F1Queries.order_key_leb a b = true <-> query_le a b.
Proof.
  unfold F1Queries.order_key_leb, query_le.
  rewrite orb_true_iff, andb_true_iff, Qlt_bool_iff, Qeq_bool_iff, Z.leb_le.
  tauto.
Qed.

Lemma order_key_leb_total (a b : TelemetryFrame) :
  F1Queries.order_key_leb a b = false -> F1Queries.order_key_leb b a = true.
Proof.
  intro H. apply order_key_leb_iff.
  assert (Hn : ~ query_le a b)
    by (intro Hq; apply order_key_leb_iff in Hq; congruence).
  unfold query_le in *.
  destruct (Qlt_le_dec (t_rel_sec b) (t_rel_sec a)) as [Hlt|Hle]; [left; exact Hlt|].
  right. destruct (Qlt_le_dec (t_rel_sec a) (t_rel_sec b)) as [Hlt'|Hle'];
    [exfalso; apply Hn; left; exact Hlt'|].
  assert (Heq : t_rel_sec b == t_rel_sec a) by (apply Qle_antisym; assumption).
  split; [exact Heq|].
  destruct (Z_le_gt_dec (driver_id a) (driver_id b)) as [Hz|Hz]; [|lia].
  exfalso. apply Hn. right. split; [symmetry; exact Heq | exact Hz].
Qed.

Lemma order_key_leb_trans (a b c : TelemetryFrame) :
  F1Queries.order_key_leb a b = true -> F1Queries.order_key_leb b c = true ->
  F1Queries.order_key_leb a c = true.
Proof.
  rewrite !order_key_leb_iff. unfold query_le.
  intros [H1 | [H1 H1']] [H2 | [H2 H2']].
  - left. lra.
  - left. lra.
  - left. lra.
  - right. split; [lra | lia].
Qed.

(** ** The telemetry query *)

Lemma telemetry_query_sorted (db : F1Queries.Db) (sid : Z)
    (driver_ids : option (list Z)) :
  StronglySorted query_le (F1Queries.get_telemetry_frames db sid driver_ids).
Proof.
  unfold F1Queries.get_telemetry_frames.
  apply (sorted_weaken (holds F1Queries.order_key_leb));
    [intros a b; apply order_key_leb_iff|].
  apply (sort_by_sorted F1Queries.order_key_leb
           order_key_leb_total order_key_leb_trans).
Qed.

(** X1: the telemetry query returns the frames of the session, restricted to
    the listed drivers when the list is not empty, each as often as it is
    stored, ordered by time and, at equal times, by driver id. *)
Theorem telemetry_query_result (db : F1Queries.Db) (sid : Z)
    (driver_ids : option (list Z)) :
  let rows := F1Queries.get_telemetry_frames db sid driver_ids in
  StronglySorted query_le rows /\
  Permutation rows
    (filter (fun f =>
               Z.eqb (session_id f) sid
               && match driver_ids with
                  | Some (id :: ids) => existsb (Z.eqb (driver_id f)) (id :: ids)
                  | _ => true
                  end)
            (F1Queries.telemetry_frames db)) /\
  (forall f, In f rows <->
     In f (F1Queries.telemetry_frames db) /\ session_id f = sid /\
     match driver_ids with
     | Some (id :: ids) => In (driver_id f) (id :: ids)
     | _ => True
     end).
Proof.
  cbv zeta. split; [apply telemetry_query_sorted|].
  unfold F1Queries.get_telemetry_frames.
  split.
  - eapply perm_trans; [apply sort_by_perm|].
    unfold F1Queries.where_session, F1Queries.where_driver_in.
    destruct driver_ids as [[|id ids]|]; cbn [Py.truthy_opt Py.truthy].
    + rewrite (filter_ext (fun f => Z.eqb (session_id f) sid && true)
                 (fun f => Z.eqb (session_id f) sid))
        by (intro f; apply andb_true_r).
      apply Permutation_refl.
    + induction (F1Queries.telemetry_frames db) as [|f l IH]; [constructor|].
      cbn [filter]. destruct (Z.eqb (session_id f) sid); cbn [filter andb].
      * destruct (existsb _ _); [constructor|]; exact IH.
      * exact IH.
    + rewrite (filter_ext (fun f => Z.eqb (session_id f) sid && true)
                 (fun f => Z.eqb (session_id f) sid))
        by (intro f; apply andb_true_r).
      apply Permutation_refl.
  - intro f. rewrite sort_by_In.
    unfold F1Queries.where_session, F1Queries.where_driver_in.
    destruct driver_ids as [[|id ids]|]; cbn [Py.truthy_opt Py.truthy];
      rewrite ?filter_In, ?Z.eqb_eq; try tauto.
    rewrite existsb_exists. split.
    + intros ((Hin & Hs) & (z & Hz & Heq)). apply Z.eqb_eq in Heq.
      repeat split; try assumption. rewrite Heq. exact Hz.
    + intros (Hin & Hs & Hd). split; [tauto|].
      exists (driver_id f). split; [exact Hd | apply Z.eqb_refl].
Qed.

Lemma query_le_time (a b : TelemetryFrame) :
  query_le a b -> holds by_time_leb a b.
Proof.
  unfold query_le, holds, by_time_leb. intro H. apply Qle_bool_iff.
  destruct H as [H | [H _]]; lra.
Qed.

(** X2: the sort by time at the head of the streaming loop leaves the result
    of the telemetry query as it is: the loop walks the frames in the order
    of the query, samples of equal time in ascending driver id. *)
Theorem presort_keeps_query_order (db : F1Queries.Db) (sid : Z)
    (driver_ids : option (list Z)) :
  sort_by_time (F1Queries.get_telemetry_frames db sid driver_ids)
  = F1Queries.get_telemetry_frames db sid driver_ids /\
  StronglySorted query_le
    (sort_by_time (F1Queries.get_telemetry_frames db sid driver_ids)).
Proof.
  pose proof (telemetry_query_sorted db sid driver_ids) as Hsorted.
  assert (Heq : sort_by_time (F1Queries.get_telemetry_frames db sid driver_ids)
                = F1Queries.get_telemetry_frames db sid driver_ids).
  { apply sort_by_sorted_id.
    apply (sorted_weaken query_le); [apply query_le_time | exact Hsorted]. }
  split; [exact Heq | rewrite Heq; exact Hsorted].
Qed.

(** ** Cars of the yielded frames *)

Lemma values_setitem {V : Type} (d : Py.dict V) (k : Z) (v v' : V) :
  In v' (Py.values (Py.setitem d k v)) -> v' = v \/ In v' (Py.values d).
Proof.
  unfold Py.values. induction d as [|[k0 v0] d IH]; cbn.
  - intros [H | []]. left. congruence.
  - destruct (Z.eqb k0 k); cbn.
    + intros [H | H]; [left; congruence | right; right; exact H].
    + intros [H | H]; [right; left; exact H|].
      destruct (IH H) as [Hv | Hv]; [left; exact Hv | right; right; exact Hv].
Qed.

Lemma group_values_in (frames : list TelemetryFrame) (v : TelemetryFrame) :
  In v (Py.values (group_frames_by_driver frames)) -> In v frames.
Proof.
  induction frames as [|f frames IH] using rev_ind; [intros []|].
  rewrite group_snoc. intro H. apply values_setitem in H.
  apply in_or_app. destruct H as [-> | H]; [right; left; reflexivity|].
  left. apply IH, H.
Qed.

Lemma length_setitem {V : Type} (d : Py.dict V) (k : Z) (v : V) :
  (length (Py.setitem d k v) <= S (length d))%nat.
Proof.
  induction d as [|[k0 v0] d IH]; cbn; [lia|].
  destruct (Z.eqb k0 k); cbn; lia.
Qed.

Lemma length_group (frames : list TelemetryFrame) :
  (length (group_frames_by_driver frames) <= length frames)%nat.
Proof.
  induction frames as [|f frames IH] using rev_ind; [cbn; lia|].
  rewrite group_snoc, length_app. cbn [length].
  pose proof (length_setitem (group_frames_by_driver frames) (driver_id f) f).
  lia.
Qed.

Lemma length_cars (now : Float64.t) (frames : list TelemetryFrame) :
  (length (cars (build_replay_frame now frames)) <= length frames)%nat.
Proof.
  rewrite build_replay_frame_cars. unfold Py.values.
  rewrite !length_map. apply length_group.
Qed.

Lemma in_frames_at (l : list TelemetryFrame) (min_time : Q)
    (time_step : Float64.t) (ks : list nat) (fr : ReplayFrameSchema) :
  In fr (flat_map (frames_at l min_time time_step) ks) ->
  exists k, In k ks /\
    fr = build_replay_frame (time_at min_time time_step k)
           (window_at l min_time time_step k).
Proof.
  rewrite in_flat_map. intros (k & Hk & Hfr). exists k. split; [exact Hk|].
  unfold frames_at in Hfr.
  destruct (Py.truthy (window_at l min_time time_step k)); [|destruct Hfr].
  destruct Hfr as [<- | []]. reflexivity.
Qed.

(** X3: every car position of every yielded frame carries the driver code,
    the coordinates, the speed and the lap of a loaded sample, as they are
    stored, and the time of that sample lies between the frame's time and
    the window end, the binary64 sum of the frame's time and the step: the
    generator never makes up or interpolates a position. *)
Theorem yielded_cars_are_samples (db : F1Queries.Db) (sid fps : Z)
    (driver_ids : option (list Z)) (frame0 : TelemetryFrame)
    (others : list TelemetryFrame) (time_step : Float64.t) (fuel : nat) :
  (0 < fps)%Z ->
  Py.truediv (Float64.Finite 1) fps = inl time_step ->
  F1Queries.get_telemetry_frames db sid driver_ids = frame0 :: others ->
  forall fr c,
    In fr (yielded (events (generate_replay_frames fuel db sid fps driver_ids))) ->
    In c (cars fr) ->
    exists f,
      In f (F1Queries.get_telemetry_frames db sid driver_ids) /\
      driver_code c = code (driver f) /\
      x c = x_norm f /\
      y c = y_norm f /\
      car_speed_kph c = speed_kph f /\
      lap c = lap_number f /\
      Float64.le (t fr) (Float64.Finite (t_rel_sec f)) /\
      Float64.le (Float64.Finite (t_rel_sec f)) (Float64.add (t fr) time_step).
Proof.
  intros Hfps Hstep Hload fr c Hfr Hc.
  destruct (time_step_positive fps time_step Hfps Hstep) as (s & -> & _).
  destruct (generate_yielded fuel db sid fps driver_ids frame0 others s
              Hfps Hstep Hload) as (_ & _ & Hy).
  cbv zeta in Hy. rewrite Hy in Hfr. apply in_frames_at in Hfr.
  destruct Hfr as (k & _ & ->).
  rewrite build_replay_frame_cars in Hc. apply in_map_iff in Hc.
  destruct Hc as (f & <- & Hf). apply group_values_in in Hf.
  rewrite (stream_window frame0 others fps s Hfps Hstep k) in Hf.
  apply filter_In in Hf. destruct Hf as [Hin Hw]. apply in_window_iff in Hw.
  exists f. split.
  { rewrite Hload. eapply Permutation_in; [apply sort_by_time_perm | exact Hin]. }
  unfold car_position, build_replay_frame.
  cbn [driver_code x y car_speed_kph lap t].
  repeat (split; [reflexivity|]).
  destruct Hw as [Ha Hle]. split; [|exact Hle].
  unfold ahead in Ha. destruct k; [exact Ha | apply Float64Facts.lt_le, Ha].
Qed.

Lemma yielded_cars_are_samples_witness :
  (0 < 10)%Z /\
  Py.truediv (Float64.Finite 1) 10
  = inl (Float64.Finite (Float64.literal (1 # 10))) /\
  F1Queries.get_telemetry_frames Examples.boundary_db 1 None
  = [Examples.boundary_first; Examples.boundary_second] /\
  forall fr c,
    In fr (yielded (events (generate_replay_frames 3 Examples.boundary_db 1 10 None))) ->
    In c (cars fr) ->
    exists f,
      In f (F1Queries.get_telemetry_frames Examples.boundary_db 1 None) /\
      driver_code c = code (driver f) /\
      x c = x_norm f /\
      y c = y_norm f /\
      car_speed_kph c = speed_kph f /\
      lap c = lap_number f /\
      Float64.le (t fr) (Float64.Finite (t_rel_sec f)) /\
      Float64.le (Float64.Finite (t_rel_sec f))
        (Float64.add (t fr) (Float64.Finite (Float64.literal (1 # 10)))).
Proof.
  split; [lia|]. split; [vm_compute; reflexivity|]. split; [reflexivity|].
  apply (yielded_cars_are_samples Examples.boundary_db 1 10 None
           Examples.boundary_first [Examples.boundary_second]
           (Float64.Finite (Float64.literal (1 # 10))) 3);
    [lia | vm_compute; reflexivity | reflexivity].
Defined.

Lemma frames_at_count (l : list TelemetryFrame) (min_time : Q)
    (time_step : Float64.t) (k : nat) :
  (total_cars (frames_at l min_time time_step k)
   <= length (window_at l min_time time_step k))%nat /\
  (length (frames_at l min_time time_step k)
   <= length (window_at l min_time time_step k))%nat /\
  (length (frames_at l min_time time_step k) <= 1)%nat.
Proof.
  unfold frames_at, total_cars.
  destruct (window_at l min_time time_step k) as [|f w]; cbn [Py.truthy].
  - cbn. lia.
  - pose proof (length_cars (time_at min_time time_step k) (f :: w)) as Hc.
    set (fr := build_replay_frame (time_at min_time time_step k) (f :: w)) in *.
    cbn in *. lia.
Qed.

Lemma frames_at_counts (l : list TelemetryFrame) (min_time : Q)
    (time_step : Float64.t) (ks : list nat) :
  (total_cars (flat_map (frames_at l min_time time_step) ks)
   <= length (concat (map (window_at l min_time time_step) ks)))%nat /\
  (length (flat_map (frames_at l min_time time_step) ks)
   <= length (concat (map (window_at l min_time time_step) ks)))%nat /\
  (length (flat_map (frames_at l min_time time_step) ks) <= length ks)%nat.
Proof.
  induction ks as [|k ks (IH1 & IH2 & IH3)]; [cbn; lia|].
  destruct (frames_at_count l min_time time_step k) as (H1 & H2 & H3).
  unfold total_cars in *.
  cbn [flat_map map concat length].
  rewrite map_app, list_sum_app, !length_app. lia.
Qed.

(** Whatever the times and the step are, the windows are taken from
    stretches of the list that follow one another. *)
Lemma windows_length (l : list TelemetryFrame) (min_time : Q)
    (time_step : Float64.t) (n : nat) :
  (length (concat (map (window_at l min_time time_step) (seq 0 n)))
   <= frame_index (state_at l min_time time_step n))%nat /\
  (frame_index (state_at l min_time time_step n) <= length l)%nat.
Proof.
  induction n as [|n [IH1 IH2]]; [cbn; lia|].
  rewrite seq_S, map_app, concat_app, length_app. cbn [map concat Nat.add].
  rewrite app_nil_r.
  pose proof (loop_body_length l time_step (state_at l min_time time_step n) IH2)
    as Hbody.
  rewrite loop_body_at in Hbody. lia.
Qed.

(** X4: whatever the frame rate, all frames of a replay together never
    hold more car positions than samples were loaded, and there are never
    more frames than samples loaded; when the loop is entered, there are
    never more frames than the loop has made iterations. *)
Theorem yielded_counts_bounded (db : F1Queries.Db) (sid fps : Z)
    (driver_ids : option (list Z)) (fuel : nat) :
  let frames :=
    yielded (events (generate_replay_frames fuel db sid fps driver_ids)) in
  let loaded := F1Queries.get_telemetry_frames db sid driver_ids in
  (total_cars frames <= length loaded)%nat /\
  (length frames <= length loaded)%nat /\
  (forall frame0 others time_step,
     loaded = frame0 :: others ->
     Py.truediv (Float64.Finite 1) fps = inl time_step ->
     (length frames
      <= iterations fuel (min_time_of frame0 others) (max_time_of frame0 others)
           time_step)%nat /\
     (iterations fuel (min_time_of frame0 others) (max_time_of frame0 others)
        time_step <= fuel)%nat).
Proof.
  cbv zeta.
  destruct (generate_loaded fuel db sid fps driver_ids) as (_ & Hy & _).
  rewrite Hy. clear Hy.
  destruct (F1Queries.get_telemetry_frames db sid driver_ids)
    as [|frame0 others].
  { cbn. split; [lia|]. split; [lia|]. intros ? ? ? H. discriminate H. }
  unfold stream_frames.
  destruct (Py.truediv (Float64.Finite 1) fps) as [time_step|e].
  2:{ cbn. split; [lia|]. split; [lia|]. intros ? ? ? _ H. discriminate H. }
  fold (min_time_of frame0 others). fold (max_time_of frame0 others).
  rewrite (replay_loop_events (min_time_of frame0 others)
             (max_time_of frame0 others) time_step _ fuel 0).
  cbn [fst]. rewrite yielded_events.
  set (n := iterations_from fuel (min_time_of frame0 others)
              (max_time_of frame0 others) time_step 0).
  destruct (frames_at_counts (sort_by_time (frame0 :: others))
              (min_time_of frame0 others) time_step (seq 0 n))
    as (H1 & H2 & H3).
  destruct (windows_length (sort_by_time (frame0 :: others))
              (min_time_of frame0 others) time_step n) as [H4 H5].
  rewrite (Permutation_length (sort_by_time_perm (frame0 :: others))) in H5.
  rewrite length_seq in H3.
  pose proof (iterations_from_le (min_time_of frame0 others)
                (max_time_of frame0 others) time_step fuel 0) as H6.
  fold n in H6.
  split; [lia|]. split; [lia|].
  intros frame0' others' time_step' Hl Hs.
  injection Hl as <- <-. injection Hs as <-.
  unfold iterations. fold n. split; [exact H3 | exact H6].
Qed.

Lemma yielded_counts_bounded_witness :
  (length (yielded (events (generate_replay_frames 12 Examples.rounding_db 1 10 None)))
   <= 11)%nat /\
  (total_cars (yielded (events (generate_replay_frames 12 Examples.rounding_db 1 10 None)))
   <= 3)%nat.
Proof.
  destruct (yielded_counts_bounded Examples.rounding_db 1 10 None 12)
    as (Hcars & _ & Hiter).
  split; [|exact Hcars].
  destruct (Hiter (Examples.sample 12 Examples.VER 0 (1 # 10) (1 # 10))
              [Examples.sample 13 Examples.VER (9375 # 10000) (2 # 10) (2 # 10);
               Examples.sample 14 Examples.VER 1 (3 # 10) (3 # 10)]
              (Float64.Finite (Float64.literal (1 # 10)))
              eq_refl ltac:(vm_compute; reflexivity)) as [H _].
  exact H.
Defined.

(** ** Pacing *)

Lemma events_at_sleeps (l : list TelemetryFrame) (min_time : Q)
    (time_step : Float64.t) (ks : list nat) :
  sleeps (flat_map (events_at l min_time time_step) ks)
  = repeat time_step (length ks) /\
  queries (flat_map (events_at l min_time time_step) ks) = [].
Proof.
  unfold sleeps, queries.
  induction ks as [|k ks [IHs IHq]]; [split; reflexivity|].
  cbn [flat_map length repeat]. rewrite !flat_map_app, IHs, IHq.
  unfold events_at, yield_window.
  destruct (Py.truthy (window_at l min_time time_step k)); split; reflexivity.
Qed.

(** X5: with samples loaded and a frame rate that [1.0 / fps] accepts, the
    generator queries the store once and sleeps once in every iteration it
    makes, for empty windows too, each time for the float [1.0 / fps]; it
    never yields more frames than it sleeps. *)
Theorem replay_sleeps_every_iteration (db : F1Queries.Db) (sid fps : Z)
    (driver_ids : option (list Z)) (frame0 : TelemetryFrame)
    (others : list TelemetryFrame) (time_step : Float64.t) (fuel : nat) :
  Py.truediv (Float64.Finite 1) fps = inl time_step ->
  F1Queries.get_telemetry_frames db sid driver_ids = frame0 :: others ->
  let n :=
    iterations fuel (min_time_of frame0 others) (max_time_of frame0 others)
      time_step in
  let run := generate_replay_frames fuel db sid fps driver_ids in
  queries (events run) = [(sid, driver_ids)] /\
  sleeps (events run) = repeat time_step n /\
  (n <= fuel)%nat /\
  (length (yielded (events run)) <= length (sleeps (events run)))%nat.
Proof.
  intros Hstep Hload. cbv zeta.
  destruct (generate_loaded fuel db sid fps driver_ids) as (Hev & Hy & _).
  cbv zeta in Hev, Hy. rewrite Hy, Hev, Hload. clear Hy Hev.
  unfold stream_frames. rewrite Hstep.
  fold (min_time_of frame0 others). fold (max_time_of frame0 others).
  rewrite (replay_loop_events (min_time_of frame0 others)
             (max_time_of frame0 others) time_step _ fuel 0).
  cbn [fst]. unfold iterations.
  set (n := iterations_from fuel (min_time_of frame0 others)
              (max_time_of frame0 others) time_step 0).
  destruct (events_at_sleeps (sort_by_time (frame0 :: others))
              (min_time_of frame0 others) time_step (seq 0 n))
    as [Hs Hq].
  rewrite length_seq in Hs.
  assert (Hsl : sleeps (EvQuery sid driver_ids
                          :: flat_map (events_at (sort_by_time (frame0 :: others))
                                         (min_time_of frame0 others) time_step)
                                      (seq 0 n))
                = repeat time_step n) by exact Hs.
  split; [|split; [exact Hsl|split]].
  - change (queries (EvQuery sid driver_ids :: ?l))
      with ((sid, driver_ids) :: queries l).
    rewrite Hq. reflexivity.
  - apply iterations_from_le.
  - rewrite Hsl, repeat_length, yielded_events.
    destruct (frames_at_counts (sort_by_time (frame0 :: others))
                (min_time_of frame0 others) time_step (seq 0 n))
      as (_ & _ & H3).
    rewrite length_seq in H3. exact H3.
Qed.

Lemma replay_sleeps_every_iteration_witness :
  Py.truediv (Float64.Finite 1) 10
  = inl (Float64.Finite (Float64.literal (1 # 10))) /\
  F1Queries.get_telemetry_frames Examples.two_step_db 1 None <> [] /\
  sleeps (events (generate_replay_frames 2 Examples.two_step_db 1 10 None))
  = [Float64.Finite (Float64.literal (1 # 10));
     Float64.Finite (Float64.literal (1 # 10))].
Proof.
  split; [vm_compute; reflexivity|]. split; [discriminate|].
  destruct (replay_sleeps_every_iteration Examples.two_step_db 1 10 None
              (Examples.sample 8 Examples.VER 0 (1 # 10) (1 # 10))
              [Examples.sample 9 Examples.VER (15 # 100) (2 # 10) (2 # 10)]
              (Float64.Finite (Float64.literal (1 # 10))) 2)
    as (_ & H & _); [vm_compute; reflexivity | reflexivity |].
  rewrite H. vm_compute. reflexivity.
Defined.

(** ** Delivery *)

Lemma send_frames_log (sink : Sink) (frames : list ReplayFrameSchema) :
  forall log0 : SendLog,
  exists (new : SendLog) (m : nat),
    fst (send_frames sink log0 frames) = log0 ++ new /\
    map fst new = map MsgFrame (firstn m frames) /\
    Forall send_ok (removelast new) /\
    match snd (send_frames sink log0 frames) with
    | None => firstn m frames = frames /\ Forall send_ok new
    | Some e => exists fr, new = removelast new ++ [(MsgFrame fr, SendRaises e)]
    end.
Proof.
  induction frames as [|fr frames IH]; intro log0.
  - exists [], 0%nat. cbn. rewrite app_nil_r. repeat split; constructor.
  - cbn [send_frames]. unfold send_json.
    destruct (sink (sent log0) (MsgFrame fr)) as [|e] eqn:Hsink.
    + destruct (IH (log0 ++ [(MsgFrame fr, SendOk)]))
        as (new & m & Hlog & Hmsgs & Hok & Hend).
      exists ((MsgFrame fr, SendOk) :: new), (S m).
      rewrite Hlog, <- app_assoc. cbn [app map firstn fst].
      split; [reflexivity|]. split; [rewrite Hmsgs; reflexivity|].
      split.
      * destruct new as [|entry new]; [constructor|].
        change (removelast ((MsgFrame fr, SendOk) :: entry :: new))
          with ((MsgFrame fr, SendOk) :: removelast (entry :: new)).
        constructor; [reflexivity | exact Hok].
      * destruct (snd (send_frames sink (log0 ++ [(MsgFrame fr, SendOk)]) frames))
          as [e|].
        -- destruct Hend as (fr' & Hnew). exists fr'.
           destruct new as [|entry new];
             [destruct (removelast []); discriminate|].
           change (removelast ((MsgFrame fr, SendOk) :: entry :: new))
             with ((MsgFrame fr, SendOk) :: removelast (entry :: new)).
           cbn [app]. rewrite <- Hnew. reflexivity.
        -- destruct Hend as [Hall Hoks]. split; [rewrite Hall; reflexivity|].
           constructor; [reflexivity | exact Hoks].
    + exists [(MsgFrame fr, SendRaises e)], 1%nat. cbn.
      repeat split; try constructor. exists fr. reflexivity.
Qed.

(** X6: the replay hands the yielded frames to the sink in their order and
    without gaps; every send but the last one made has succeeded, so after
    a failed send no further frame is sent, and that failure is the
    exception the replay ends with. *)
Theorem frames_sent_in_order_until_failure (fuel : nat) (db : F1Queries.Db)
    (sid fps : Z) (sink : Sink) :
  let run := generate_replay_frames fuel db sid fps None in
  let played := replay_session_websocket fuel db sid fps sink [] in
  exists m : nat,
    sent (fst played) = map MsgFrame (firstn m (yielded (events run))) /\
    Forall send_ok (removelast (fst played)) /\
    (Forall send_ok (fst played) ->
     firstn m (yielded (events run)) = yielded (events run) /\
     snd played = outcome run) /\
    (forall entry, In entry (fst played) -> ~ send_ok entry ->
     exists fr e,
       entry = (MsgFrame fr, SendRaises e) /\
       fst played = removelast (fst played) ++ [entry] /\
       snd played = Raised e).
Proof.
  cbv zeta. unfold replay_session_websocket.
  destruct (send_frames_log sink
              (yielded (events (generate_replay_frames fuel db sid fps None))) [])
    as (new & m & Hlog & Hmsgs & Hok & Hend).
  destruct (send_frames sink [] _) as [l r]. cbn [fst snd app] in *. subst l.
  exists m. destruct r as [e|]; cbn [fst snd].
  - destruct Hend as (fr & Hnew).
    split; [exact Hmsgs|]. split; [exact Hok|]. split.
    + intro Hall. exfalso. rewrite Hnew in Hall.
      apply Forall_app in Hall. destruct Hall as [_ Hall].
      inversion Hall as [|? ? Hbad _]; subst. discriminate Hbad.
    + intros entry Hin Hbad. rewrite Hnew in Hin. apply in_app_or in Hin.
      destruct Hin as [Hin | [<- | []]].
      * exfalso. apply Hbad. rewrite Forall_forall in Hok. apply Hok, Hin.
      * exists fr, e. repeat split. exact Hnew.
  - destruct Hend as [Hall Hoks].
    split; [exact Hmsgs|]. split; [exact Hok|]. split.
    + intros _. split; [exact Hall | reflexivity].
    + intros entry Hin Hbad. exfalso. apply Hbad.
      rewrite Forall_forall in Hoks. apply Hoks, Hin.
Qed.

(** ** Order of the cars in a frame *)

Lemma keys_setitem_present {V : Type} (d : Py.dict V) (k : Z) (v : V) :
  In k (Py.keys d) -> Py.keys (Py.setitem d k v) = Py.keys d.
Proof.
  unfold Py.keys. induction d as [|[k0 v0] d IH]; cbn; [intros []|].
  destruct (Z.eqb_spec k0 k); cbn; [reflexivity|].
  intros [H | H]; [congruence|]. rewrite (IH H). reflexivity.
Qed.

Lemma keys_setitem_absent {V : Type} (d : Py.dict V) (k : Z) (v : V) :
  ~ In k (Py.keys d) -> Py.keys (Py.setitem d k v) = Py.keys d ++ [k].
Proof.
  unfold Py.keys. induction d as [|[k0 v0] d IH]; cbn; [reflexivity|].
  intro Hn. destruct (Z.eqb_spec k0 k); [exfalso; apply Hn; left; assumption|].
  cbn. rewrite IH; [reflexivity|]. intro H. apply Hn. right. exact H.
Qed.

Lemma first_occurrences_snoc (l : list Z) (k : Z) :
  first_occurrences (l ++ [k])
  = if in_dec Z.eq_dec k l then first_occurrences l
    else first_occurrences l ++ [k].
Proof.
  unfold first_occurrences. rewrite rev_app_distr. cbn [rev app nodup].
  destruct (in_dec Z.eq_dec k (rev l)) as [Hin | Hn];
    destruct (in_dec Z.eq_dec k l) as [Hin' | Hn']; try reflexivity.
  - exfalso. apply Hn'. apply in_rev. exact Hin.
  - exfalso. apply Hn. apply in_rev in Hin'. exact Hin'.
Qed.

Lemma group_keys_order (frames : list TelemetryFrame) :
  Py.keys (group_frames_by_driver frames)
  = first_occurrences (map driver_id frames).
Proof.
  induction frames as [|f frames IH] using rev_ind; [reflexivity|].
  rewrite group_snoc, map_app. cbn [map]. rewrite first_occurrences_snoc.
  destruct (in_dec Z.eq_dec (driver_id f) (map driver_id frames)) as [Hin | Hn].
  - rewrite keys_setitem_present; [exact IH|].
    apply group_keys. apply in_map_iff in Hin.
    destruct Hin as (g & Hg & Hin). exists g. auto.
  - rewrite keys_setitem_absent; [rewrite IH; reflexivity|].
    intro Hin. apply group_keys in Hin. destruct Hin as (g & Hg & Hd).
    apply Hn. rewrite <- Hd. apply in_map. exact Hg.
Qed.

Lemma setitem_keyed (d : Py.dict TelemetryFrame) (f : TelemetryFrame) :
  Forall (fun item => driver_id (snd item) = fst item) d ->
  Forall (fun item => driver_id (snd item) = fst item)
         (Py.setitem d (driver_id f) f).
Proof.
  induction 1 as [|[k0 v0] d Hk Hd IH]; cbn.
  - constructor; [reflexivity | constructor].
  - destruct (Z.eqb_spec k0 (driver_id f)) as [Heq|Hne].
    + constructor; [cbn; symmetry; exact Heq | exact Hd].
    + constructor; [exact Hk | exact IH].
Qed.

Lemma group_keyed (frames : list TelemetryFrame) :
  Forall (fun item => driver_id (snd item) = fst item)
         (group_frames_by_driver frames).
Proof.
  induction frames as [|f frames IH] using rev_ind; [constructor|].
  rewrite group_snoc. apply setitem_keyed, IH.
Qed.

(** X7: the cars of an assembled frame are those of one sample per driver of
    the window, listed in the order in which the drivers first appear in
    the window; there are as many cars as distinct drivers, never more than
    samples. *)
Theorem cars_in_order_of_first_appearance (now : Float64.t)
    (window_frames : list TelemetryFrame) :
  let frame := build_replay_frame now window_frames in
  exists kept : list TelemetryFrame,
    cars frame = map car_position kept /\
    map driver_id kept = first_occurrences (map driver_id window_frames) /\
    incl kept window_frames /\
    NoDup (map driver_id kept) /\
    (length (cars frame) <= length window_frames)%nat.
Proof.
  cbv zeta. exists (Py.values (group_frames_by_driver window_frames)).
  assert (Hk : map driver_id (Py.values (group_frames_by_driver window_frames))
               = Py.keys (group_frames_by_driver window_frames)).
  { unfold Py.values, Py.keys. rewrite map_map. apply map_ext_Forall.
    apply group_keyed. }
  split; [apply build_replay_frame_cars|].
  split; [rewrite Hk; apply group_keys_order|].
  split; [intros v Hv; apply group_values_in, Hv|].
  split; [rewrite Hk; apply group_keys_nodup | apply length_cars].
Qed.

(** * The query functions *)

(** ** Filtering a stably sorted list *)

Section FilterSort.

Context {A : Type} (leb : A -> A -> bool) (p : A -> bool).
Hypothesis leb_total : forall a b, leb a b = false -> leb b a = true.
Hypothesis leb_trans :
  forall a b c, leb a b = true -> leb b c = true -> leb a c = true.

Lemma insert_by_least (a : A) (l : list A) :
  Forall (holds leb a) l -> Py.insert_by leb a l = a :: l.
Proof.
  intro H. destruct l as [|b l]; [reflexivity|].
  inversion H as [|? ? Hab _]; subst. cbn. unfold holds in Hab.
  rewrite Hab. reflexivity.
Qed.

Lemma filter_insert_by (a : A) (l : list A) :
  StronglySorted (holds leb) l ->
  filter p (Py.insert_by leb a l)
  = if p a then Py.insert_by leb a (filter p l) else filter p l.
Proof.
  induction 1 as [|b l Hs IH Hb]; [cbn; destruct (p a); reflexivity|].
  cbn [Py.insert_by]. destruct (leb a b) eqn:E.
  - cbn [filter]. destruct (p a) eqn:Ea; [|reflexivity].
    symmetry. apply (insert_by_least a (filter p (b :: l))).
    apply Forall_forall. intros c Hc. apply filter_In in Hc.
    destruct Hc as [[<- | Hc] _]; [exact E|].
    rewrite Forall_forall in Hb. exact (leb_trans _ _ _ E (Hb c Hc)).
  - cbn [filter]. rewrite IH. destruct (p b) eqn:Eb; [|reflexivity].
    destruct (p a); [|reflexivity]. cbn [Py.insert_by]. rewrite E. reflexivity.
Qed.

(** Filtering after the sort is sorting after the filter. *)
Lemma filter_sort_by (l : list A) :
  filter p (Py.sort_by leb l) = Py.sort_by leb (filter p l).
Proof.
  induction l as [|a l IH]; [reflexivity|].
  change (Py.sort_by leb (a :: l)) with (Py.insert_by leb a (Py.sort_by leb l)).
  rewrite filter_insert_by by (apply sort_by_sorted; assumption).
  rewrite IH. cbn [filter]. destruct (p a); reflexivity.
Qed.

End FilterSort.

Lemma insert_by_ext {A : Type} (leb leb' : A -> A -> bool) (a : A) (l : list A) :
  Forall (fun b => leb a b = leb' a b) l ->
  Py.insert_by leb a l = Py.insert_by leb' a l.
Proof.
  induction 1 as [|b l Hb _ IH]; [reflexivity|].
  cbn. rewrite Hb, IH. reflexivity.
Qed.

(** Two comparisons that agree on the elements of a list sort it alike. *)
Lemma sort_by_ext {A : Type} (leb leb' : A -> A -> bool) (l : list A) :
  (forall a b, In a l -> In b l -> leb a b = leb' a b) ->
  Py.sort_by leb l = Py.sort_by leb' l.
Proof.
  induction l as [|a l IH]; intro H; [reflexivity|].
  change (Py.sort_by leb (a :: l)) with (Py.insert_by leb a (Py.sort_by leb l)).
  change (Py.sort_by leb' (a :: l)) with (Py.insert_by leb' a (Py.sort_by leb' l)).
  rewrite <- IH by (intros x y Hx Hy; apply H; right; assumption).
  apply insert_by_ext. apply Forall_forall. intros b Hb.
  apply sort_by_In in Hb. apply H; [left; reflexivity | right; exact Hb].
Qed.

Lemma length_sort_by {A : Type} (leb : A -> A -> bool) (l : list A) :
  length (Py.sort_by leb l) = length l.
Proof. apply Permutation_length, sort_by_perm. Qed.

(** ** Orders of the queries *)

Lemma Z_leb_key_total {A : Type} (key : A -> Z) (a b : A) :
  Z.leb (key a) (key b) = false -> Z.leb (key b) (key a) = true.
Proof. rewrite Z.leb_gt, Z.leb_le. lia. Qed.

Lemma Z_leb_key_trans {A : Type} (key : A -> Z) (a b c : A) :
  Z.leb (key a) (key b) = true -> Z.leb (key b) (key c) = true ->
  Z.leb (key a) (key c) = true.
Proof. rewrite !Z.leb_le. lia. Qed.

Lemma position_leb_iff (a b : Result.t) :
  RaceQueries.position_leb a b = true <-> QuerySpec.position_le a b.
Proof.
  unfold RaceQueries.position_leb, QuerySpec.position_le.
  destruct (Result.position a), (Result.position b);
    rewrite ?Z.leb_le; intuition congruence.
Qed.

Lemma position_leb_total (a b : Result.t) :
  RaceQueries.position_leb a b = false -> RaceQueries.position_leb b a = true.
Proof.
  unfold RaceQueries.position_leb.
  destruct (Result.position a), (Result.position b);
    rewrite ?Z.leb_gt, ?Z.leb_le; try congruence; lia.
Qed.

Lemma position_leb_trans (a b c : Result.t) :
  RaceQueries.position_leb a b = true -> RaceQueries.position_leb b c = true ->
  RaceQueries.position_leb a c = true.
Proof.
  unfold RaceQueries.position_leb.
  destruct (Result.position a), (Result.position b), (Result.position c);
    rewrite ?Z.leb_le; try congruence; lia.
Qed.

Lemma race_results_sorted (db : RaceQueries.Store) (session_id : Z) :
  StronglySorted QuerySpec.position_le
    (RaceQueries.get_race_results db session_id).
Proof.
  unfold RaceQueries.get_race_results.
  apply (sorted_weaken (holds RaceQueries.position_leb));
    [intros a b; apply position_leb_iff|].
  apply sort_by_sorted; [apply position_leb_total | apply position_leb_trans].
Qed.

(** X8: the classification of a session holds the result rows of the
    session, each once as stored, the classified rows first in ascending
    position and the rows without a position after them. *)
Theorem race_results_classified_first (db : RaceQueries.Store) (session_id : Z) :
  let rows := RaceQueries.get_race_results db session_id in
  StronglySorted QuerySpec.position_le rows /\
  Permutation rows
    (filter (fun r => Z.eqb (Result.session_id r) session_id)
            (RaceQueries.results db)) /\
  (forall r, In r rows <->
     In r (RaceQueries.results db) /\ Result.session_id r = session_id) /\
  (forall pre r post, rows = pre ++ r :: post -> Result.position r = None ->
     Forall (fun r' => Result.position r' = None) post).
Proof.
  cbv zeta. unfold RaceQueries.get_race_results.
  pose proof (race_results_sorted db session_id) as Hsorted.
  unfold RaceQueries.get_race_results in Hsorted.
  split; [exact Hsorted|]. split; [apply sort_by_perm|]. split.
  - intro r. rewrite sort_by_In, filter_In, Z.eqb_eq. tauto.
  - intros pre r post Heq Hnone. rewrite Heq in Hsorted.
    clear Heq. induction pre as [|x pre IH].
    + cbn in Hsorted. inversion Hsorted as [|? ? _ Hall]; subst.
      eapply Forall_impl; [|exact Hall]. intros r' Hle.
      unfold QuerySpec.position_le in Hle. rewrite Hnone in Hle.
      destruct (Result.position r'); [destruct Hle | reflexivity].
    + apply IH. cbn in Hsorted. inversion Hsorted; assumption.
Qed.

(** ** Laps *)

Lemma laps_where_In (db : RaceQueries.Store) (session_id driver_id : Z)
    (lap_range : option (Z * Z)) (l : Lap.t) :
  In l (RaceQueries.laps_where db session_id driver_id lap_range) <->
  In l (RaceQueries.laps db) /\ Lap.session_id l = session_id /\
  Lap.driver_id l = driver_id /\
  match lap_range with
  | Some (a, b) => (a <= Lap.lap_number l <= b)%Z
  | None => True
  end.
Proof.
  unfold RaceQueries.laps_where. destruct lap_range as [[a b]|];
    rewrite !filter_In, ?Z.eqb_eq, ?Z.leb_le; tauto.
Qed.

Lemma driver_laps_sorted (db : RaceQueries.Store) (session_id driver_id : Z)
    (lap_range : option (Z * Z)) :
  StronglySorted QuerySpec.lap_number_le
    (RaceQueries.get_driver_laps db session_id driver_id lap_range).
Proof.
  unfold RaceQueries.get_driver_laps.
  apply (sorted_weaken (holds RaceQueries.lap_number_leb)).
  - intros a b. unfold holds, RaceQueries.lap_number_leb, QuerySpec.lap_number_le.
    apply Z.leb_le.
  - apply sort_by_sorted;
      [apply (Z_leb_key_total Lap.lap_number)
      | apply (Z_leb_key_trans Lap.lap_number)].
Qed.

(** X9: [get_laps] answers with the laps of the driver in the race's main
    session in ascending lap number; with both bounds given these are the
    laps within the bounds (none when the bounds are reversed), with one
    bound missing the other is ignored and all laps are returned.  A failed
    lookup, of the session or of the driver, is a 404 that names the race. *)
Theorem laps_of_driver_within_bounds (upper : string -> string)
    (db : RaceQueries.Store) (race_id : Z) (driver_code : string)
    (lap_start lap_end : option Z) :
  match TelemetryRouter.get_laps upper db race_id driver_code lap_start lap_end with
  | inr e =>
      e = Errors.race_not_found race_id /\
      ((exists e', RaceQueries.get_race_main_session db race_id = inr e') \/
       (exists e', RaceQueries.get_driver_by_code upper db driver_code = inr e'))
  | inl laps =>
      exists session driver rows,
        RaceQueries.get_race_main_session db race_id = inl session /\
        RaceQueries.get_driver_by_code upper db driver_code = inl driver /\
        laps = map LapSchema.model_validate rows /\
        StronglySorted QuerySpec.lap_number_le rows /\
        (forall l, In l rows <->
           In l (RaceQueries.laps db) /\
           Lap.session_id l = session_pk session /\
           Lap.driver_id l = driver_pk driver /\
           QuerySpec.within_bounds lap_start lap_end l)
  end.
Proof.
  unfold TelemetryRouter.get_laps.
  destruct (RaceQueries.get_race_main_session db race_id) as [session|e];
    [|split; [reflexivity | left; exists e; reflexivity]].
  destruct (RaceQueries.get_driver_by_code upper db driver_code) as [driver|e];
    [|split; [reflexivity | right; exists e; reflexivity]].
  exists session, driver.
  eexists. split; [reflexivity|]. split; [reflexivity|].
  split; [reflexivity|]. split; [apply driver_laps_sorted|].
  intro l. unfold RaceQueries.get_driver_laps.
  rewrite sort_by_In, laps_where_In. unfold QuerySpec.within_bounds.
  destruct lap_start, lap_end; tauto.
Qed.

Lemma length_filter_filter {A : Type} (p q : A -> bool) (l : list A) :
  (length (filter p (filter q l)) <= length (filter p l))%nat.
Proof.
  induction l as [|a l IH]; [cbn; lia|].
  cbn [filter]. destruct (q a), (p a) eqn:Ep; cbn [filter length];
    rewrite ?Ep; cbn [length]; lia.
Qed.

Lemma filter_filter_implied {A : Type} (p q : A -> bool) (l : list A) :
  Forall (fun a => p a = true -> q a = true) l ->
  filter p (filter q l) = filter p l.
Proof.
  induction 1 as [|a l Ha _ IH]; [reflexivity|].
  cbn [filter]. destruct (p a) eqn:Ep.
  - rewrite (Ha eq_refl). cbn [filter]. rewrite Ep, IH. reflexivity.
  - destruct (q a); cbn [filter]; rewrite ?Ep; exact IH.
Qed.

(** X10: the pit stops counted for a driver are the pit laps among the
    driver's laps, and they are apart from the laps that enter the lap
    statistics: together they never exceed the driver's laps, and they make
    up all of them when every lap outside the pits has a time. *)
Theorem pit_stops_apart_from_counted_laps (db : RaceQueries.Store)
    (session_id driver_id : Z) :
  let all := RaceQueries.get_driver_laps db session_id driver_id None in
  let pit_stops := RaceQueries.count_pit_stops db session_id driver_id in
  let counted :=
    RaceQueries.total_laps
      (RaceQueries.get_lap_statistics db session_id driver_id None) in
  pit_stops = Z.of_nat (length (filter Lap.is_pit_lap all)) /\
  (pit_stops + counted <= Z.of_nat (length all))%Z /\
  (Forall (fun l => Lap.is_pit_lap l = false -> Lap.lap_time_sec l <> None) all ->
   (pit_stops + counted)%Z = Z.of_nat (length all)).
Proof.
  cbv zeta.
  unfold RaceQueries.get_driver_laps, RaceQueries.count_pit_stops,
    RaceQueries.get_lap_statistics, RaceQueries.timed_laps,
    RaceQueries.laps_where.
  cbn [RaceQueries.total_laps].
  set (base := filter (fun l => Z.eqb (Lap.driver_id l) driver_id)
                 (filter (fun l => Z.eqb (Lap.session_id l) session_id)
                    (RaceQueries.laps db))).
  set (timed := fun l : Lap.t =>
                  match Lap.lap_time_sec l with Some _ => true | None => false end).
  assert (Hpit : filter (fun l => Bool.eqb (Lap.is_pit_lap l) true) base
                 = filter Lap.is_pit_lap base).
  { apply filter_ext. intro l. destruct (Lap.is_pit_lap l); reflexivity. }
  assert (Hnot : forall ls,
             filter (fun l => Bool.eqb (Lap.is_pit_lap l) false) ls
             = filter (fun l => negb (Lap.is_pit_lap l)) ls).
  { intro ls. apply filter_ext. intro l. destruct (Lap.is_pit_lap l); reflexivity. }
  rewrite Hpit, Hnot.
  rewrite (filter_sort_by RaceQueries.lap_number_leb Lap.is_pit_lap
             (Z_leb_key_total Lap.lap_number)
             (Z_leb_key_trans Lap.lap_number)).
  rewrite !length_sort_by.
  pose proof (filter_length Lap.is_pit_lap base) as Hsplit.
  split; [reflexivity|]. split.
  - pose proof (length_filter_filter (fun l => negb (Lap.is_pit_lap l))
                  timed base) as Hle.
    lia.
  - intro Hall.
    assert (Hbase : Forall (fun l => Lap.is_pit_lap l = false ->
                                     Lap.lap_time_sec l <> None) base).
    { eapply Permutation_Forall; [apply sort_by_perm | exact Hall]. }
    rewrite (filter_filter_implied (fun l => negb (Lap.is_pit_lap l)) timed base).
    + lia.
    + eapply Forall_impl; [|exact Hbase]. intros l Hl Hp. unfold timed.
      apply negb_true_iff in Hp.
      cbn beta in Hl.
      destruct (Lap.lap_time_sec l); [reflexivity | exfalso; exact (Hl Hp eq_refl)].
Qed.

Lemma pit_stops_apart_from_counted_laps_witness :
  Forall (fun l => Lap.is_pit_lap l = false -> Lap.lap_time_sec l <> None)
         (RaceQueries.get_driver_laps RaceExamples.store 1 1 None) /\
  (RaceQueries.count_pit_stops RaceExamples.store 1 1
   + RaceQueries.total_laps
       (RaceQueries.get_lap_statistics RaceExamples.store 1 1 None))%Z
  = 3%Z.
Proof.
  assert (H : Forall (fun l => Lap.is_pit_lap l = false ->
                               Lap.lap_time_sec l <> None)
                (RaceQueries.get_driver_laps RaceExamples.store 1 1 None))
    by (repeat constructor; cbn; discriminate).
  split; [exact H|].
  destruct (pit_stops_apart_from_counted_laps RaceExamples.store 1 1)
    as (_ & _ & Heq).
  rewrite (Heq H). reflexivity.
Defined.

(** ** Lap statistics *)


Lemma float_if_truthy_some (x : option Q) (v : Q) :
  RaceQueries.float_if_truthy x = Some v -> x = Some v /\ ~ v == 0.
Proof.
  destruct x as [w|]; cbn; [|discriminate].
  destruct (Qeq_bool w 0) eqn:E; [discriminate|].
  intro H. inversion H; subst. split; [reflexivity|].
  intro H0. apply Qeq_bool_iff in H0. congruence.
Qed.

Lemma timed_laps_In (db : RaceQueries.Store) (session_id driver_id : Z)
    (lap_range : option (Z * Z)) (l : Lap.t) :
  In l (RaceQueries.timed_laps db session_id driver_id lap_range) <->
  In l (RaceQueries.laps db) /\ Lap.session_id l = session_id /\
  Lap.driver_id l = driver_id /\
  Lap.lap_time_sec l <> None /\ Lap.is_pit_lap l = false /\
  match lap_range with
  | Some (a, b) => (a <= Lap.lap_number l <= b)%Z
  | None => True
  end.
Proof.
  unfold RaceQueries.timed_laps.
  assert (Ht : (match Lap.lap_time_sec l with Some _ => true | None => false end) = true
               <-> Lap.lap_time_sec l <> None)
    by (destruct (Lap.lap_time_sec l); split; congruence).
  assert (Hp : Bool.eqb (Lap.is_pit_lap l) false = true <-> Lap.is_pit_lap l = false)
    by (destruct (Lap.is_pit_lap l); cbn; split; congruence).
  destruct lap_range as [[a b]|];
    rewrite !filter_In, ?Z.eqb_eq, ?Z.leb_le, Ht, Hp; tauto.
Qed.

Lemma column_In {A B : Type} (f : A -> option B) (rows : list A) (v : B) :
  In v (RaceQueries.column f rows) <-> exists r, In r rows /\ f r = Some v.
Proof.
  unfold RaceQueries.column. rewrite in_flat_map. split.
  - intros (r & Hr & Hv). exists r. split; [exact Hr|].
    destruct (f r); [destruct Hv as [<- | []]; reflexivity | destruct Hv].
  - intros (r & Hr & Hv). exists r. split; [exact Hr|].
    rewrite Hv. left. reflexivity.
Qed.

(** X11: the lap statistics of a driver are taken over the driver's timed
    laps outside the pits, within the lap range when one is given:
    [total_laps] is their number, each stored row counted once; without
    such a lap all three times are
    absent; a fastest (slowest) time that is reported is the time of one of
    these laps, is not zero, and no such lap is faster (slower). *)
Theorem lap_statistics_over_timed_laps (db : RaceQueries.Store)
    (session_id driver_id : Z) (lap_range : option (Z * Z)) :
  let stats := RaceQueries.get_lap_statistics db session_id driver_id lap_range in
  let counted l :=
    In l (RaceQueries.laps db) /\ Lap.session_id l = session_id /\
    Lap.driver_id l = driver_id /\
    Lap.lap_time_sec l <> None /\ Lap.is_pit_lap l = false /\
    match lap_range with
    | Some (a, b) => (a <= Lap.lap_number l <= b)%Z
    | None => True
    end in
  (exists rows,
     RaceQueries.total_laps stats = Z.of_nat (length rows) /\
     (forall l, In l rows <-> counted l) /\
     (NoDup (RaceQueries.laps db) -> NoDup rows)) /\
  ((forall l, ~ counted l) ->
   RaceQueries.total_laps stats = 0%Z /\
   RaceQueries.avg_lap_time stats = None /\
   RaceQueries.min_lap_time stats = None /\
   RaceQueries.max_lap_time stats = None) /\
  (forall m, RaceQueries.min_lap_time stats = Some m ->
     ~ m == 0 /\
     (exists l, counted l /\ Lap.lap_time_sec l = Some m) /\
     (forall l v, counted l -> Lap.lap_time_sec l = Some v -> m <= v)) /\
  (forall m, RaceQueries.max_lap_time stats = Some m ->
     ~ m == 0 /\
     (exists l, counted l /\ Lap.lap_time_sec l = Some m) /\
     (forall l v, counted l -> Lap.lap_time_sec l = Some v -> v <= m)).
Proof.
  cbv zeta. unfold RaceQueries.get_lap_statistics.
  cbn [RaceQueries.total_laps RaceQueries.avg_lap_time
       RaceQueries.min_lap_time RaceQueries.max_lap_time].
  set (rows := RaceQueries.timed_laps db session_id driver_id lap_range).
  assert (Hrows : forall l, In l rows <->
            In l (RaceQueries.laps db) /\ Lap.session_id l = session_id /\
            Lap.driver_id l = driver_id /\
            Lap.lap_time_sec l <> None /\ Lap.is_pit_lap l = false /\
            match lap_range with
            | Some (a, b) => (a <= Lap.lap_number l <= b)%Z
            | None => True
            end)
    by (intro l; apply timed_laps_In).
  split; [|split; [|split]].
  - exists rows. split; [reflexivity|]. split; [exact Hrows|].
    intro Hnd. unfold rows, RaceQueries.timed_laps.
    destruct lap_range as [[a b]|]; repeat apply NoDup_filter; exact Hnd.
  - intro Hnone. assert (Hnil : rows = []).
    { destruct rows as [|l rows']; [reflexivity|].
      exfalso. apply (Hnone l), Hrows. left. reflexivity. }
    rewrite Hnil. cbn. repeat split.
  - intros m Hm. apply float_if_truthy_some in Hm. destruct Hm as [Hm Hnz].
    split; [exact Hnz|]. unfold RaceQueries.sql_min in Hm.
    destruct (RaceQueries.column Lap.lap_time_sec rows) as [|v vs] eqn:Ecol;
      [discriminate|].
    inversion Hm; subst m. split.
    + pose proof (min_of_in vs v) as Hin. rewrite <- Ecol in Hin.
      apply column_In in Hin. destruct Hin as (l & Hl & Hv).
      exists l. split; [apply Hrows, Hl | exact Hv].
    + intros l w Hl Hw.
      assert (Hin : In w (v :: vs)).
      { rewrite <- Ecol. apply column_In. exists l.
        split; [apply Hrows, Hl | exact Hw]. }
      destruct Hin as [<- | Hin]; [apply min_of_le_start|].
      pose proof (min_of_le_all vs v) as Hall. rewrite Forall_forall in Hall.
      apply Hall, Hin.
  - intros m Hm. apply float_if_truthy_some in Hm. destruct Hm as [Hm Hnz].
    split; [exact Hnz|]. unfold RaceQueries.sql_max in Hm.
    destruct (RaceQueries.column Lap.lap_time_sec rows) as [|v vs] eqn:Ecol;
      [discriminate|].
    inversion Hm; subst m. split.
    + pose proof (max_of_in vs v) as Hin. rewrite <- Ecol in Hin.
      apply column_In in Hin. destruct Hin as (l & Hl & Hv).
      exists l. split; [apply Hrows, Hl | exact Hv].
    + intros l w Hl Hw.
      assert (Hin : In w (v :: vs)).
      { rewrite <- Ecol. apply column_In. exists l.
        split; [apply Hrows, Hl | exact Hw]. }
      destruct Hin as [<- | Hin]; [apply max_of_ge_start|].
      pose proof (max_of_ge_all vs v) as Hall. rewrite Forall_forall in Hall.
      apply Hall, Hin.
Qed.

(** * The race endpoints *)

Lemma podium_fold (l : list Result.t) (acc : list PodiumDriverSchema.t) :
  fold_left (fun podium result =>
               if RacesRouter.on_podium result
               then podium ++ [RacesRouter.podium_entry result]
               else podium) l acc
  = acc ++ map RacesRouter.podium_entry (filter RacesRouter.on_podium l).
Proof.
  revert acc. induction l as [|r l IH]; intro acc; cbn [fold_left filter].
  - cbn. rewrite app_nil_r. reflexivity.
  - rewrite IH. destruct (RacesRouter.on_podium r); [|reflexivity].
    cbn [map]. rewrite <- app_assoc. reflexivity.
Qed.

Lemma summary_inv (db : RaceQueries.Store) (race_id : Z)
    (summary : RaceSummarySchema.t) :
  RacesRouter.get_race_summary db race_id = inl summary ->
  exists race session,
    RaceQueries.get_race_by_id db race_id = inl race /\
    RaceQueries.get_race_main_session db race_id = inl session /\
    let results := RaceQueries.get_race_results db (session_pk session) in
    RaceSummarySchema.race_id summary = Race.id race /\
    RaceSummarySchema.winner summary
    = match results with
      | first :: _ =>
          if RacesRouter.is_winner first
          then Some {| WinnerSchema.driver_code := code (Result.driver first);
                       WinnerSchema.driver_name := full_name (Result.driver first);
                       WinnerSchema.team := Team.short_name (Result.team first) |}
          else None
      | [] => None
      end /\
    RaceSummarySchema.podium summary
    = map RacesRouter.podium_entry
          (filter RacesRouter.on_podium (firstn 3 results)) /\
    RaceSummarySchema.total_drivers summary = Z.of_nat (length results) /\
    RaceSummarySchema.finished_drivers summary
    = Z.of_nat (length (filter RacesRouter.is_finished results)) /\
    RaceSummarySchema.dnf_count summary
    = Z.of_nat (length (filter RacesRouter.is_dnf results)).
Proof.
  unfold RacesRouter.get_race_summary.
  destruct (RaceQueries.get_race_by_id db race_id) as [race|e]; [|discriminate].
  destruct (RaceQueries.get_race_main_session db race_id) as [session|e];
    [|discriminate].
  intro H. inversion H; subst summary; clear H.
  exists race, session. split; [reflexivity|]. split; [reflexivity|].
  cbv zeta.
  cbn [RaceSummarySchema.race_id RaceSummarySchema.winner
       RaceSummarySchema.podium RaceSummarySchema.total_drivers
       RaceSummarySchema.finished_drivers RaceSummarySchema.dnf_count].
  split; [reflexivity|]. split; [reflexivity|].
  split; [apply (podium_fold _ [])|]. repeat split.
Qed.

Lemma status_in_one_class (r : Result.t) :
  (Nat.b2n (RacesRouter.is_finished r) + Nat.b2n (RacesRouter.is_dnf r)
   + Nat.b2n (QuerySpec.is_lapped r) = 1)%nat.
Proof.
  unfold RacesRouter.is_finished, RacesRouter.is_dnf, QuerySpec.is_lapped,
    PyStr.member.
  cbn [existsb].
  destruct (String.eqb_spec (Result.final_status r) "Finished") as [->|H1];
    [reflexivity|].
  destruct (String.eqb_spec (Result.final_status r) "+1 Lap") as [->|H2];
    [reflexivity|].
  destruct (String.eqb_spec (Result.final_status r) "+2 Laps") as [->|H3];
    [reflexivity|].
  cbn [orb negb]. rewrite orb_true_r. reflexivity.
Qed.

Lemma three_way_count {A : Type} (p q r : A -> bool) (l : list A) :
  (forall a, (Nat.b2n (p a) + Nat.b2n (q a) + Nat.b2n (r a) = 1)%nat) ->
  (length (filter p l) + length (filter q l) + length (filter r l)
   = length l)%nat.
Proof.
  intro H. induction l as [|a l IH]; [reflexivity|].
  cbn [filter]. specialize (H a).
  destruct (p a), (q a), (r a); cbn [Nat.b2n length] in *; lia.
Qed.

(** X12: in a race summary every classified driver is counted in exactly one
    of three groups: finished, not finished ([dnf_count]), or one or two
    laps down; [finished_drivers] and [dnf_count] never count a driver
    twice, and with the lapped drivers they add up to [total_drivers]. *)
Theorem summary_counts_partition (db : RaceQueries.Store) (race_id : Z)
    (summary : RaceSummarySchema.t) :
  RacesRouter.get_race_summary db race_id = inl summary ->
  exists session,
    RaceQueries.get_race_main_session db race_id = inl session /\
    let results := RaceQueries.get_race_results db (session_pk session) in
    (RaceSummarySchema.finished_drivers summary
     + RaceSummarySchema.dnf_count summary
     + Z.of_nat (length (filter QuerySpec.is_lapped results))
     = RaceSummarySchema.total_drivers summary)%Z /\
    RaceSummarySchema.total_drivers summary = Z.of_nat (length results) /\
    (forall r, In r results ->
       RacesRouter.is_dnf r = true <->
       Result.final_status r <> "Finished"%string /\
       Result.final_status r <> "+1 Lap"%string /\
       Result.final_status r <> "+2 Laps"%string).
Proof.
  intro H. destruct (summary_inv db race_id summary H)
    as (race & session & _ & Hs & Hsum).
  cbv zeta in Hsum. destruct Hsum as (_ & _ & _ & Htot & Hfin & Hdnf).
  exists session. split; [exact Hs|]. cbv zeta.
  rewrite Hfin, Hdnf, Htot. split; [|split; [reflexivity|]].
  - pose proof (three_way_count RacesRouter.is_finished RacesRouter.is_dnf
                  QuerySpec.is_lapped
                  (RaceQueries.get_race_results db (session_pk session))
                  status_in_one_class).
    lia.
  - intros r _. pose proof (status_in_one_class r) as Hone.
    unfold RacesRouter.is_finished, QuerySpec.is_lapped in Hone.
    destruct (String.eqb_spec (Result.final_status r) "Finished");
      destruct (String.eqb_spec (Result.final_status r) "+1 Lap");
      destruct (String.eqb_spec (Result.final_status r) "+2 Laps");
      destruct (RacesRouter.is_dnf r); cbn in Hone;
      split; try discriminate; try lia; try tauto; intuition congruence.
Qed.

Lemma summary_counts_partition_witness :
  (exists summary,
     RacesRouter.get_race_summary RaceExamples.store 7 = inl summary) /\
  (forall summary,
     RacesRouter.get_race_summary RaceExamples.store 7 = inl summary ->
     RaceSummarySchema.total_drivers summary = 2%Z).
Proof.
  split; [eexists; reflexivity|].
  intros summary H.
  destruct (summary_counts_partition RaceExamples.store 7 summary H)
    as (session & Hs & _ & Htot & _).
  cbv in Hs. inversion Hs; subst session. rewrite Htot. reflexivity.
Defined.

Lemma sorted_firstn {A : Type} (R : A -> A -> Prop) (n : nat) (l : list A) :
  StronglySorted R l -> StronglySorted R (firstn n l).
Proof.
  intro H. revert n. induction H as [|a l Hs IH Ha]; intro n.
  - rewrite firstn_nil. constructor.
  - destruct n as [|n]; [constructor|]. cbn. constructor; [apply IH|].
    apply Forall_prefix, Ha.
Qed.

Lemma podium_positions_sorted (l : list Result.t) :
  StronglySorted QuerySpec.position_le l ->
  StronglySorted Z.le
    (map PodiumDriverSchema.position
         (map RacesRouter.podium_entry (filter RacesRouter.on_podium l))).
Proof.
  induction 1 as [|a l Hs IH Ha]; [constructor|].
  cbn [filter]. destruct (RacesRouter.on_podium a) eqn:Ea; [|exact IH].
  cbn [map]. constructor; [exact IH|].
  apply Forall_forall. intros z Hz. rewrite map_map in Hz.
  apply in_map_iff in Hz. destruct Hz as (b & <- & Hb).
  apply filter_In in Hb. destruct Hb as [Hb Eb].
  rewrite Forall_forall in Ha. specialize (Ha b Hb).
  unfold QuerySpec.position_le in Ha.
  unfold RacesRouter.on_podium in Ea, Eb. unfold RacesRouter.podium_entry.
  cbn [PodiumDriverSchema.position].
  destruct (Result.position a), (Result.position b); try discriminate.
  exact Ha.
Qed.

(** X13: the podium of a race summary is drawn from the first three rows of
    the classification: it has at most three entries, in ascending
    position, each with a position that is not zero and at most 3; when the
    summary names a winner, the winner is the first podium entry, with
    position 1. *)
Theorem summary_podium (db : RaceQueries.Store) (race_id : Z)
    (summary : RaceSummarySchema.t) :
  RacesRouter.get_race_summary db race_id = inl summary ->
  let podium := RaceSummarySchema.podium summary in
  (length podium <= 3)%nat /\
  Forall (fun entry => PodiumDriverSchema.position entry <> 0%Z
                       /\ (PodiumDriverSchema.position entry <= 3)%Z) podium /\
  StronglySorted Z.le (map PodiumDriverSchema.position podium) /\
  (forall entry, In entry podium ->
     exists session r,
       RaceQueries.get_race_main_session db race_id = inl session /\
       In r (firstn 3 (RaceQueries.get_race_results db (session_pk session))) /\
       Result.position r = Some (PodiumDriverSchema.position entry) /\
       PodiumDriverSchema.driver_code entry = code (Result.driver r)) /\
  (forall w, RaceSummarySchema.winner summary = Some w ->
     exists rest,
       podium = {| PodiumDriverSchema.position := 1;
                   PodiumDriverSchema.driver_code := WinnerSchema.driver_code w;
                   PodiumDriverSchema.driver_name := WinnerSchema.driver_name w;
                   PodiumDriverSchema.team := WinnerSchema.team w |} :: rest).
Proof.
  intro H. destruct (summary_inv db race_id summary H)
    as (race & session & _ & Hs & Hsum).
  cbv zeta in Hsum. destruct Hsum as (_ & Hwin & Hpod & _).
  cbv zeta. rewrite Hpod.
  set (results := RaceQueries.get_race_results db (session_pk session)) in *.
  split; [|split; [|split; [|split]]].
  - rewrite length_map.
    pose proof (filter_length_le RacesRouter.on_podium (firstn 3 results)).
    pose proof (firstn_le_length 3 results). lia.
  - apply Forall_forall. intros entry He. apply in_map_iff in He.
    destruct He as (r & <- & Hr). apply filter_In in Hr. destruct Hr as [_ Hr].
    unfold RacesRouter.on_podium in Hr. unfold RacesRouter.podium_entry.
    cbn [PodiumDriverSchema.position].
    destruct (Result.position r) as [p|]; [|discriminate].
    apply andb_true_iff in Hr. destruct Hr as [Hnz Hle].
    apply negb_true_iff, Z.eqb_neq in Hnz. apply Z.leb_le in Hle. auto.
  - apply podium_positions_sorted, sorted_firstn.
    apply race_results_sorted.
  - intros entry He. apply in_map_iff in He.
    destruct He as (r & <- & Hr). apply filter_In in Hr. destruct Hr as [Hin Hr].
    exists session, r. split; [exact Hs|]. split; [exact Hin|].
    unfold RacesRouter.on_podium in Hr. unfold RacesRouter.podium_entry.
    cbn [PodiumDriverSchema.position PodiumDriverSchema.driver_code].
    destruct (Result.position r); [split; reflexivity | discriminate].
  - intros w Hw. rewrite Hwin in Hw.
    destruct results as [|first rest]; [discriminate|].
    destruct (RacesRouter.is_winner first) eqn:Ew; [|discriminate].
    inversion Hw; subst w; clear Hw.
    unfold RacesRouter.is_winner in Ew.
    destruct (Result.position first) as [p|] eqn:Ep; [|discriminate].
    apply Z.eqb_eq in Ew. subst p.
    cbn [firstn filter]. unfold RacesRouter.on_podium at 1. rewrite Ep.
    cbn [Z.eqb negb andb Z.leb Z.compare Pos.compare Pos.compare_cont map].
    eexists. unfold RacesRouter.podium_entry at 1. rewrite Ep. reflexivity.
Qed.

Lemma summary_podium_witness :
  (exists summary,
     RacesRouter.get_race_summary RaceExamples.store 7 = inl summary) /\
  (forall summary,
     RacesRouter.get_race_summary RaceExamples.store 7 = inl summary ->
     (length (RaceSummarySchema.podium summary) <= 3)%nat).
Proof.
  split; [eexists; reflexivity|].
  intros summary H.
  apply (summary_podium RaceExamples.store 7 summary H).
Defined.

Lemma get_race_by_id_found (db : RaceQueries.Store) (race_id : Z) :
  match RaceQueries.get_race_by_id db race_id with
  | inl race => In race (RaceQueries.races db) /\ Race.id race = race_id
  | inr e =>
      e = Errors.RaceNotFoundException race_id /\
      forall race, In race (RaceQueries.races db) -> Race.id race <> race_id
  end.
Proof.
  unfold RaceQueries.get_race_by_id.
  destruct (find _ (RaceQueries.races db)) as [race|] eqn:E.
  - apply find_some in E. rewrite Z.eqb_eq in E. exact E.
  - split; [reflexivity|]. intros race Hin.
    apply (find_none _ _ E) in Hin. apply Z.eqb_neq. exact Hin.
Qed.

(** X14: [get_race] fails only when no race has the requested id, with a
    404 that names the race; a failed lookup of the main session never
    fails it and only leaves [main_session_id] empty.  [get_race_summary]
    fails with the same 404 when the race or its main session cannot be
    looked up, and otherwise answers for the requested race. *)
Theorem race_endpoints_not_found (db : RaceQueries.Store) (race_id : Z) :
  match RacesRouter.get_race db race_id with
  | inr e =>
      e = Errors.race_not_found race_id /\
      forall race, In race (RaceQueries.races db) -> Race.id race <> race_id
  | inl detail =>
      RaceDetailSchema.id detail = race_id /\
      (exists race, In race (RaceQueries.races db) /\ Race.id race = race_id /\
                    RaceDetailSchema.name detail = Race.name race) /\
      match RaceDetailSchema.main_session_id detail with
      | Some sid =>
          exists session,
            RaceQueries.get_race_main_session db race_id = inl session /\
            session_pk session = sid /\ Models.race_id session = race_id
      | None => exists e, RaceQueries.get_race_main_session db race_id = inr e
      end
  end /\
  match RacesRouter.get_race_summary db race_id with
  | inr e =>
      e = Errors.race_not_found race_id /\
      ((forall race, In race (RaceQueries.races db) -> Race.id race <> race_id)
       \/ exists e', RaceQueries.get_race_main_session db race_id = inr e')
  | inl summary => RaceSummarySchema.race_id summary = race_id
  end.
Proof.
  unfold RacesRouter.get_race, RacesRouter.get_race_summary.
  pose proof (get_race_by_id_found db race_id) as Hrace.
  destruct (RaceQueries.get_race_by_id db race_id) as [race|e].
  - destruct Hrace as [Hin Hid]. split.
    + cbn [RaceDetailSchema.id RaceDetailSchema.name
           RaceDetailSchema.main_session_id].
      split; [exact Hid|]. split; [exists race; auto|].
      destruct (RaceQueries.get_race_main_session db race_id) as [session|e] eqn:Es.
      * exists session. split; [reflexivity|]. split; [reflexivity|].
        unfold RaceQueries.get_race_main_session,
          F1Queries.get_race_main_session in Es.
        destruct (filter _ (F1Queries.sessions (RaceQueries.core db)))
          as [|s [|s' rest]] eqn:Ef; try discriminate.
        inversion Es; subst s.
        assert (Hs : In session
                       (filter (fun s => Z.eqb (Models.race_id s) race_id
                                         && String.eqb (session_type s) "RACE")
                               (F1Queries.sessions (RaceQueries.core db))))
          by (rewrite Ef; left; reflexivity).
        apply filter_In in Hs. destruct Hs as [_ Hs].
        apply andb_true_iff in Hs. apply Z.eqb_eq. apply Hs.
      * exists e. reflexivity.
    + destruct (RaceQueries.get_race_main_session db race_id) as [session|e].
      * exact Hid.
      * split; [reflexivity|]. right. exists e. reflexivity.
  - destruct Hrace as [_ Hnone]. split.
    + split; [reflexivity | exact Hnone].
    + split; [reflexivity|]. left. exact Hnone.
Qed.

(** * The stints endpoint *)

Lemma stints_of_add_stint (d : Py.dict (list Stint.t)) (s : Stint.t) (k : Z) :
  TelemetryRouter.stints_of (TelemetryRouter.add_stint d s) k
  = TelemetryRouter.stints_of d k
    ++ (if Z.eqb (Stint.driver_id s) k then [s] else []).
Proof.
  unfold TelemetryRouter.add_stint, TelemetryRouter.stints_of.
  destruct (Py.get d (Stint.driver_id s)) as [l|] eqn:E.
  - rewrite E. destruct (Z.eqb_spec (Stint.driver_id s) k) as [<-|Hne].
    + rewrite get_setitem_same, E. reflexivity.
    + rewrite get_setitem_other by congruence. rewrite app_nil_r. reflexivity.
  - rewrite get_setitem_same.
    destruct (Z.eqb_spec (Stint.driver_id s) k) as [<-|Hne].
    + rewrite get_setitem_same, E. reflexivity.
    + rewrite !get_setitem_other by congruence. rewrite app_nil_r. reflexivity.
Qed.

(** The list kept for a driver is the driver's stints, in the order of the
    pass. *)
Lemma stints_of_grouped (all : list Stint.t) (k : Z) :
  forall d,
    TelemetryRouter.stints_of (fold_left TelemetryRouter.add_stint all d) k
    = TelemetryRouter.stints_of d k
      ++ filter (fun s => Z.eqb (Stint.driver_id s) k) all.
Proof.
  induction all as [|s all IH]; intro d; cbn [fold_left filter].
  - rewrite app_nil_r. reflexivity.
  - rewrite IH, stints_of_add_stint, <- app_assoc.
    destruct (Z.eqb (Stint.driver_id s) k); reflexivity.
Qed.

Lemma driver_stint_leb_total (a b : Stint.t) :
  RaceQueries.driver_stint_leb a b = false ->
  RaceQueries.driver_stint_leb b a = true.
Proof.
  unfold RaceQueries.driver_stint_leb.
  rewrite orb_false_iff, andb_false_iff, orb_true_iff, andb_true_iff,
    !Z.ltb_ge, !Z.ltb_lt, !Z.eqb_neq, !Z.eqb_eq, Z.leb_gt, Z.leb_le.
  lia.
Qed.

Lemma driver_stint_leb_trans (a b c : Stint.t) :
  RaceQueries.driver_stint_leb a b = true ->
  RaceQueries.driver_stint_leb b c = true ->
  RaceQueries.driver_stint_leb a c = true.
Proof.
  unfold RaceQueries.driver_stint_leb.
  rewrite !orb_true_iff, !andb_true_iff, !Z.ltb_lt, !Z.eqb_eq, !Z.leb_le.
  lia.
Qed.

(** The stints of one driver among the stints of the session are what the
    query for that driver returns. *)
Lemma session_stints_of_driver (db : RaceQueries.Store) (session_id driver_id : Z) :
  filter (fun s => Z.eqb (Stint.driver_id s) driver_id)
         (RaceQueries.get_all_session_stints db session_id)
  = RaceQueries.get_driver_stints db session_id driver_id.
Proof.
  unfold RaceQueries.get_all_session_stints, RaceQueries.get_driver_stints.
  rewrite (filter_sort_by RaceQueries.driver_stint_leb _
             driver_stint_leb_total driver_stint_leb_trans).
  apply sort_by_ext. intros a b Ha Hb.
  apply filter_In in Ha. apply filter_In in Hb.
  destruct Ha as [_ Ha]. destruct Hb as [_ Hb].
  apply Z.eqb_eq in Ha. apply Z.eqb_eq in Hb.
  unfold RaceQueries.driver_stint_leb, RaceQueries.stint_number_leb.
  rewrite Ha, Hb, Z.ltb_irrefl, Z.eqb_refl. reflexivity.
Qed.

Lemma response_fold {A B : Type} (f : A -> B) (l : list A) (acc : list B) :
  fold_left (fun response a => response ++ [f a]) l acc = acc ++ map f l.
Proof.
  revert acc. induction l as [|a l IH]; intro acc; cbn.
  - rewrite app_nil_r. reflexivity.
  - rewrite IH, <- app_assoc. reflexivity.
Qed.

(** X15: without a driver code (or with an empty one) [get_stints] answers
    with one entry per row of the classification, in its order, and the
    stints of each entry are exactly those the query for that one driver
    returns, in ascending stint number; a failed session lookup is a 404
    that names the race. *)
Theorem all_drivers_stints (upper : string -> string)
    (db : RaceQueries.Store) (race_id : Z) (driver_code : option string) :
  PyStr.truthy_opt driver_code = false ->
  match TelemetryRouter.get_stints upper db race_id driver_code with
  | inr e =>
      e = Errors.race_not_found race_id /\
      exists e', RaceQueries.get_race_main_session db race_id = inr e'
  | inl response =>
      exists session,
        RaceQueries.get_race_main_session db race_id = inl session /\
        response
        = map (QuerySpec.stints_entry db (session_pk session))
              (RaceQueries.get_race_results db (session_pk session))
  end.
Proof.
  intro Hcode. unfold TelemetryRouter.get_stints. rewrite Hcode.
  destruct (RaceQueries.get_race_main_session db race_id) as [session|e];
    [|split; [reflexivity | exists e; reflexivity]].
  exists session. split; [reflexivity|].
  rewrite (response_fold
             (fun result =>
                {| DriverStintsSchema.driver_code := code (Result.driver result);
                   DriverStintsSchema.driver_name := full_name (Result.driver result);
                   DriverStintsSchema.team := Team.short_name (Result.team result);
                   DriverStintsSchema.stints :=
                     map StintSchema.model_validate
                       (TelemetryRouter.stints_of
                          (fold_left TelemetryRouter.add_stint
                             (RaceQueries.get_all_session_stints db (session_pk session))
                             [])
                          (driver_pk (Result.driver result))) |})).
  cbn [app]. apply map_ext. intro result. unfold QuerySpec.stints_entry.
  rewrite stints_of_grouped. unfold TelemetryRouter.stints_of at 1.
  cbn [Py.get app]. rewrite session_stints_of_driver. reflexivity.
Qed.

Lemma all_drivers_stints_witness :
  PyStr.truthy_opt None = false /\
  TelemetryRouter.get_stints RaceExamples.ascii_upper RaceExamples.store 7 None
  = inl (map (QuerySpec.stints_entry RaceExamples.store 1)
             (RaceQueries.get_race_results RaceExamples.store 1)).
Proof.
  split; [reflexivity|].
  pose proof (all_drivers_stints RaceExamples.ascii_upper RaceExamples.store 7
                None eq_refl) as H.
  destruct (TelemetryRouter.get_stints RaceExamples.ascii_upper
              RaceExamples.store 7 None) as [response|e].
  - destruct H as (session & Hs & ->). cbv in Hs. inversion Hs. reflexivity.
  - destruct H as (_ & e' & He'). cbv in He'. discriminate He'.
Defined.

(** X16: with a driver code [get_stints] answers with a single entry for the
    driver found under the upper-cased code, holding the stints of the
    query for that driver.  When the classification has a row of the
    driver, the entry is the one the answer for all drivers holds for that
    row; when it has none, the team is reported as "Unknown" (and the
    answer for all drivers has no entry for the driver).  An unknown code
    is a 404 that names the code. *)
Theorem one_driver_stints (upper : string -> string)
    (db : RaceQueries.Store) (race_id : Z) (driver_code : string)
    (session : SessionModel) :
  PyStr.truthy_opt (Some driver_code) = true ->
  RaceQueries.get_race_main_session db race_id = inl session ->
  match TelemetryRouter.get_stints upper db race_id (Some driver_code) with
  | inr e =>
      e = Errors.driver_not_found driver_code /\
      exists e', RaceQueries.get_driver_by_code upper db driver_code = inr e'
  | inl response =>
      exists driver entry,
        RaceQueries.get_driver_by_code upper db driver_code = inl driver /\
        code driver = upper driver_code /\
        response = [entry] /\
        DriverStintsSchema.driver_code entry = code driver /\
        DriverStintsSchema.stints entry
        = map StintSchema.model_validate
              (RaceQueries.get_driver_stints db (session_pk session)
                 (driver_pk driver)) /\
        match find (fun r => Z.eqb (Result.driver_id r) (driver_pk driver))
                   (RaceQueries.get_race_results db (session_pk session)) with
        | Some r =>
            In r (RaceQueries.get_race_results db (session_pk session)) /\
            (Result.driver r = driver ->
             entry = QuerySpec.stints_entry db (session_pk session) r)
        | None => DriverStintsSchema.team entry = "Unknown"%string
        end
  end.
Proof.
  intros Hcode Hs. unfold TelemetryRouter.get_stints. rewrite Hs, Hcode.
  destruct (RaceQueries.get_driver_by_code upper db driver_code)
    as [driver|e] eqn:Hd;
    [|split; [reflexivity | exists e; reflexivity]].
  eexists driver, _. split; [reflexivity|]. split.
  - unfold RaceQueries.get_driver_by_code, RaceQueries.scalar_one_or_none in Hd.
    destruct (filter _ (RaceQueries.drivers db)) as [|d [|d' rest]] eqn:Ef;
      try discriminate.
    inversion Hd; subst d.
    assert (Hin : In driver
                    (filter (fun d => String.eqb (code d) (upper driver_code))
                            (RaceQueries.drivers db)))
      by (rewrite Ef; left; reflexivity).
    apply filter_In in Hin. apply String.eqb_eq. apply Hin.
  - split; [reflexivity|].
    cbn [DriverStintsSchema.driver_code DriverStintsSchema.stints
         DriverStintsSchema.team].
    split; [reflexivity|]. split; [reflexivity|].
    destruct (find _ (RaceQueries.get_race_results db (session_pk session)))
      as [r|] eqn:Ef; [|reflexivity].
    apply find_some in Ef. split; [apply Ef|].
    intros <-. reflexivity.
Qed.

Lemma one_driver_stints_witness :
  PyStr.truthy_opt (Some "ver"%string) = true /\
  RaceQueries.get_race_main_session RaceExamples.store 7
  = inl Examples.race_session /\
  exists entry,
    TelemetryRouter.get_stints RaceExamples.ascii_upper RaceExamples.store 7
      (Some "ver"%string) = inl [entry] /\
    DriverStintsSchema.driver_code entry = "VER"%string.
Proof.
  split; [reflexivity|]. split; [reflexivity|].
  pose proof (one_driver_stints RaceExamples.ascii_upper RaceExamples.store 7
                "ver" Examples.race_session eq_refl eq_refl) as H.
  destruct (TelemetryRouter.get_stints RaceExamples.ascii_upper
              RaceExamples.store 7 (Some "ver"%string)) as [response|e] eqn:E.
  - destruct H as (driver & entry & _ & Hcode & -> & Hentry & _).
    exists entry. split; [reflexivity|]. rewrite Hentry, Hcode. reflexivity.
  - vm_compute in E. discriminate E.
Defined.

(** * The chat endpoint *)

Section Chat.

Variable upper : string -> string.
Variable isoformat : Z -> string.
Variable round3 : Q -> Q.
Variable json_dumps : ChatService.Context -> string.
Variable ask : string -> string -> string + string.

Lemma driver_lookup_errors (db : RaceQueries.Store) (c : string) (e : Errors.error) :
  RaceQueries.get_driver_by_code upper db c = inr e ->
  e = Errors.DriverNotFoundException c
  \/ e = Errors.Lookup Py.MultipleResultsFound.
Proof.
  unfold RaceQueries.get_driver_by_code, RaceQueries.scalar_one_or_none.
  destruct (filter _ (RaceQueries.drivers db)) as [|d [|d' rest]];
    intro H; inversion H; auto.
Qed.

(** Two codes under which drivers of one code are found find one driver. *)
Lemma driver_lookup_by_code (db : RaceQueries.Store) (c c' : string)
    (d d' : Driver) :
  RaceQueries.get_driver_by_code upper db c = inl d ->
  RaceQueries.get_driver_by_code upper db c' = inl d' ->
  code d = code d' -> d = d'.
Proof.
  unfold RaceQueries.get_driver_by_code, RaceQueries.scalar_one_or_none.
  destruct (filter (fun x => String.eqb (code x) (upper c)) (RaceQueries.drivers db))
    as [|x [|x' rest]] eqn:Ef; try discriminate.
  destruct (filter (fun x => String.eqb (code x) (upper c')) (RaceQueries.drivers db))
    as [|y [|y' rest']] eqn:Ef'; try discriminate.
  intros H H' Hcode. inversion H; inversion H'; subst x y.
  assert (Hd : In d (filter (fun x => String.eqb (code x) (upper c))
                            (RaceQueries.drivers db)))
    by (rewrite Ef; left; reflexivity).
  assert (Hd' : In d' (filter (fun x => String.eqb (code x) (upper c'))
                              (RaceQueries.drivers db)))
    by (rewrite Ef'; left; reflexivity).
  apply filter_In in Hd. apply filter_In in Hd'.
  destruct Hd as [_ Hd]. destruct Hd' as [Hin' Hd'].
  apply String.eqb_eq in Hd. apply String.eqb_eq in Hd'.
  assert (Hd'' : In d' (filter (fun x => String.eqb (code x) (upper c))
                               (RaceQueries.drivers db))).
  { apply filter_In. split; [exact Hin'|]. apply String.eqb_eq. congruence. }
  rewrite Ef in Hd''. destruct Hd'' as [H0 | []]. exact H0.
Qed.

Lemma add_drivers_result (db : RaceQueries.Store) (session_id : Z)
    (results : list Result.t) (lap_range : option (Z * Z))
    (codes : list string) :
  forall acc,
    match ChatService.add_drivers upper round3 db session_id results lap_range
            codes acc with
    | inl drivers =>
        drivers
        = acc ++
          flat_map (fun c =>
                      match RaceQueries.get_driver_by_code upper db c with
                      | inl d =>
                          [ChatService.driver_data round3 db session_id results
                             lap_range d]
                      | inr _ => []
                      end) codes
    | inr e =>
        e = Errors.Lookup Py.MultipleResultsFound
        /\ exists c, In c codes
                     /\ RaceQueries.get_driver_by_code upper db c
                        = inr (Errors.Lookup Py.MultipleResultsFound)
    end.
Proof.
  induction codes as [|c codes IH]; intro acc; cbn [ChatService.add_drivers flat_map].
  - rewrite app_nil_r. reflexivity.
  - destruct (RaceQueries.get_driver_by_code upper db c) as [d|e] eqn:Ed.
    + specialize (IH (acc ++ [ChatService.driver_data round3 db session_id
                                results lap_range d])).
      destruct (ChatService.add_drivers _ _ _ _ _ _ codes _).
      * rewrite IH, <- app_assoc. reflexivity.
      * destruct IH as [-> (c' & Hin & Hc')]. split; [reflexivity|].
        exists c'. split; [right; exact Hin | exact Hc'].
    + destruct (driver_lookup_errors db c e Ed) as [-> | ->].
      * specialize (IH acc).
        destruct (ChatService.add_drivers _ _ _ _ _ _ codes _); [exact IH|].
        destruct IH as [-> (c' & Hin & Hc')]. split; [reflexivity|].
        exists c'. split; [right; exact Hin | exact Hc'].
      * split; [reflexivity|]. exists c. split; [left; reflexivity | exact Ed].
Qed.

Lemma strdict_get_setitem_same {V : Type} (d : StrDict.t V) (k : string) (v : V) :
  StrDict.get (StrDict.setitem d k v) k = Some v.
Proof.
  induction d as [|[k' v'] d IH]; cbn.
  - rewrite String.eqb_refl. reflexivity.
  - destruct (String.eqb k' k) eqn:E; cbn; rewrite E; [reflexivity | exact IH].
Qed.

Lemma strdict_get_setitem_other {V : Type} (d : StrDict.t V) (k k' : string) (v : V) :
  k' <> k -> StrDict.get (StrDict.setitem d k v) k' = StrDict.get d k'.
Proof.
  intro Hne. induction d as [|[k0 v0] d IH]; cbn.
  - destruct (String.eqb_spec k k'); [congruence | reflexivity].
  - destruct (String.eqb_spec k0 k); cbn.
    + subst k0. destruct (String.eqb_spec k k'); [congruence | reflexivity].
    + destruct (String.eqb k0 k'); [reflexivity | exact IH].
Qed.

(** An entry of [short_stats] comes from one of the driver dictionaries, and
    every driver dictionary has its code entered. *)
Lemma short_stats_entries (drivers : list ChatService.DriverData)
    (d0 : StrDict.t ChatSchemas.ShortStats) :
  let stats :=
    fold_left (fun short_stats driver_data =>
                 StrDict.setitem short_stats
                   (ChatService.data_code driver_data)
                   (ChatService.short_stat driver_data))
              drivers d0 in
  (forall k st, StrDict.get stats k = Some st ->
     (exists dd, In dd drivers /\ ChatService.data_code dd = k
                 /\ st = ChatService.short_stat dd)
     \/ StrDict.get d0 k = Some st) /\
  (forall dd, In dd drivers ->
     exists dd', In dd' drivers
                 /\ ChatService.data_code dd' = ChatService.data_code dd
                 /\ StrDict.get stats (ChatService.data_code dd)
                    = Some (ChatService.short_stat dd')).
Proof.
  cbv zeta. induction drivers as [|x ds [IH1 IH2]] using rev_ind.
  - cbn. split; [intros k st H; right; exact H | intros dd []].
  - rewrite fold_left_app. cbn [fold_left]. split.
    + intros k st H.
      destruct (String.eqb_spec (ChatService.data_code x) k) as [Heq|Hne].
      * subst k. rewrite strdict_get_setitem_same in H. inversion H.
        left. exists x. split; [apply in_or_app; right; left; reflexivity|].
        split; reflexivity.
      * rewrite strdict_get_setitem_other in H by congruence.
        destruct (IH1 k st H) as [(dd & Hin & Hk & Hst) | Hget];
          [left | right; exact Hget].
        exists dd. split; [apply in_or_app; left; exact Hin | auto].
    + intros dd Hin.
      destruct (String.eqb_spec (ChatService.data_code x)
                  (ChatService.data_code dd)) as [Heq|Hne].
      * exists x. split; [apply in_or_app; right; left; reflexivity|].
        split; [exact Heq|]. rewrite <- Heq.
        apply strdict_get_setitem_same.
      * apply in_app_or in Hin. destruct Hin as [Hin | [-> | []]];
          [|congruence].
        destruct (IH2 dd Hin) as (dd' & Hin' & Hk & Hget).
        exists dd'. split; [apply in_or_app; left; exact Hin'|].
        split; [exact Hk|].
        rewrite strdict_get_setitem_other by congruence. exact Hget.
Qed.

(** The drivers of a context that was built are the dictionaries of the codes
    whose lookup found a driver, in the order of the codes. *)
Lemma context_drivers_found (db : RaceQueries.Store) (race_id session_id : Z)
    (codes : list string) (lap_range : option (Z * Z))
    (context : ChatService.Context) :
  ChatService.build_context_dict upper isoformat round3 db race_id session_id
    codes lap_range = inl context ->
  ChatService.context_drivers context
  = flat_map (fun c =>
                match RaceQueries.get_driver_by_code upper db c with
                | inl d =>
                    [ChatService.driver_data round3 db session_id
                       (RaceQueries.get_race_results db session_id) lap_range d]
                | inr _ => []
                end) codes.
Proof.
  unfold ChatService.build_context_dict.
  destruct (RaceQueries.get_race_by_id db race_id) as [race|e]; [|discriminate].
  cbv zeta.
  pose proof (add_drivers_result db session_id
                (RaceQueries.get_race_results db session_id) lap_range codes [])
    as Hadd.
  destruct (ChatService.add_drivers _ _ _ _ _ _ codes []) as [drivers|e];
    [|discriminate].
  intro H. inversion H. cbn. exact Hadd.
Qed.

(** X17: [chat_about_race] turns every failure into an HTTP 500 whose detail
    is "LLM error: " followed by the text of the exception, whether the race
    is missing, the race session cannot be looked up, a driver code matches
    several drivers, or the language model fails; a missing race is therefore
    never a 404 here. When it returns, the race and its session were found, the
    context was built, and the answer is the one the language model gave for
    the system prompt and the user prompt of that context. *)
Theorem chat_failures_are_500 (db : RaceQueries.Store) (race_id : Z)
    (request : ChatSchemas.ChatRequest) :
  match ChatService.chat_about_race upper isoformat round3 json_dumps ask
          db race_id request with
  | inr e =>
      exists msg,
        e = Errors.HTTPException 500 ("LLM error: " ++ msg)%string /\
        ((RaceQueries.get_race_by_id db race_id
          = inr (Errors.RaceNotFoundException race_id)
          /\ msg = ("Race " ++ Errors.decimal race_id ++ " not found")%string)
         \/ (exists e', RaceQueries.get_race_main_session db race_id
                         = inr (Errors.Lookup e')
                         /\ msg = Py.str e')
         \/ ((exists c,
                In c (map upper (firstn 2 (ChatSchemas.driver_codes request)))
                /\ RaceQueries.get_driver_by_code upper db c
                   = inr (Errors.Lookup Py.MultipleResultsFound))
             /\ msg = Py.str Py.MultipleResultsFound)
         \/ (exists prompt,
               ask ChatService.build_system_prompt prompt = inr msg))
  | inl response =>
      exists race session context,
        RaceQueries.get_race_by_id db race_id = inl race /\
        RaceQueries.get_race_main_session db race_id = inl session /\
        ChatService.build_context_dict upper isoformat round3 db race_id
          (session_pk session)
          (map upper (firstn 2 (ChatSchemas.driver_codes request)))
          (ChatSchemas.lap_range request) = inl context /\
        ask ChatService.build_system_prompt
            (ChatService.user_prompt (ChatSchemas.question request)
               (ChatSchemas.focus request) (json_dumps context))
        = inl (ChatSchemas.answer response)
  end.
Proof.
  unfold ChatService.chat_about_race, ChatService.answer_race_question.
  destruct (RaceQueries.get_race_by_id db race_id) as [race|e] eqn:Er.
  2:{ unfold RaceQueries.get_race_by_id in Er.
      destruct (find _ (RaceQueries.races db)); inversion Er; subst e.
      eexists. split; [reflexivity|]. left. split; reflexivity. }
  destruct (RaceQueries.get_race_main_session db race_id) as [session|e] eqn:Es.
  2:{ unfold RaceQueries.get_race_main_session in Es.
      destruct (F1Queries.get_race_main_session _ race_id) as [|e'];
        inversion Es; subst e.
      eexists. split; [reflexivity|]. right; left. exists e'.
      split; reflexivity. }
  cbv zeta.
  destruct (ChatService.build_context_dict _ _ _ db race_id _ _ _)
    as [context|e] eqn:Ec.
  2:{ unfold ChatService.build_context_dict in Ec. rewrite Er in Ec.
      cbv zeta in Ec.
      pose proof (add_drivers_result db (session_pk session)
                    (RaceQueries.get_race_results db (session_pk session))
                    (ChatSchemas.lap_range request)
                    (map upper (firstn 2 (ChatSchemas.driver_codes request))) [])
        as Hadd.
      destruct (ChatService.add_drivers _ _ _ _ _ _ _ []) as [drivers|e0];
        [discriminate|].
      inversion Ec; subst e0. destruct Hadd as [-> Hc].
      eexists. split; [reflexivity|]. right; right; left.
      split; [exact Hc | reflexivity]. }
  destruct (ask _ _) as [answer|msg] eqn:Ea.
  - exists race, session, context. cbn. auto.
  - exists msg. split; [reflexivity|]. right; right; right.
    eexists. exact Ea.
Qed.

(** X18: When [answer_race_question] returns, the response names the race and
    the lap range of the request, and as drivers the first two codes in upper
    case, found or not. The short statistics have an entry exactly for the
    codes of the drivers that were found: under the driver's stored code, with
    the position of the driver's first result row of the race session, the
    number of the driver's stints and the driver's pit stop count. *)
Theorem chat_used_context (db : RaceQueries.Store) (race_id : Z)
    (question : string) (driver_codes : list string)
    (focus : ChatSchemas.ChatFocus) (lap_range : option (Z * Z))
    (response : ChatSchemas.ChatResponse) :
  ChatService.answer_race_question upper isoformat round3 json_dumps ask
    db race_id question driver_codes focus lap_range = inl response ->
  let used := ChatSchemas.used_context response in
  ChatSchemas.used_race_id used = race_id /\
  ChatSchemas.used_lap_range used = lap_range /\
  ChatSchemas.used_drivers used = map upper (firstn 2 driver_codes) /\
  (length (ChatSchemas.used_drivers used) <= 2)%nat /\
  exists session,
    RaceQueries.get_race_main_session db race_id = inl session /\
    (forall c driver,
       In c (ChatSchemas.used_drivers used) ->
       RaceQueries.get_driver_by_code upper db c = inl driver ->
       StrDict.get (ChatSchemas.short_stats used) (code driver)
       = Some {| ChatSchemas.stat_position :=
                   match
                     find (fun r => Z.eqb (Result.driver_id r) (driver_pk driver))
                          (RaceQueries.get_race_results db (session_pk session))
                   with
                   | Some r => Result.position r
                   | None => None
                   end;
                 ChatSchemas.stat_stints :=
                   Z.of_nat
                     (length (RaceQueries.get_driver_stints db
                                (session_pk session) (driver_pk driver)));
                 ChatSchemas.stat_pit_stops :=
                   RaceQueries.count_pit_stops db (session_pk session)
                     (driver_pk driver) |}) /\
    (forall k st,
       StrDict.get (ChatSchemas.short_stats used) k = Some st ->
       exists c driver,
         In c (ChatSchemas.used_drivers used)
         /\ RaceQueries.get_driver_by_code upper db c = inl driver
         /\ code driver = k).
Proof.
  unfold ChatService.answer_race_question.
  destruct (RaceQueries.get_race_by_id db race_id) as [race|e]; [|discriminate].
  destruct (RaceQueries.get_race_main_session db race_id) as [session|e];
    [|discriminate].
  cbv zeta.
  remember (map upper (firstn 2 driver_codes)) as cleaned eqn:Hcleaned.
  destruct (ChatService.build_context_dict _ _ _ db race_id _ _ _)
    as [context|e] eqn:Ec; [|discriminate].
  destruct (ask _ _) as [answer|msg]; [|discriminate].
  intro H. injection H as <-.
  cbn [ChatSchemas.used_context ChatSchemas.used_race_id
       ChatSchemas.used_lap_range ChatSchemas.used_drivers
       ChatSchemas.short_stats].
  apply context_drivers_found in Ec.
  split; [reflexivity|]. split; [reflexivity|]. split; [reflexivity|]. split.
  { subst cleaned. rewrite length_map, length_firstn. apply Nat.le_min_l. }
  clear Hcleaned.
  exists session. split; [reflexivity|].
  destruct (short_stats_entries (ChatService.context_drivers context) [])
    as [Hfrom Hto]. cbv zeta in Hfrom, Hto.
  set (data := ChatService.driver_data round3 db (session_pk session)
                 (RaceQueries.get_race_results db (session_pk session))
                 lap_range) in *.
  assert (Hmem : forall dd,
             In dd (ChatService.context_drivers context) <->
             exists c d,
               In c cleaned
               /\ RaceQueries.get_driver_by_code upper db c = inl d
               /\ dd = data d).
  { intro dd. rewrite Ec, in_flat_map. split.
    - intros (c & Hin & Hdd).
      destruct (RaceQueries.get_driver_by_code upper db c) as [d|] eqn:Ed;
        [|destruct Hdd].
      destruct Hdd as [<- | []]. exists c, d. auto.
    - intros (c & d & Hin & Hd & ->). exists c. split; [exact Hin|].
      rewrite Hd. left. reflexivity. }
  split.
  - intros c driver Hin Hd.
    destruct (Hto (data driver)) as (dd' & Hin' & Hcode & Hget).
    { apply Hmem. exists c, driver. auto. }
    apply Hmem in Hin'. destruct Hin' as (c' & d' & _ & Hd' & ->).
    assert (d' = driver) by
      (apply (driver_lookup_by_code db c' c); assumption).
    subst d'. cbn in Hget. rewrite Hget.
    unfold ChatService.short_stat. cbn. rewrite length_map. reflexivity.
  - intros k st Hget.
    destruct (Hfrom k st Hget) as [(dd & Hin & Hk & _) | Hnone];
      [|discriminate].
    apply Hmem in Hin. destruct Hin as (c & d & Hin & Hd & ->).
    exists c, d. auto.
Qed.

End Chat.

Lemma chat_used_context_witness :
  let response :=
    {| ChatSchemas.answer := "Verstappen won from pole.";
       ChatSchemas.used_context :=
         {| ChatSchemas.used_race_id := 7;
            ChatSchemas.used_drivers := ["VER"; "XXX"]%string;
            ChatSchemas.used_lap_range := None;
            ChatSchemas.short_stats :=
              [("VER"%string,
                {| ChatSchemas.stat_position := Some 1%Z;
                   ChatSchemas.stat_stints := 2;
                   ChatSchemas.stat_pit_stops := 1 |})] |} |} in
  ChatService.answer_race_question RaceExamples.ascii_upper
    (fun _ => "2024-05-26"%string) (fun q => q) (fun _ => "{}"%string)
    (fun _ _ => inl "Verstappen won from pole."%string)
    RaceExamples.store 7 "Who won?" ["ver"; "xxx"; "ham"]%string
    ChatSchemas.OVERALL None = inl response /\
  ChatSchemas.used_drivers (ChatSchemas.used_context response)
  = map RaceExamples.ascii_upper (firstn 2 ["ver"; "xxx"; "ham"]%string) /\
  (length (ChatSchemas.used_drivers (ChatSchemas.used_context response)) <= 2)%nat.
Proof.
  intro response.
  assert (H : ChatService.answer_race_question RaceExamples.ascii_upper
                (fun _ => "2024-05-26"%string) (fun q => q) (fun _ => "{}"%string)
                (fun _ _ => inl "Verstappen won from pole."%string)
                RaceExamples.store 7 "Who won?" ["ver"; "xxx"; "ham"]%string
                ChatSchemas.OVERALL None = inl response)
    by (vm_compute; reflexivity).
  split; [exact H|].
  destruct (chat_used_context _ _ _ _ _ _ _ _ _ _ _ _ H) as (_ & _ & Hd & Hlen & _).
  split; [exact Hd | exact Hlen].
Defined.
